(** * Claim adjudication and premium rules of the CCI backend

    A shallow embedding of the Mongoose models [Claim], [Premium], [User]
    and [Analytics] and of the controller paths that drive a claim through
    its status lifecycle.

    Conventions of the embedding.
    - A JavaScript [Number] that holds money, a percentage or an average is
      a rational [Q] with exact arithmetic; counts, scores built from
      integer penalties and timestamps are [Z].  A [Date] is the value of
      its [getTime()], in milliseconds.
    - A schema path without default is an [option]: [None] is [undefined].
      A comparison with [undefined] is false and arithmetic on it is not a
      number, which is again written [None].
    - Every clock read of one request ([Date.now()], [new Date()]) returns
      the same instant [now].
    - An [async] method is a state transformer that either completes
      normally or throws; what was written before the throw stays written.
      [save] copies the in-memory document to the stored one.  The schema
      validators a save runs are modelled where a definition says so
      ([Application.save], [ClaimsController.submitClaimRequest]); elsewhere
      a save succeeds, and a property that needs it to succeed states the
      ranges it relies on or is conditional on the run returning.
    - Evidence files, e-mail transport, logging, the [updatedAt] stamps and
      the calls to the generative-AI endpoint are not part of the model. *)

From Stdlib Require Import ZArith QArith Qminmax List String Ascii DecimalString Bool Lia Lqa.
Import ListNotations.
Open Scope Z_scope.

(** ** JavaScript values and helpers *)

Definition ObjectId := Z.
Definition Date := Z.

Definition DAY_MS : Z := 24 * 60 * 60 * 1000.

Definition Qltb (x y : Q) : bool := negb (Qle_bool y x).
Definition Qgtb (x y : Q) : bool := Qltb y x.
Definition Qgeb (x y : Q) : bool := Qle_bool y x.

(** [undefined < q], [undefined >= q], ... are all false. *)
Definition num_ltb (x : option Q) (q : Q) : bool :=
  match x with Some v => Qltb v q | None => false end.
Definition num_geb (x : option Q) (q : Q) : bool :=
  match x with Some v => Qgeb v q | None => false end.

(** [x || d] on numbers: [undefined] and [0] are falsy. *)
Definition num_or (x : option Q) (d : Q) : Q :=
  match x with
  | Some v => if Qeq_bool v 0 then d else v
  | None => d
  end.

(** [Math.max(Math.min(x, hi), lo)]. *)
Definition clamp (lo hi x : Q) : Q := Qmax (Qmin x hi) lo.

(** [a.slice(-n)] and [a.slice(0, n)]. *)
Definition slice_last {A : Type} (n : nat) (a : list A) : list A :=
  skipn (List.length a - n) a.
Definition slice_first {A : Type} (n : nat) (a : list A) : list A :=
  firstn n a.

(** [a.reduce((sum, h) => sum + f(h), 0)]. *)
Definition reduce_sum {A : Type} (f : A -> Q) (a : list A) : Q :=
  fold_left (fun sum h => (sum + f h)%Q) a 0%Q.

Definition Qlength {A : Type} (a : list A) : Q := inject_Z (Z.of_nat (List.length a)).

(** Template-literal rendering of an integer. *)
Definition string_of_Z (z : Z) : string := NilZero.string_of_int (Z.to_int z).

(** ASCII [toLowerCase]. *)
Definition lower_ascii (c : ascii) : ascii :=
  let n := nat_of_ascii c in
  if (andb (Nat.leb 65 n) (Nat.leb n 90)) then ascii_of_nat (n + 32) else c.

Fixpoint toLowerCase (s : string) : string :=
  match s with
  | EmptyString => EmptyString
  | String c r => String (lower_ascii c) (toLowerCase r)
  end.

(** ** Completions: normal return or throw, over a mutable state *)

Inductive JsError :=
| Error (message : string)
| ReferenceError (name : string)
| TypeError (message : string).

Inductive Completion (A : Type) :=
| Normal (a : A)
| Throw (e : JsError).
Arguments Normal {A} a.
Arguments Throw {A} e.

Definition Js (S A : Type) : Type := S -> Completion A * S.

Definition ret {S A : Type} (a : A) : Js S A := fun s => (Normal a, s).
Definition throw {S A : Type} (e : JsError) : Js S A := fun s => (Throw e, s).
Definition bind {S A B : Type} (c : Js S A) (k : A -> Js S B) : Js S B :=
  fun s =>
    match c s with
    | (Normal a, s') => k a s'
    | (Throw e, s') => (Throw e, s')
    end.
Definition get {S : Type} : Js S S := fun s => (Normal s, s).
Definition modify {S : Type} (f : S -> S) : Js S unit := fun s => (Normal tt, f s).

Declare Scope js_scope.
Delimit Scope js_scope with js.
Notation "x <- c ;; k" := (bind c (fun x => k))
  (at level 61, c at next level, right associativity) : js_scope.
Notation "c ;; k" := (bind c (fun _ => k))
  (at level 61, right associativity) : js_scope.

Definition returned {A : Type} (c : Completion A) : option A :=
  match c with Normal a => Some a | Throw _ => None end.

(** Reading an identifier that no enclosing scope binds. *)
Definition unbound {S A : Type} (name : string) : Js S A :=
  throw (ReferenceError name).

(** ** User documents (the paths the claim and premium code reads) *)

Module User.

Record Video := { publishedAt : Date }.

(** An element of [claimHistory.claims]; [$push] stores the status string
    it is given. *)
Record HistoryClaim := {
  claimId : ObjectId;
  status : string;
  dateSubmitted : Date;
  payoutAmount : option Q
}.

Record t := {
  _id : ObjectId;
  fullName : string;                     (* personalInfo.fullName *)
  email : string;                        (* personalInfo.email *)
  mobileNumber : string;                 (* financialInfo.paymentMethod.details.mobileNumber *)
  monthlyEarnings : Q;                   (* financialInfo.monthlyEarnings *)
  videos : option (list Video);          (* platformInfo.youtube.videos, as scanFraud reads it *)
  channelPublishedAt : option Date;      (* platformInfo.youtube.channel.publishedAt *)
  fraudScore : Q;                        (* insuranceStatus.fraudScore *)
  claims : list HistoryClaim             (* claimHistory.claims *)
}.

Definition set_fraudScore (v : Q) (u : t) : t :=
  Build_t (_id u) (fullName u) (email u) (mobileNumber u) (monthlyEarnings u)
          (videos u) (channelPublishedAt u) v (claims u).

Definition push_claim (c : HistoryClaim) (u : t) : t :=
  Build_t (_id u) (fullName u) (email u) (mobileNumber u) (monthlyEarnings u)
          (videos u) (channelPublishedAt u) (fraudScore u) (claims u ++ [c]).

(** [User.findById(id)]. *)
Definition findById (id : ObjectId) (coll : list t) : option t :=
  find (fun u => Z.eqb (_id u) id) coll.

(** Replace the stored document that has the id of [u] ([user.save()]). *)
Definition save (u : t) (coll : list t) : list t :=
  map (fun v => if Z.eqb (_id v) (_id u) then u else v) coll.

(** [User.findByIdAndUpdate(id, { $push: { 'claimHistory.claims': c } })]. *)
Definition findByIdAndPush (id : ObjectId) (c : HistoryClaim) (coll : list t) : list t :=
  map (fun v => if Z.eqb (_id v) id then push_claim c v else v) coll.

(** [User.findByIdAndUpdate(id, { $pull: { 'claimHistory.claims': { claimId } } })]. *)
Definition pull_claim (claim : ObjectId) (u : t) : t :=
  Build_t (_id u) (fullName u) (email u) (mobileNumber u) (monthlyEarnings u)
          (videos u) (channelPublishedAt u) (fraudScore u)
          (filter (fun h => negb (Z.eqb (claimId h) claim)) (claims u)).

Definition findByIdAndPull (id claim : ObjectId) (coll : list t) : list t :=
  map (fun v => if Z.eqb (_id v) id then pull_claim claim v else v) coll.

End User.

(** ** Analytics documents *)

Module Analytics.

Record Earning := { date : Date; amount : Q }.

Record t := {
  userId : ObjectId;
  avgDailyRevenue90d : Q;                (* youtube.metrics.avgDailyRevenue90d *)
  earningsHistory : list Earning         (* youtube.metrics.earningsHistory *)
}.

(** [Analytics.findOne({ userId })]. *)
Definition findOne (uid : ObjectId) (coll : list t) : option t :=
  find (fun a => Z.eqb (userId a) uid) coll.

(** The result of [detectRevenueDrop]; a [drop] of [None] is [NaN]. *)
Record Detection := { drop : option Q; eligible : bool }.

Definition detectRevenueDrop (a : t) : Detection :=
  let history := slice_last 7 (earningsHistory a) in
  if (Z.of_nat (List.length history) <? 3) then Build_Detection (Some 0%Q) false
  else
    let recentAvg := (reduce_sum amount (slice_last 3 history) / 3)%Q in
    (* history.slice(0, -3) *)
    let older := slice_first (List.length history - 3) history in
    (* [0 / 0] is NaN; NaN and 0 are falsy *)
    let baselineAvg :=
      num_or (if (0 <? Z.of_nat (List.length older))
              then Some (reduce_sum amount older / Qlength older)%Q
              else None) recentAvg in
    (* a zero baseline is the fallback [recentAvg]: the quotient is [0 / 0],
       and [Math.max(0, NaN)] and [NaN >= 70] are NaN and false *)
    if Qeq_bool baselineAvg 0 then Build_Detection None false
    else
      let drop_ := Qmax 0 (((baselineAvg - recentAvg) / baselineAvg) * 100)%Q in
      Build_Detection (Some drop_) (Qgeb drop_ 70).

End Analytics.

(** ** Premium documents and their methods *)

Module Premium.

Record Discount := {
  percentage : Q;
  reason : string;
  preventiveServiceDiscount : Q
}.

Record Adjustment := {
  adjPercentage : Q;
  adjReason : string;
  adjustedBy : ObjectId;
  adjustedAt : Date;
  newFinalAmount : Q;
  newFinalPercentage : Q
}.

Record Calculation := {
  calcDate : Date;
  calcBasePercentage : Q;
  calcDiscount : Discount;
  calcFinalPercentage : Q;
  calcFinalAmount : Q;
  calculatedBy : option ObjectId         (* [None] is the string 'System' *)
}.

Record t := {
  _id : ObjectId;
  userId : ObjectId;                     (* premiumDetails.userId *)
  basePercentage : Q;
  discount : Discount;
  finalPercentage : Q;
  finalAmount : Q;
  monthlyCap : option Q;
  manualAdjustment : option Adjustment;
  adjustmentHistory : list Adjustment;
  calculations : list Calculation;       (* calculationHistory.calculations *)
  dueDate : Date                         (* paymentStatus.dueDate *)
}.

Definition findById (id : ObjectId) (coll : list t) : option t :=
  find (fun p => Z.eqb (_id p) id) coll.

(** [User.findById(...)] followed by a property read: a missing user makes
    the read throw. *)
Definition the_user (uid : ObjectId) (users : list User.t) : Js t User.t :=
  match User.findById uid users with
  | Some u => ret u
  | None => throw (TypeError "Cannot read properties of null")
  end.

Definition checkContentReviewDiscount (users : list User.t) : Js t bool :=
  (this <- get ;;
   user <- the_user (userId this) users ;;
   let fraudRate : Q := if Qgtb (User.fraudScore user) 90 then (1#2)%Q else (3#2)%Q in
   let low := Qltb fraudRate 1 in
   let discountPct : Q := if low then 10%Q else 0%Q in
   let discount' :=
     if low then Build_Discount discountPct "Low fraud + preventive AI discount" 5%Q
     else discount this in
   let monthlyEarnings := num_or (Some (User.monthlyEarnings user)) 0 in
   let adjustedPercentage := clamp 2 5 (basePercentage this - discountPct / 100)%Q in
   let amount := clamp 1000 5000 ((adjustedPercentage / 100) * monthlyEarnings)%Q in
   modify (fun p =>
     Build_t (_id p) (userId p) (basePercentage p) discount' adjustedPercentage amount
             (monthlyCap p) (manualAdjustment p) (adjustmentHistory p)
             (calculations p) (dueDate p)) ;;
   ret low)%js.

Definition recalculatePremium (now : Date) (users : list User.t)
    (adminId : option ObjectId) : Js t (Q * Q) :=
  (_ <- checkContentReviewDiscount users ;;
   this <- get ;;
   user <- the_user (userId this) users ;;
   let monthlyEarnings := num_or (Some (User.monthlyEarnings user)) 0 in
   let amount := clamp 1000 5000 ((finalPercentage this / 100) * monthlyEarnings)%Q in
   let entry :=
     Build_Calculation now (basePercentage this) (discount this)
                       (finalPercentage this) amount adminId in
   modify (fun p =>
     Build_t (_id p) (userId p) (basePercentage p) (discount p) (finalPercentage p) amount
             (monthlyCap p) (manualAdjustment p) (adjustmentHistory p)
             (calculations p ++ [entry]) (now + 30 * DAY_MS)) ;;
   ret (finalPercentage this, amount))%js.

Definition adjustPremium (now : Date) (users : list User.t)
    (adjustmentPercentage : Q) (why : string) (adminId : ObjectId) : Js t Q :=
  (this <- get ;;
   user <- the_user (userId this) users ;;
   let monthlyEarnings := num_or (Some (User.monthlyEarnings user)) 0 in
   let newAmount := clamp 1000 5000 (finalAmount this * (1 + adjustmentPercentage / 100))%Q in
   let newPercentage :=
     clamp 2 5 (if Qgtb monthlyEarnings 0 then (newAmount / monthlyEarnings) * 100
                else finalPercentage this)%Q in
   let adj := Build_Adjustment adjustmentPercentage why adminId now newAmount newPercentage in
   modify (fun p =>
     Build_t (_id p) (userId p) (basePercentage p) (discount p) newPercentage newAmount
             (monthlyCap p) (Some adj) (adjustmentHistory p ++ [adj])
             (calculations p) (dueDate p)) ;;
   ret newAmount)%js.

(** The amounts [estimatePremium] computes for an eligible user; they are
    what [createFromApplication] stores in the new document. *)
Definition estimatePremium (user : User.t) : option (Q * Q) :=
  if Qltb (User.monthlyEarnings user) 65000 then None
  else
    let basePercentage := 2%Q in
    let finalPercentage := basePercentage in
    Some (finalPercentage,
          clamp 1000 5000 ((finalPercentage / 100) * User.monthlyEarnings user)%Q).

(** [createFromApplication]: the document created for an eligible user. *)
Definition createFromApplication (now : Date) (newId : ObjectId) (user : option User.t)
    : Completion t :=
  match user with
  | None => Throw (Error "User ineligible: Min KSh 65k/mo earnings required for CCI")
  | Some u =>
    if Qltb (User.monthlyEarnings u) 65000
    then Throw (Error "User ineligible: Min KSh 65k/mo earnings required for CCI")
    else if Qltb (User.fraudScore u) 70
    then Throw (Error "Fraud score too low for approval")
    else
      match estimatePremium u with
      | Some (pct, amount) =>
        Normal (Build_t newId (User._id u) 2 (Build_Discount 0 "" 0) pct amount
                        (Some 65000%Q) None [] [] (now + 7 * DAY_MS))
      | None => Throw (TypeError "estimate is not iterable")
      end
  end.

(** The range the schema locks the final percentage and amount to. *)
Definition inRange (p : t) : Prop :=
  (2 <= finalPercentage p <= 5)%Q /\ (1000 <= finalAmount p <= 5000)%Q.

End Premium.

(** ** The insurance application of a user *)

Module Application.

Inductive InsuranceStatus := NotApplied | Pending | Approved | Rejected | Surrendered.

Inductive Step :=
| OnboardOAuth | OnboardPersonal | OnboardPlatform | OnboardFinancial | Onboarded
| InsuranceApply | InsuranceVerify | InsuranceApproved.

Definition status_eqb (a b : InsuranceStatus) : bool :=
  match a, b with
  | NotApplied, NotApplied | Pending, Pending | Approved, Approved
  | Rejected, Rejected | Surrendered, Surrendered => true
  | _, _ => false
  end.

(** [financialInfo.premium]. *)
Record PremiumLink := {
  amount : Q;
  insuranceId : option ObjectId;
  lastCalculated : option Date
}.

(** The user document with the paths [applyForInsurance] reads and writes
    beside those of [User.t]. *)
Record t := {
  user : User.t;
  onboarded : bool;
  status : InsuranceStatus;              (* insuranceStatus.status *)
  appliedAt : option Date;               (* insuranceStatus.appliedAt *)
  nationalId : string;                   (* personalInfo.nationalId *)
  step : Step;                           (* applicationProgress.step *)
  premium : PremiumLink
}.

Record Result := {
  eligible : bool;
  fraudScore : Q;
  premiumAmount : Q;
  nextStep : Step
}.

(** The document in memory and the users collection. *)
Record Session := { this : t; stored : list t }.

Definition findById (id : ObjectId) (coll : list t) : option t :=
  find (fun u => Z.eqb (User._id (user u)) id) coll.

(** White space of [String.prototype.trim] among the code units below 256. *)
Definition is_space (c : ascii) : bool :=
  let n := nat_of_ascii c in
  (Nat.leb 9 n && Nat.leb n 13) || Nat.eqb n 32 || Nat.eqb n 160.

Fixpoint trimStart (s : string) : string :=
  match s with
  | String c r => if is_space c then trimStart r else s
  | EmptyString => EmptyString
  end.

Fixpoint trimEnd (s : string) : string :=
  match s with
  | String c r =>
    match trimEnd r with
    | EmptyString => if is_space c then EmptyString else String c EmptyString
    | r' => String c r'
    end
  | EmptyString => EmptyString
  end.

Definition trim (s : string) : string := trimEnd (trimStart s).

(** [await this.save()]: the schema validators run on the document
    ([valid]); a document that is no longer stored cannot be updated. *)
Definition save (valid : t -> bool) : Js Session unit :=
  (s <- get ;;
   if negb (valid (this s)) then throw (Error "User validation failed")
   else
     match findById (User._id (user (this s))) (stored s) with
     | None => throw (Error "No document found for query")
     | Some _ =>
       modify (fun s =>
         Build_Session (this s)
           (map (fun v => if Z.eqb (User._id (user v)) (User._id (user (this s)))
                          then this s else v) (stored s)))
     end)%js.

(** The writes before the first save. *)
Definition applied (now : Date) (nationalId_ : string) (u : t) : t :=
  Build_t (User.set_fraudScore 0 (user u)) (onboarded u) Pending (Some now)
          (trim nationalId_) InsuranceApply (premium u).

(** The link back to the premium. *)
Definition linked (now : Date) (p : Premium.t) (u : t) : t :=
  Build_t (user u) (onboarded u) (status u) (appliedAt u) (nationalId u) (step u)
          (Build_PremiumLink (Premium.finalAmount p) (Some (Premium._id p)) (Some now)).

(** [userSchema.methods.applyForInsurance]; [newId] is the id of the premium
    document [createFromApplication] would create. *)
Definition applyForInsurance (valid : t -> bool) (now : Date) (newId : ObjectId)
    (nationalId_ : string) : Js Session Result :=
  (s <- get ;;
   if negb (onboarded (this s))
   then throw (Error "Complete onboarding first for analytics access")
   else if Qltb (User.monthlyEarnings (user (this s))) 0
   then throw (Error "Monthly earnings must be at least KSh 0 for CCI eligibility")
   else if negb (status_eqb (status (this s)) NotApplied)
   then throw (Error "Insurance application already in progress or completed")
   else if String.eqb nationalId_ "" || negb (Nat.eqb (String.length (trim nationalId_)) 8)
   then throw (Error "Valid 8-digit Kenyan National ID required for verification")
   else
     modify (fun s => Build_Session (applied now nationalId_ (this s)) (stored s)) ;;
     save valid ;;
     s <- get ;;
     match Premium.createFromApplication now newId
             (option_map user (findById (User._id (user (this s))) (stored s))) with
     | Throw e => throw e
     | Normal premium_ =>
       modify (fun s => Build_Session (linked now premium_ (this s)) (stored s)) ;;
       save valid ;;
       s <- get ;;
       ret (Build_Result true 0 (Premium.finalAmount premium_) (step (this s)))
     end)%js.

End Application.

(** ** Claim documents *)

Module Claim.

Inductive IncidentType := FullSuspension | LimitedAds | VideoDemonetization.

Inductive AppealStatus := NotStarted | InProgress | AppealRejected.

Inductive CoveredReason :=
| AD_SUITS | POLICY_UPDATE | TEMP_SUSPEND | GLITCH | COPYRIGHT | OTHER_NOT_COVERED.

Inductive MonetizationStatus := LIMITED | SUSPENDED | NONE.

Inductive Status :=
| Submitted | UnderReview | AIReviewed | ManualReview
| Approved | Rejected | Paid | Reinstated.

(** The strings of the schema's [enum]. *)
Definition status_name (s : Status) : string :=
  match s with
  | Submitted => "Submitted"
  | UnderReview => "Under Review"
  | AIReviewed => "AI Reviewed"
  | ManualReview => "Manual Review"
  | Approved => "Approved"
  | Rejected => "Rejected"
  | Paid => "Paid"
  | Reinstated => "Reinstated"
  end.

Definition status_eqb (a b : Status) : bool :=
  match a, b with
  | Submitted, Submitted | UnderReview, UnderReview | AIReviewed, AIReviewed
  | ManualReview, ManualReview | Approved, Approved | Rejected, Rejected
  | Paid, Paid | Reinstated, Reinstated => true
  | _, _ => false
  end.

Definition reason_eqb (a b : CoveredReason) : bool :=
  match a, b with
  | AD_SUITS, AD_SUITS | POLICY_UPDATE, POLICY_UPDATE | TEMP_SUSPEND, TEMP_SUSPEND
  | GLITCH, GLITCH | COPYRIGHT, COPYRIGHT | OTHER_NOT_COVERED, OTHER_NOT_COVERED => true
  | _, _ => false
  end.

(** Notes and in-app messages.  The constant texts are strings; a template
    literal with an interpolated value keeps the value instead of its
    rendering. *)
Inductive Msg :=
| Text (s : string)
| NotCoveredDetected (r : CoveredReason)           (* `Not covered: ${coveredReason} detected.` *)
| ClaimApproved (payout : option Q) (on : Date)    (* `Claim approved! KSh ${...} hits your M-Pesa on ${...}.` *)
| ApprovedAfterReview (payout : Q)                 (* `Approved after review! KSh ${...} incoming.` *)
| ReinstatedRepay (repay : option Q) (by_ : Date)  (* `Reinstated! Repay KSh ${...} within 30 days (by ${...}) ...` *)
| AiFraudScore (score : Z).                        (* `AI fraud score: ${fraudScore}` *)

Record ClaimDetails := {
  userId : ObjectId;
  incidentType : IncidentType;
  incidentDate : Date;
  appealStatus : AppealStatus
}.

Record AiAnalysis := {
  isValid : option bool;
  confidenceScore : option Z;
  fraudScore : Z;
  reasons : list string
}.

Record Review := {
  reviewerId : ObjectId;
  reviewNotes : string;
  reviewIsValid : bool
}.

Record Evaluation := {
  revenueDropPercent : option Q;
  lostDays : Z;
  baselineDaily : option Q;
  verifiedEarningsLoss : option Q;
  coveredReason : CoveredReason;
  monetizationStatus : MonetizationStatus;
  strikes : Z;
  doubleDipCheck : bool;
  aiAnalysis : AiAnalysis;
  manualReview : option Review;
  payoutAmount : option Q;
  payoutDate : option Date;
  mPesaTransactionId : option (Date * Z);   (* `TXN_${Date.now()}_${random}` *)
  repayAmount : option Q;
  reinstated : bool
}.

Record HistoryEntry := {
  status : Status;
  updatedBy : option ObjectId;
  notes : Msg;
  inAppMessage : Msg;
  date : Date
}.

Record doc := {
  _id : ObjectId;
  claimDetails : ClaimDetails;
  policyId : ObjectId;
  evaluation : Evaluation;
  history : list HistoryEntry;              (* statusHistory.history *)
  createdAt : Date
}.

(** The schema defaults of a new document. *)
Definition default_evaluation : Evaluation :=
  Build_Evaluation None 0 None None OTHER_NOT_COVERED NONE 0 false
    (Build_AiAnalysis None None 0 []) None None None None (Some 0%Q) false.

Definition default_history (now : Date) : list HistoryEntry :=
  [Build_HistoryEntry Submitted None (Text "") (Text "") now].

Definition set_appealStatus (v : AppealStatus) (d : ClaimDetails) : ClaimDetails :=
  Build_ClaimDetails (userId d) (incidentType d) (incidentDate d) v.

Definition set_revenueDropPercent (v : option Q) (e : Evaluation) : Evaluation :=
  Build_Evaluation v (lostDays e) (baselineDaily e) (verifiedEarningsLoss e)
    (coveredReason e) (monetizationStatus e) (strikes e) (doubleDipCheck e)
    (aiAnalysis e) (manualReview e) (payoutAmount e) (payoutDate e)
    (mPesaTransactionId e) (repayAmount e) (reinstated e).

Definition set_lostDays (v : Z) (e : Evaluation) : Evaluation :=
  Build_Evaluation (revenueDropPercent e) v (baselineDaily e) (verifiedEarningsLoss e)
    (coveredReason e) (monetizationStatus e) (strikes e) (doubleDipCheck e)
    (aiAnalysis e) (manualReview e) (payoutAmount e) (payoutDate e)
    (mPesaTransactionId e) (repayAmount e) (reinstated e).

Definition set_baselineDaily (v : option Q) (e : Evaluation) : Evaluation :=
  Build_Evaluation (revenueDropPercent e) (lostDays e) v (verifiedEarningsLoss e)
    (coveredReason e) (monetizationStatus e) (strikes e) (doubleDipCheck e)
    (aiAnalysis e) (manualReview e) (payoutAmount e) (payoutDate e)
    (mPesaTransactionId e) (repayAmount e) (reinstated e).

Definition set_verifiedEarningsLoss (v : option Q) (e : Evaluation) : Evaluation :=
  Build_Evaluation (revenueDropPercent e) (lostDays e) (baselineDaily e) v
    (coveredReason e) (monetizationStatus e) (strikes e) (doubleDipCheck e)
    (aiAnalysis e) (manualReview e) (payoutAmount e) (payoutDate e)
    (mPesaTransactionId e) (repayAmount e) (reinstated e).

Definition set_coveredReason (v : CoveredReason) (e : Evaluation) : Evaluation :=
  Build_Evaluation (revenueDropPercent e) (lostDays e) (baselineDaily e)
    (verifiedEarningsLoss e) v (monetizationStatus e) (strikes e) (doubleDipCheck e)
    (aiAnalysis e) (manualReview e) (payoutAmount e) (payoutDate e)
    (mPesaTransactionId e) (repayAmount e) (reinstated e).

Definition set_monetizationStatus (v : MonetizationStatus) (e : Evaluation) : Evaluation :=
  Build_Evaluation (revenueDropPercent e) (lostDays e) (baselineDaily e)
    (verifiedEarningsLoss e) (coveredReason e) v (strikes e) (doubleDipCheck e)
    (aiAnalysis e) (manualReview e) (payoutAmount e) (payoutDate e)
    (mPesaTransactionId e) (repayAmount e) (reinstated e).

Definition set_strikes (v : Z) (e : Evaluation) : Evaluation :=
  Build_Evaluation (revenueDropPercent e) (lostDays e) (baselineDaily e)
    (verifiedEarningsLoss e) (coveredReason e) (monetizationStatus e) v
    (doubleDipCheck e) (aiAnalysis e) (manualReview e) (payoutAmount e) (payoutDate e)
    (mPesaTransactionId e) (repayAmount e) (reinstated e).

Definition set_doubleDipCheck (v : bool) (e : Evaluation) : Evaluation :=
  Build_Evaluation (revenueDropPercent e) (lostDays e) (baselineDaily e)
    (verifiedEarningsLoss e) (coveredReason e) (monetizationStatus e) (strikes e) v
    (aiAnalysis e) (manualReview e) (payoutAmount e) (payoutDate e)
    (mPesaTransactionId e) (repayAmount e) (reinstated e).

Definition set_aiAnalysis (v : AiAnalysis) (e : Evaluation) : Evaluation :=
  Build_Evaluation (revenueDropPercent e) (lostDays e) (baselineDaily e)
    (verifiedEarningsLoss e) (coveredReason e) (monetizationStatus e) (strikes e)
    (doubleDipCheck e) v (manualReview e) (payoutAmount e) (payoutDate e)
    (mPesaTransactionId e) (repayAmount e) (reinstated e).

Definition set_manualReview (v : option Review) (e : Evaluation) : Evaluation :=
  Build_Evaluation (revenueDropPercent e) (lostDays e) (baselineDaily e)
    (verifiedEarningsLoss e) (coveredReason e) (monetizationStatus e) (strikes e)
    (doubleDipCheck e) (aiAnalysis e) v (payoutAmount e) (payoutDate e)
    (mPesaTransactionId e) (repayAmount e) (reinstated e).

Definition set_payoutAmount (v : option Q) (e : Evaluation) : Evaluation :=
  Build_Evaluation (revenueDropPercent e) (lostDays e) (baselineDaily e)
    (verifiedEarningsLoss e) (coveredReason e) (monetizationStatus e) (strikes e)
    (doubleDipCheck e) (aiAnalysis e) (manualReview e) v (payoutDate e)
    (mPesaTransactionId e) (repayAmount e) (reinstated e).

Definition set_payoutDate (v : option Date) (e : Evaluation) : Evaluation :=
  Build_Evaluation (revenueDropPercent e) (lostDays e) (baselineDaily e)
    (verifiedEarningsLoss e) (coveredReason e) (monetizationStatus e) (strikes e)
    (doubleDipCheck e) (aiAnalysis e) (manualReview e) (payoutAmount e) v
    (mPesaTransactionId e) (repayAmount e) (reinstated e).

Definition set_mPesaTransactionId (v : option (Date * Z)) (e : Evaluation) : Evaluation :=
  Build_Evaluation (revenueDropPercent e) (lostDays e) (baselineDaily e)
    (verifiedEarningsLoss e) (coveredReason e) (monetizationStatus e) (strikes e)
    (doubleDipCheck e) (aiAnalysis e) (manualReview e) (payoutAmount e) (payoutDate e)
    v (repayAmount e) (reinstated e).

Definition set_repayAmount (v : option Q) (e : Evaluation) : Evaluation :=
  Build_Evaluation (revenueDropPercent e) (lostDays e) (baselineDaily e)
    (verifiedEarningsLoss e) (coveredReason e) (monetizationStatus e) (strikes e)
    (doubleDipCheck e) (aiAnalysis e) (manualReview e) (payoutAmount e) (payoutDate e)
    (mPesaTransactionId e) v (reinstated e).

Definition set_reinstated (v : bool) (e : Evaluation) : Evaluation :=
  Build_Evaluation (revenueDropPercent e) (lostDays e) (baselineDaily e)
    (verifiedEarningsLoss e) (coveredReason e) (monetizationStatus e) (strikes e)
    (doubleDipCheck e) (aiAnalysis e) (manualReview e) (payoutAmount e) (payoutDate e)
    (mPesaTransactionId e) (repayAmount e) v.

Definition set_claimDetails (v : ClaimDetails) (c : doc) : doc :=
  Build_doc (_id c) v (policyId c) (evaluation c) (history c) (createdAt c).

Definition set_evaluation (v : Evaluation) (c : doc) : doc :=
  Build_doc (_id c) (claimDetails c) (policyId c) v (history c) (createdAt c).

Definition set_history (v : list HistoryEntry) (c : doc) : doc :=
  Build_doc (_id c) (claimDetails c) (policyId c) (evaluation c) v (createdAt c).

(** The schema declares [incidentType] and [reinstated] under
    [claimDetails] and [evaluation] only; a read of either name directly on
    the document yields [undefined]. *)
Definition this_incidentType (c : doc) : option IncidentType := None.
Definition this_reinstated (c : doc) : option bool := None.

(** The current status: the status of the last history entry. *)
Definition currentStatus (c : doc) : option Status :=
  option_map status (last (map Some (history c)) None).

Definition statuses (c : doc) : list Status := map status (history c).

(** *** The store and the environment of a request *)

Inductive EmailText :=
| ClaimProcessed (claim : ObjectId) (statusLower : string) (inApp : Msg) (payout : Q)
| ClaimReviewed (claim : ObjectId) (statusLower : string) (reviewerNotes : string)
| ClaimReinstated (claim : ObjectId) (repay : option Q).

Record Email := { to : string; subject : string; text : EmailText }.

Record Db := {
  claims : list doc;
  users : list User.t;
  outbox : list Email
}.

Record Env := {
  now : Date;
  random : Z;                               (* Math.round(Math.random() * 1000000) *)
  analytics : list Analytics.t;
  premiums : list Premium.t;
  strictQuery : bool                        (* Mongoose's strictQuery option *)
}.

(** A method runs on the in-memory document [this] against the store. *)
Record Ctx := { this : doc; db : Db }.

Definition M (A : Type) : Type := Js Ctx A.

Definition findById (id : ObjectId) (coll : list doc) : option doc :=
  find (fun c => Z.eqb (_id c) id) coll.

Definition upsert (c : doc) (coll : list doc) : list doc :=
  if existsb (fun d => Z.eqb (_id d) (_id c)) coll
  then map (fun d => if Z.eqb (_id d) (_id c) then c else d) coll
  else coll ++ [c].

Definition getThis : M doc := fun s => (Normal (this s), s).

Definition setThis (f : doc -> doc) : M unit :=
  modify (fun s => Build_Ctx (f (this s)) (db s)).

Definition setEvaluation (f : Evaluation -> Evaluation) : M unit :=
  setThis (fun c => set_evaluation (f (evaluation c)) c).

Definition setUsers (f : list User.t -> list User.t) : M unit :=
  modify (fun s =>
    Build_Ctx (this s) (Build_Db (claims (db s)) (f (users (db s))) (outbox (db s)))).

(** [await this.save()]. *)
Definition save : M unit :=
  modify (fun s =>
    Build_Ctx (this s)
      (Build_Db (upsert (this s) (claims (db s))) (users (db s)) (outbox (db s)))).

(** *** Methods of the claim schema *)

Definition updateStatus (E : Env) (newStatus : Status) (by_ : option ObjectId)
    (notes_ message : Msg) : M (option HistoryEntry) :=
  (setThis (fun c =>
     set_history (history c ++ [Build_HistoryEntry newStatus by_ notes_ message (now E)]) c) ;;
   save ;;
   c <- getThis ;;
   ret (last (map Some (history c)) None))%js.

Definition mean (a : list Analytics.Earning) (otherwise : Q) : Q :=
  if (0 <? Z.of_nat (List.length a))
  then (reduce_sum Analytics.amount a / Qlength a)%Q
  else otherwise.

Record Pulled := { drop : Q; rawLostDays : Z; baselineAvg : Q }.

Definition pull (incident : Date) (a : Analytics.t) : Pulled :=
  let history_ :=
    slice_last 7
      (filter (fun h => Analytics.date h <? incident) (Analytics.earningsHistory a)) in
  let baselineAvg_ := mean history_ (Analytics.avgDailyRevenue90d a) in
  let postHistory :=
    slice_first 10
      (filter (fun h => incident <=? Analytics.date h) (Analytics.earningsHistory a)) in
  let recentAvg := mean postHistory 0%Q in
  let drop_ :=
    if Qgtb baselineAvg_ 0
    then Qmax 0 (((baselineAvg_ - recentAvg) / baselineAvg_) * 100)%Q
    else 0%Q in
  let lostDays_ :=
    Z.of_nat (List.length
      (filter (fun h => Qltb (Analytics.amount h) (baselineAvg_ * (3 # 10))%Q) postHistory)) in
  Build_Pulled drop_ lostDays_ baselineAvg_.

Definition autoPullData (E : Env) : M Pulled :=
  (c <- getThis ;;
   match Analytics.findOne (userId (claimDetails c)) (analytics E) with
   | None => throw (Error "No analytics data")
   | Some a =>
     let r := pull (incidentDate (claimDetails c)) a in
     setEvaluation (fun e =>
       set_strikes 0
         (set_monetizationStatus LIMITED
            (set_lostDays (Z.max 3 (rawLostDays r))
               (set_baselineDaily (Some (baselineAvg r))
                  (set_revenueDropPercent (Some (drop r)) e))))) ;;
     save ;;
     ret r
   end)%js.

Definition DEFAULT_CAP : Q := 65000.

Definition calculatePayout (E : Env) : M Q :=
  (c <- getThis ;;
   let baseline := num_or (baselineDaily (evaluation c)) 0 in
   let payoutDaily := (baseline * (70 # 100))%Q in
   let premium := Premium.findById (policyId c) (premiums E) in
   let monthlyCap :=
     num_or (match premium with Some p => Premium.monthlyCap p | None => None end)
            DEFAULT_CAP in
   let total := Qmin (payoutDaily * inject_Z (lostDays (evaluation c)))%Q monthlyCap in
   setEvaluation (fun e => set_verifiedEarningsLoss (Some total) (set_payoutAmount (Some total) e)) ;;
   save ;;
   ret total)%js.

Inductive Coverage := approve | reject.

Definition covered : list CoveredReason := [AD_SUITS; POLICY_UPDATE; TEMP_SUSPEND; GLITCH].

Definition enforceCoverage (c : doc) : Coverage :=
  let e := evaluation c in
  if existsb (reason_eqb (coveredReason e)) covered
     && num_geb (revenueDropPercent e) 70
     && (3 <=? lostDays e)
     && (strikes e <? 3)
  then approve else reject.

Definition MONTH_MS : Z := 1000 * 60 * 60 * 24 * 30.

(** [Object.values(flags).reduce((a, b) => a + b, 0)]; the flags object is
    kept as the list of its entries in insertion order. *)
Definition totalPenalty (flags : list (string * Z)) : Z :=
  fold_left (fun a b => a + b) (map snd flags) 0.

Definition triggered (flags : list (string * Z)) : list (string * Z) :=
  filter (fun kv => 0 <? snd kv) flags.

Definition render_flag (kv : string * Z) : string :=
  (fst kv ++ ":" ++ string_of_Z (snd kv))%string.

Definition fraudFlags (E : Env) (c : doc) (user : User.t) (vids : list User.Video)
    : list (string * Z) :=
  let incident := incidentDate (claimDetails c) in
  let preHistory :=
    match Analytics.findOne (userId (claimDetails c)) (analytics E) with
    | Some a =>
      filter (fun h => (Analytics.date h <? incident)
                       && (incident - 2 * DAY_MS <? Analytics.date h))
             (Analytics.earningsHistory a)
    | None => []
    end in
  let preAvg := mean preHistory 0%Q in
  let spike :=
    match baselineDaily (evaluation c) with
    | Some b => if Qgtb preAvg (b * 2)%Q then 20 else 0
    | None => 0
    end in
  let massUpload :=
    match vids with
    | [] => 0
    | first :: _ =>
      if (5 <? Z.of_nat (List.length vids))
         && forallb (fun v =>
              Z.abs (User.publishedAt v - User.publishedAt first) <? DAY_MS)
              (slice_last 5 vids)
      then 15 else 0
    end in
  let copyrightMismatch :=
    if reason_eqb (coveredReason (evaluation c)) COPYRIGHT
       && negb (match this_incidentType c with
                | Some VideoDemonetization => true
                | _ => false
                end)
    then 25 else 0 in
  let appealRejected :=
    match appealStatus (claimDetails c) with AppealRejected => 10 | _ => 0 end in
  let published :=
    match User.channelPublishedAt user with Some d => d | None => now E end in
  let channelAge := (inject_Z (now E - published) / inject_Z MONTH_MS)%Q in
  let newChannel := if Qltb channelAge 6 then 10 else 0 in
  let nameMismatch :=
    if String.eqb (User.fullName user) (User.mobileNumber user) then 0 else 5 in
  [("revenueSpike"%string, spike); ("massUpload"%string, massUpload);
   ("ipBlock"%string, 0); ("copyrightMismatch"%string, copyrightMismatch);
   ("appealRejected"%string, appealRejected); ("newChannel"%string, newChannel);
   ("nameMismatch"%string, nameMismatch)].

Definition scanFraud (E : Env) : M Z :=
  (c <- getThis ;;
   s <- get ;;
   match User.findById (userId (claimDetails c)) (users (db s)) with
   | None => throw (TypeError "Cannot read properties of null (reading 'platformInfo')")
   | Some user =>
     match User.videos user with
     | None => throw (TypeError "Cannot read properties of undefined (reading 'length')")
     | Some vids =>
       let flags := fraudFlags E c user vids in
       let score := Z.max 0 (100 - totalPenalty flags) in
       setEvaluation (fun e =>
         set_aiAnalysis
           (Build_AiAnalysis (Some (75 <? score)) (Some 90) score
                             (map render_flag (triggered flags))) e) ;;
       save ;;
       ret score
     end
   end)%js.

(** *** The verification flow *)

Record Verification := {
  result_status : Status;
  result_reason : option Msg;
  result_payout : option Q;
  result_fraudScore : option Z;
  needsManual : bool
}.

Definition typeMap (t : IncidentType) : option CoveredReason :=
  match t with
  | FullSuspension => Some TEMP_SUSPEND
  | LimitedAds => Some AD_SUITS
  | VideoDemonetization => Some POLICY_UPDATE
  end.

(** [typeMap[incidentType] || 'OTHER_NOT_COVERED'] *)
Definition mapped (t : IncidentType) : CoveredReason :=
  match typeMap t with Some r => r | None => OTHER_NOT_COVERED end.

(** A stored claim carries the paths of the schema, so the top-level path
    [incidentDate] the query names is absent from every document. *)
Definition top_incidentDate (c : doc) : option Date := None.

Definition matches_gte (field : option Date) (bound : Date) : bool :=
  match field with Some d => bound <=? d | None => false end.

Definition reachedApprovedOrPaid (c : doc) : bool :=
  existsb (fun h => status_eqb (status h) Approved || status_eqb (status h) Paid)
          (history c).

(** [Claim.find({ 'claimDetails.userId', incidentDate: { $gte }, 'statusHistory.history':
    { $elemMatch }, _id: { $ne } })].  With [strictQuery] on, Mongoose
    removes a condition on a path the schema does not declare before the
    query is sent; with it off the condition is sent as it is. *)
Definition recentClaims (E : Env) (me : doc) (coll : list doc) : list doc :=
  let thirtyDaysAgo := now E - 30 * DAY_MS in
  filter (fun c =>
    (userId (claimDetails c) =? userId (claimDetails me))
    && (if strictQuery E then true else matches_gte (top_incidentDate c) thirtyDaysAgo)
    && reachedApprovedOrPaid c
    && negb (_id c =? _id me)) coll.

Definition sameDay (me c : doc) : bool :=
  Z.abs (incidentDate (claimDetails c) - incidentDate (claimDetails me)) <? DAY_MS.

Definition isDuplicate (E : Env) (me : doc) (coll : list doc) : bool :=
  existsb (sameDay me) (recentClaims E me coll).

Definition processPayout (E : Env) (amount : option Q) : M (option (Date * Z)) :=
  (setEvaluation (fun e =>
     set_mPesaTransactionId (Some (now E, random E))
       (set_payoutDate (Some (now E + 7 * DAY_MS)) e)) ;;
   updateStatus E Paid None (Text "") (Text "") ;;
   c <- getThis ;;
   setUsers (User.findByIdAndPush (userId (claimDetails c))
     (User.Build_HistoryClaim (_id c) "Paid" (createdAt c) amount)) ;;
   ret (mPesaTransactionId (evaluation c)))%js.

Definition noLossMessage : Msg :=
  Text "Not covered: No qualifying income loss (≥70% for 3+ days).".
Definition duplicateMessage : Msg := Text "Not covered: Duplicate claim for same event.".
Definition reviewMessage : Msg := Text "Big drop detected. Verifying in 24h.".
Definition rejectMessage : Msg := Text "Not covered: High fraud risk detected.".

Definition rejected (message : Msg) (score : option Z) : Verification :=
  Build_Verification Rejected (Some message) None score false.

Definition verifyClaim (E : Env) : M Verification :=
  ((* Step 1: auto-pull *)
   autoPullData E ;;
   c <- getThis ;;
   if num_ltb (revenueDropPercent (evaluation c)) 70 || (lostDays (evaluation c) <? 3)
   then
     updateStatus E Rejected None noLossMessage noLossMessage ;;
     ret (rejected noLossMessage None)
   else
     (* Step 2: map coveredReason from incidentType *)
     setEvaluation (set_coveredReason (mapped (incidentType (claimDetails c)))) ;;
     c <- getThis ;;
     (* Step 3: coverage check *)
     match enforceCoverage c with
     | reject =>
       let message := NotCoveredDetected (coveredReason (evaluation c)) in
       updateStatus E Rejected None message message ;;
       ret (rejected message None)
     | approve =>
       (* Step 4: double-dip check *)
       s <- get ;;
       let duplicate := isDuplicate E c (claims (db s)) in
       setEvaluation (set_doubleDipCheck duplicate) ;;
       if duplicate
       then
         updateStatus E Rejected None duplicateMessage duplicateMessage ;;
         ret (rejected duplicateMessage None)
       else
         (* Step 5: fraud scan *)
         score <- scanFraud E ;;
         calculatePayout E ;;
         c <- getThis ;;
         let payout := payoutAmount (evaluation c) in
         if 75 <? score
         then
           updateStatus E Approved None (Text "")
                        (ClaimApproved payout (now E + 7 * DAY_MS)) ;;
           processPayout E payout ;;
           ret (Build_Verification Paid None payout (Some score) false)
         else if 50 <=? score
         then
           updateStatus E ManualReview None (Text "") reviewMessage ;;
           ret (Build_Verification UnderReview None None (Some score) true)
         else
           updateStatus E Rejected None rejectMessage rejectMessage ;;
           (* [user] is a local of scanFraud; nothing binds it here *)
           user <- unbound "user" ;;
           setUsers (User.save
             (User.set_fraudScore (Qmax 0 (User.fraudScore user - 20)) user)) ;;
           ret (rejected rejectMessage (Some score))
     end)%js.

Record Repayment := { repay : option Q; deadline : Date }.

Definition handleReinstatement (E : Env) (reinstatedBy : option ObjectId) : M Repayment :=
  (c <- getThis ;;
   if negb (match this_reinstated c with Some b => b | None => false end)
      && existsb (fun h => status_eqb (status h) Paid) (history c)
   then
     let amount := option_map (fun p => (p * (50 # 100))%Q) (payoutAmount (evaluation c)) in
     setEvaluation (fun e => set_repayAmount amount (set_reinstated true e)) ;;
     let repayDeadline := now E + 30 * DAY_MS in
     updateStatus E Reinstated reinstatedBy (Text "Appeal successful")
                  (ReinstatedRepay amount repayDeadline) ;;
     s <- get ;;
     match User.findById (userId (claimDetails c)) (users (db s)) with
     | None => throw (TypeError "Cannot read properties of null (reading 'insuranceStatus')")
     | Some user =>
       setUsers (User.save
         (User.set_fraudScore (Qmax 50 (User.fraudScore user - 10)) user)) ;;
       save ;;
       ret (Build_Repayment amount repayDeadline)
     end
   else throw (Error "Not eligible for reinstatement or already handled"))%js.

(** *** The documents a run leaves behind, for the statements below *)

(** [c] in memory and stored. *)
Definition saved (c : doc) (d : Db) : Ctx :=
  Build_Ctx c (Build_Db (upsert c (claims d)) (users d) (outbox d)).

Definition appended (E : Env) (st : Status) (by_ : option ObjectId) (notes_ message : Msg)
    (c : doc) : doc :=
  set_history (history c ++ [Build_HistoryEntry st by_ notes_ message (now E)]) c.

(** After the pull of step 1. *)
Definition pulled (r : Pulled) (c : doc) : doc :=
  set_evaluation
    (set_strikes 0
       (set_monetizationStatus LIMITED
          (set_lostDays (Z.max 3 (rawLostDays r))
             (set_baselineDaily (Some (baselineAvg r))
                (set_revenueDropPercent (Some (drop r)) (evaluation c)))))) c.

(** After steps 2 to 4 found the claim covered and no duplicate. *)
Definition screened (r : Pulled) (c : doc) : doc :=
  let p := set_evaluation
             (set_coveredReason (mapped (incidentType (claimDetails c)))
                                (evaluation (pulled r c))) (pulled r c) in
  set_evaluation (set_doubleDipCheck false (evaluation p)) p.

Definition score (E : Env) (c : doc) (u : User.t) (v : list User.Video) : Z :=
  Z.max 0 (100 - totalPenalty (fraudFlags E c u v)).

Definition scored (E : Env) (u : User.t) (v : list User.Video) (c : doc) : doc :=
  set_evaluation
    (set_aiAnalysis
       (Build_AiAnalysis (Some (75 <? score E c u v)) (Some 90) (score E c u v)
                         (map render_flag (triggered (fraudFlags E c u v))))
       (evaluation c)) c.

(** The cap [calculatePayout] applies: the policy's, or 65000 when the
    policy is missing or its cap is unset or zero. *)
Definition effectiveCap (E : Env) (c : doc) : Q :=
  num_or (match Premium.findById (policyId c) (premiums E) with
          | Some p => Premium.monthlyCap p
          | None => None
          end) DEFAULT_CAP.

Definition total (E : Env) (c : doc) : Q :=
  Qmin (num_or (baselineDaily (evaluation c)) 0 * (70 # 100)
        * inject_Z (lostDays (evaluation c)))%Q (effectiveCap E c).

Definition paidOut (E : Env) (c : doc) : doc :=
  set_evaluation
    (set_verifiedEarningsLoss (Some (total E c))
       (set_payoutAmount (Some (total E c)) (evaluation c))) c.

(** The entries among the first ten on or after the incident that fall
    below 30% of the baseline. *)
Definition lowDays (incident : Date) (a : Analytics.t) : list Analytics.Earning :=
  filter (fun h => Qltb (Analytics.amount h) (baselineAvg (pull incident a) * (3 # 10))%Q)
    (slice_first 10
       (filter (fun h => incident <=? Analytics.date h) (Analytics.earningsHistory a))).

(** A computation that only appends to the history of the document. *)
Definition Extends {A : Type} (m : M A) : Prop :=
  forall s, exists l, history (this (snd (m s))) = history (this s) ++ l.

(** The stored copy of the document in memory carries its details and its
    status history. *)
Definition recorded (s : Ctx) : Prop :=
  option_map (fun c => (claimDetails c, history c))
             (findById (_id (this s)) (claims (db s)))
  = Some (claimDetails (this s), history (this s)).

(** A computation on a recorded document that keeps it recorded, keeps its
    id and details, and neither creates nor deletes a claim or a user. *)
Definition Stable {A : Type} (m : M A) : Prop :=
  forall s, recorded s ->
    recorded (snd (m s))
    /\ _id (this (snd (m s))) = _id (this s)
    /\ claimDetails (this (snd (m s))) = claimDetails (this s)
    /\ map _id (claims (db (snd (m s)))) = map _id (claims (db s))
    /\ map User._id (users (db (snd (m s)))) = map User._id (users (db s)).

(** How a run ended (normally or not) and the state it left. *)
Definition ended {A : Type} (run : Completion A * Ctx) : bool * Ctx :=
  (match fst run with Normal _ => true | Throw _ => false end, snd run).

End Claim.

(** ** Controllers *)

Inductive Response :=
| Created (claim : ObjectId) (status : string) (payout : Q) (fraudScore : Z)
| Done (message : string)
| Failure (code : Z) (error : string).

Definition with_claims (f : list Claim.doc -> list Claim.doc) (d : Claim.Db) : Claim.Db :=
  Claim.Build_Db (f (Claim.claims d)) (Claim.users d) (Claim.outbox d).

Definition with_users (f : list User.t -> list User.t) (d : Claim.Db) : Claim.Db :=
  Claim.Build_Db (Claim.claims d) (f (Claim.users d)) (Claim.outbox d).

Definition sendEmail (m : Claim.Email) (d : Claim.Db) : Claim.Db :=
  Claim.Build_Db (Claim.claims d) (Claim.users d) (Claim.outbox d ++ [m]).

Definition lastEntry (c : Claim.doc) : option Claim.HistoryEntry :=
  last (map Some (Claim.history c)) None.

Module ClaimsController.

Import Claim.

(** [history[length - 1]?.inAppMessage || 'Claim submitted for review.'] *)
Definition lastInAppMessage (c : doc) : Msg :=
  match lastEntry c with
  | Some h =>
    match inAppMessage h with
    | Text EmptyString => Text "Claim submitted for review."
    | m => m
    end
  | None => Text "Claim submitted for review."
  end.

(** [submitClaim] from the point where the request body, the creator and
    the active policy have been checked (each failed check answers 4xx
    before a claim exists) and the first save has accepted the new document
    (see [submitClaimRequest]): [user] is the creator [req.user.id] resolves
    to, [premiumId] the id of the premium, [newId] the id of the new
    document. *)
Definition submitClaim (E : Env) (user : User.t) (premiumId newId : ObjectId)
    (type : IncidentType) (incident : Date) (appeal : AppealStatus)
    (d : Db) : Response * Db :=
  let claim :=
    Build_doc newId (Build_ClaimDetails (User._id user) type incident appeal)
              premiumId default_evaluation (default_history (now E)) (now E) in
  let d1 := with_claims (upsert claim) d in
  match verifyClaim E (Build_Ctx claim d1) with
  | (Normal r, s) =>
    let name := status_name (result_status r) in
    let paid := num_or (result_payout r) 0 in
    let d2 :=
      with_users (User.findByIdAndPush (User._id user)
        (User.Build_HistoryClaim newId name (createdAt (this s)) (Some paid))) (db s) in
    let d3 :=
      sendEmail (Build_Email (User.email user) ("Claim " ++ name ++ " - CCI")
        (ClaimProcessed newId (toLowerCase name) (lastInAppMessage (this s)) paid)) d2 in
    (Created newId name paid
       (match result_fraudScore r with Some f => f | None => 0 end), d3)
  | (Throw _, s) => (Failure 500 "Server error submitting claim", db s)
  end.

(** What the validators of the first [claim.save()] ask of the two free
    texts of the request, which the claim record does not carry: the
    trimmed [evidenceSummary] has 10 to 200 characters (the default [''] has
    not) and the trimmed [youTubeEmail] at most 500. *)
Definition firstSaveAccepts (evidenceSummary youTubeEmail : string) : bool :=
  let summary := Application.trim evidenceSummary in
  Nat.leb 10 (String.length summary) && Nat.leb (String.length summary) 200
  && Nat.leb (String.length (Application.trim youTubeEmail)) 500.

(** [submitClaim] for a checked request without files: the first save
    throws on a text the validators refuse, and the handler answers 500
    with nothing stored. *)
Definition submitClaimRequest (E : Env) (user : User.t) (premiumId newId : ObjectId)
    (type : IncidentType) (incident : Date) (appeal : AppealStatus)
    (evidenceSummary youTubeEmail : string) (d : Db) : Response * Db :=
  if firstSaveAccepts evidenceSummary youTubeEmail
  then submitClaim E user premiumId newId type incident appeal d
  else (Failure 500 "Server error submitting claim", d).

(** The body of [reviewClaimManual] that runs on the loaded claim. *)
Definition review (E : Env) (adminId : ObjectId) (valid : bool) (notes_ : string) : M Q :=
  (setEvaluation (set_manualReview (Some (Build_Review adminId notes_ valid))) ;;
   let newStatus := if valid then Approved else Rejected in
   payout <- (if valid then calculatePayout E else ret 0%Q) ;;
   updateStatus E newStatus (Some adminId) (Text notes_)
     (if valid then ApprovedAfterReview payout else Text "Rejected after review.") ;;
   (if valid then (processPayout E (Some payout) ;; ret tt) else ret tt) ;;
   ret payout)%js.

Definition reviewClaimManual (E : Env) (adminId id : ObjectId)
    (valid : option bool) (notes_ : string) (d : Db) : Response * Db :=
  match valid with
  | None => (Failure 400 "isValid and notes are required", d)
  | Some v =>
    if String.eqb notes_ "" then (Failure 400 "isValid and notes are required", d)
    else
      match findById id (claims d) with
      | None => (Failure 404 "Claim not found", d)
      | Some claim =>
        match review E adminId v notes_ (Build_Ctx claim d) with
        | (Normal _, s) =>
          match User.findById (userId (claimDetails claim)) (users (db s)) with
          | None => (Failure 500 "Server error reviewing claim", db s)
          | Some user =>
            let name := status_name (if v then Approved else Rejected) in
            (Done ("Claim " ++ toLowerCase name),
             sendEmail (Build_Email (User.email user) ("Claim " ++ name ++ " - CCI")
                          (ClaimReviewed id (toLowerCase name) notes_)) (db s))
          end
        | (Throw _, s) => (Failure 500 "Server error reviewing claim", db s)
        end
      end
  end.

Definition reinstateClaim (E : Env) (adminId id : ObjectId) (d : Db) : Response * Db :=
  match findById id (claims d) with
  | None => (Failure 404 "Claim not found", d)
  | Some claim =>
    match lastEntry claim with
    | None => (Failure 500 "Server error reinstating claim", d)
    | Some h =>
      if negb (status_eqb (status h) Paid)
      then (Failure 400 "Claim must be paid before reinstatement", d)
      else
        match handleReinstatement E (Some adminId) (Build_Ctx claim d) with
        | (Normal _, s) =>
          match User.findById (userId (claimDetails claim)) (users (db s)) with
          | None => (Failure 500 "Server error reinstating claim", db s)
          | Some user =>
            (Done "Claim reinstated; repayment triggered",
             sendEmail (Build_Email (User.email user)
                          "Claim Reinstated - Repayment Due - CCI"
                          (ClaimReinstated id (repayAmount (evaluation (this s))))) (db s))
          end
        | (Throw _, s) => (Failure 500 "Server error reinstating claim", db s)
        end
    end
  end.

(** [deleteClaim] for the creator [requester].  The uploaded files are
    removed from the file host first; a failure there is logged and
    swallowed. *)
Definition deleteClaim (requester id : ObjectId) (d : Db) : Response * Db :=
  match findById id (claims d) with
  | None => (Failure 404 "Claim not found", d)
  | Some claim =>
    (* [populate('claimDetails.userId')] leaves null for a missing user *)
    match User.findById (userId (claimDetails claim)) (users d) with
    | None => (Failure 500 "Server error deleting claim", d)
    | Some owner =>
      if negb (User._id owner =? requester) then (Failure 403 "Unauthorized", d)
      else
        match lastEntry claim with
        | None => (Failure 500 "Server error deleting claim", d)
        | Some h =>
          if negb (status_eqb (status h) Submitted)
          then (Failure 400 "Cannot delete claim after processing started", d)
          else
            (Done "Claim and associated files deleted successfully",
             with_users (User.findByIdAndPull (User._id owner) id)
               (with_claims (filter (fun c => negb (_id c =? id))) d))
        end
    end
  end.

(** The pre-save hook gives a new claim seven days:
    [resolutionDeadline = Date.now() + 7 days], at the instant of creation. *)
Definition resolutionDeadline (c : doc) : Date := createdAt c + 7 * DAY_MS.

(** ['statusHistory.history': { $elemMatch: { status: { $in: ['Under Review',
    'Manual Review'] } } }]: some entry of the history has one of the two
    statuses. *)
Definition everInReview (c : doc) : bool :=
  existsb (fun h => status_eqb (status h) UnderReview || status_eqb (status h) ManualReview)
          (history c).

(** [.sort({ resolutionDeadline: 1 })]; claims with equal deadlines stay in
    the order of the store. *)
Fixpoint insertByDeadline (c : doc) (sorted : list doc) : list doc :=
  match sorted with
  | [] => [c]
  | x :: rest =>
    if resolutionDeadline c <? resolutionDeadline x then c :: sorted
    else x :: insertByDeadline c rest
  end.

Definition sortByDeadline (l : list doc) : list doc :=
  fold_right insertByDeadline [] l.

(** [getPendingDeadlineClaims] for an administrator: the claims whose
    deadline falls within the next 24 hours and that match the status
    condition. *)
Definition getPendingDeadlineClaims (now_ : Date) (d : Db) : list doc :=
  sortByDeadline
    (filter (fun c => (now_ <=? resolutionDeadline c)
                      && (resolutionDeadline c <=? now_ + DAY_MS)
                      && everInReview c) (claims d)).

End ClaimsController.

Module AdminClaimsController.

Import Claim.

Record ReviewItem := {
  claimId : option ObjectId;
  isValid : option bool;                    (* [None]: not a boolean *)
  notes : string
}.

Inductive ItemResult :=
| Reviewed (claim : ObjectId) (message : string) (payout : Q)
| NotReviewed (claim : option ObjectId) (error : string).

(** The [try] block of one review, on the loaded claim. *)
Definition reviewOne (E : Env) (adminId : ObjectId) (valid : bool) (notes_ : string) : M Q :=
  (setEvaluation (set_manualReview (Some (Build_Review adminId notes_ valid))) ;;
   let newStatus := if valid then Approved else Rejected in
   payout <- (if valid
              then (p <- calculatePayout E ;; processPayout E (Some p) ;; ret p)
              else ret 0%Q) ;;
   updateStatus E newStatus (Some adminId) (Text notes_)
     (if valid then ApprovedAfterReview payout else Text "Rejected after review.") ;;
   ret payout)%js.

Definition error_message (e : JsError) : string :=
  match e with Error m => m | ReferenceError n => (n ++ " is not defined") | TypeError m => m end.

(** One turn of the loop.  The read of the current status precedes the
    [try]: on a claim without history it throws out of the loop. *)
Definition reviewItem (E : Env) (adminId : ObjectId) (r : ReviewItem) (d : Db)
    : Completion ItemResult * Db :=
  match claimId r, isValid r with
  | Some id, Some v =>
    if String.eqb (notes r) ""
    then (Normal (NotReviewed (claimId r)
                    "claimId, isValid (boolean), and notes are required"), d)
    else
      match findById id (claims d) with
      | None => (Normal (NotReviewed (Some id) "Claim not found"), d)
      | Some claim =>
        match lastEntry claim with
        | None => (Throw (TypeError "Cannot read properties of undefined (reading 'status')"), d)
        | Some h =>
          if status_eqb (status h) UnderReview || status_eqb (status h) ManualReview
          then
            match reviewOne E adminId v (notes r) (Build_Ctx claim d) with
            | (Normal payout, s) =>
              match User.findById (userId (claimDetails claim)) (users (db s)) with
              | None =>
                (Normal (NotReviewed (Some id)
                           "Cannot read properties of null (reading 'personalInfo')"),
                 db s)
              | Some user =>
                let name := status_name (if v then Approved else Rejected) in
                (Normal (Reviewed id ("Claim " ++ toLowerCase name)
                                  (if v then payout else 0%Q)),
                 sendEmail (Build_Email (User.email user) ("Claim " ++ name ++ " - CCI")
                              (ClaimReviewed id (toLowerCase name) (notes r))) (db s))
              end
            | (Throw e, s) => (Normal (NotReviewed (Some id) (error_message e)), db s)
            end
          else (Normal (NotReviewed (Some id) "Claim not eligible for manual review"), d)
        end
      end
  | _, _ =>
    (Normal (NotReviewed (claimId r)
               "claimId, isValid (boolean), and notes are required"), d)
  end.

Fixpoint reviewAll (E : Env) (adminId : ObjectId) (reviews : list ReviewItem) (d : Db)
    : Completion (list ItemResult) * Db :=
  match reviews with
  | [] => (Normal [], d)
  | r :: rest =>
    match reviewItem E adminId r d with
    | (Normal res, d1) =>
      match reviewAll E adminId rest d1 with
      | (Normal more, d2) => (Normal (res :: more), d2)
      | (Throw e, d2) => (Throw e, d2)
      end
    | (Throw e, d1) => (Throw e, d1)
    end
  end.

(** The answer is the list of per-review results, a 400 for an empty list,
    or the error handed to [next]. *)
Definition bulkReviewClaims (E : Env) (adminId : ObjectId) (reviews : list ReviewItem)
    (d : Db) : Completion (Response + list ItemResult) * Db :=
  match reviews with
  | [] => (Normal (inl (Failure 400 "Reviews array is required and cannot be empty")), d)
  | _ =>
    match reviewAll E adminId reviews d with
    | (Normal results, d') => (Normal (inr results), d')
    | (Throw e, d') => (Throw e, d')
    end
  end.

End AdminClaimsController.

(** ** The specification's wording, for comparison with the code *)

Module Spec.

Import Claim.

(** Duplicate Guard, as worded: the same user's other claims with incident
    date within the trailing 30-day window that reached Approved or Paid;
    duplicate when one of them lies within 24 hours of the current one. *)
Definition duplicate (now_ : Date) (me : doc) (coll : list doc) : bool :=
  existsb (fun c =>
    (userId (claimDetails c) =? userId (claimDetails me))
    && (now_ - 30 * DAY_MS <=? incidentDate (claimDetails c))
    && reachedApprovedOrPaid c
    && negb (_id c =? _id me)
    && sameDay me c) coll.

(** Reason mismatch, as worded: the classified category is copyright and
    the reported incident type is not video demonetization. *)
Definition reasonMismatch (c : doc) : Z :=
  if reason_eqb (coveredReason (evaluation c)) COPYRIGHT
     && negb (match incidentType (claimDetails c) with
              | VideoDemonetization => true
              | _ => false
              end)
  then 25 else 0.

(** Qualifying lost days, as worded: the count, floored at 3 only if at
    least one entry qualifies. *)
Definition qualifyingLostDays (count : Z) : Z :=
  if 0 <? count then Z.max 3 count else 0.

(** Payout, as worded. *)
Definition payout (baselineDaily_ : Q) (days : Z) (monthlyCap_ : Q) : Q :=
  Qmin (baselineDaily_ * (70 # 100) * inject_Z days)%Q monthlyCap_.

(** No Paid entry without an Approved entry before it. *)
Fixpoint paidFollowsApproved (seenApproved : bool) (l : list Status) : bool :=
  match l with
  | [] => true
  | Paid :: r => seenApproved && paidFollowsApproved seenApproved r
  | Approved :: r => paidFollowsApproved true r
  | _ :: r => paidFollowsApproved seenApproved r
  end.

End Spec.

(** ** Sample data *)

Module Sample.

Import Claim.

Definition day (n : Z) : Date := n * DAY_MS.

Definition earnings (amount_ : Q) (days : list Z) : list Analytics.Earning :=
  map (fun i => Analytics.Build_Earning (day i) amount_) days.

(** Seven days at 1000 before the incident of day 100, five days at 100
    from it on. *)
Definition steadyThenDrop : Analytics.t :=
  Analytics.Build_t 1 0
    (earnings 1000 [93; 94; 95; 96; 97; 98; 99] ++ earnings 100 [100; 101; 102; 103; 104]).

(** A spike on the eve of the incident, nothing after it. *)
Definition spikeThenNothing : Analytics.t :=
  Analytics.Build_t 1 0
    (earnings 0 [93; 94; 95; 96; 97; 98] ++ earnings 1400 [99]
     ++ earnings 0 [100; 101; 102; 103; 104]).

(** Revenue that never falls below 30% of the baseline. *)
Definition mildDrop : Analytics.t :=
  Analytics.Build_t 1 0
    (earnings 1000 [93; 94; 95; 96; 97; 98; 99] ++ earnings 400 [100; 101; 102]).

(** Analytics records without any revenue entry: with a zero and with a
    positive 90-day average. *)
Definition noHistory : Analytics.t := Analytics.Build_t 1 0 [].
Definition averageOnly : Analytics.t := Analytics.Build_t 1 4200 [].

(** User objects that carry a [videos] array under [platformInfo.youtube]
    and, the first, a [publishedAt] under [channel]: what [scanFraud] reads.
    The user schema declares neither path; [schemaShaped] below is the
    creator as a query returns it. *)
Definition creator : User.t :=
  User.Build_t 1 "Ann Wanjiru" "ann@example.com" "+254700000001" 100000
               (Some []) (Some (day 0 - 400 * DAY_MS)) 80 [].

Definition sixUploads : list User.Video :=
  map (fun _ => User.Build_Video (day 99)) [1; 2; 3; 4; 5; 6].

Definition bulkUploader : User.t :=
  User.Build_t 1 "Ann Wanjiru" "ann@example.com" "+254700000001" 100000
               (Some sixUploads) None 80 [].

Definition newcomer : User.t :=
  User.Build_t 1 "Ann Wanjiru" "ann@example.com" "+254700000001" 100000
               (Some []) None 80 [].

Definition policy (cap : option Q) : Premium.t :=
  Premium.Build_t 7 1 2 (Premium.Build_Discount 0 "" 0) 2 2000 cap None [] [] 0.

Definition env (today : Z) (a : Analytics.t) (cap : option Q) (strict : bool) : Env :=
  Build_Env (day today) 424242 [a] [policy cap] strict.

Definition newClaim (E : Env) (id : ObjectId) (type : IncidentType) (incident : Date)
    (appeal : AppealStatus) : doc :=
  Build_doc id (Build_ClaimDetails 1 type incident appeal) 7
            default_evaluation (default_history (now E)) (now E).

Definition entry (s : Status) (at_ : Date) : HistoryEntry :=
  Build_HistoryEntry s None (Text "") (Text "") at_.

(** An earlier claim of the same creator, paid, for an incident twelve
    hours before day 100. *)
Definition earlierPaid : doc :=
  Build_doc 400 (Build_ClaimDetails 1 FullSuspension (day 100 - 12 * 60 * 60 * 1000) NotStarted) 7
            (set_payoutAmount (Some 3500%Q) default_evaluation)
            [entry Submitted (day 100); entry Approved (day 100); entry Paid (day 100)]
            (day 100).

Definition store (cs : list doc) (u : User.t) : Db := Build_Db cs [u] [].

Definition ctx (c : doc) (d : Db) : Ctx := Build_Ctx c (with_claims (upsert c) d).

(** A claim the classifier marked as copyright although the creator
    reported a video demonetization. *)
Definition copyrightClaim : doc :=
  Build_doc 600 (Build_ClaimDetails 1 VideoDemonetization (day 100) NotStarted) 7
            (set_coveredReason COPYRIGHT default_evaluation)
            (default_history (day 100)) (day 100).

(** The creator as the user schema shapes the document: no [videos] under
    [platformInfo.youtube], no [publishedAt] under [channel]. *)
Definition schemaShaped : User.t :=
  User.Build_t 1 "Ann Wanjiru" "ann@example.com" "+254700000001" 100000 None None 80 [].

(** A claim held in Manual Review with a pulled baseline of 1000 a day and
    five lost days. *)
Definition heldClaim : doc :=
  Build_doc 500 (Build_ClaimDetails 1 FullSuspension (day 100) NotStarted) 7
            (set_lostDays 5 (set_baselineDaily (Some 1000%Q) default_evaluation))
            [entry Submitted (day 100); entry ManualReview (day 100)]
            (day 100).

(** A claim whose pull found a baseline of 1000 a day and five lost days. *)
Definition pulledClaim : doc :=
  Build_doc 700 (Build_ClaimDetails 1 FullSuspension (day 100) NotStarted) 7
            (set_lostDays 5 (set_baselineDaily (Some 1000%Q) default_evaluation))
            (default_history (day 100)) (day 100).

(** The environment of a creator for whom no analytics record exists. *)
Definition envWithoutAnalytics : Env :=
  Build_Env (day 105) 424242 [] [policy (Some 65000%Q)] false.

End Sample.

(** * Properties *)

Import Claim Sample.

(** ** Runs of the claim methods *)

Lemma bind_eq {S A B : Type} (c : Js S A) (k : A -> Js S B) s :
  bind c k s
  = match c s with
    | (Normal a, s') => k a s'
    | (Throw e, s') => (Throw e, s')
    end.
Proof. reflexivity. Qed.

Lemma getThis_run (s : Ctx) : getThis s = (Normal (this s), s).
Proof. reflexivity. Qed.

Lemma get_run {S : Type} (s : S) : get s = (Normal s, s).
Proof. reflexivity. Qed.

Lemma ret_run {S A : Type} (a : A) (s : S) : ret a s = (Normal a, s).
Proof. reflexivity. Qed.

Lemma setEvaluation_run f (s : Ctx) :
  setEvaluation f s
  = (Normal tt, Build_Ctx (set_evaluation (f (evaluation (this s))) (this s)) (db s)).
Proof. reflexivity. Qed.

Lemma last_snoc {A : Type} (l : list A) (e : A) :
  last (map Some (l ++ [e])) None = Some e.
Proof.
  rewrite map_app. simpl. apply last_last.
Qed.

Lemma updateStatus_run (E : Env) st by_ n m (s : Ctx) :
  updateStatus E st by_ n m s
  = (Normal (Some (Build_HistoryEntry st by_ n m (now E))),
     saved (appended E st by_ n m (this s)) (db s)).
Proof.
  unfold updateStatus, bind, setThis, modify, save, getThis, ret, saved, appended.
  simpl. rewrite last_snoc. reflexivity.
Qed.

Lemma autoPullData_run (E : Env) (s : Ctx) (a : Analytics.t) :
  Analytics.findOne (userId (claimDetails (this s))) (analytics E) = Some a ->
  autoPullData E s
  = (Normal (pull (incidentDate (claimDetails (this s))) a),
     saved (pulled (pull (incidentDate (claimDetails (this s))) a) (this s)) (db s)).
Proof.
  intros H. unfold autoPullData, bind, getThis. rewrite H. reflexivity.
Qed.

Lemma autoPullData_absent (E : Env) (s : Ctx) :
  Analytics.findOne (userId (claimDetails (this s))) (analytics E) = None ->
  autoPullData E s = (Throw (Error "No analytics data"), s).
Proof.
  intros H. unfold autoPullData, bind, getThis. rewrite H. reflexivity.
Qed.

Lemma calculatePayout_run (E : Env) (s : Ctx) :
  calculatePayout E s = (Normal (total E (this s)), saved (paidOut E (this s)) (db s)).
Proof. reflexivity. Qed.

Lemma scanFraud_run (E : Env) (s : Ctx) (u : User.t) (v : list User.Video) :
  User.findById (userId (claimDetails (this s))) (users (db s)) = Some u ->
  User.videos u = Some v ->
  scanFraud E s
  = (Normal (score E (this s) u v), saved (scored E u v (this s)) (db s)).
Proof.
  intros Hu Hv. unfold scanFraud, bind, getThis, get. rewrite Hu, Hv. reflexivity.
Qed.

(** ** The stored copy *)

Lemma map_replace_none (x : doc) (coll : list doc) :
  existsb (fun d => _id d =? _id x) coll = false ->
  map (fun d => if _id d =? _id x then x else d) coll = coll.
Proof.
  induction coll as [|y coll IH]; [reflexivity|]. cbn [existsb map].
  intros H. apply orb_false_iff in H. destruct H as [Hy Hc].
  rewrite Hy, (IH Hc). reflexivity.
Qed.

Lemma upsert_upsert (x y : doc) (coll : list doc) :
  _id x = _id y -> upsert x (upsert y coll) = upsert x coll.
Proof.
  intros Hid. unfold upsert. rewrite Hid.
  destruct (existsb (fun d => _id d =? _id y) coll) eqn:Hex.
  - replace (existsb (fun d => _id d =? _id y)
               (map (fun d => if _id d =? _id y then y else d) coll)) with true.
    + rewrite map_map. apply map_ext. intros d.
      destruct (Z.eqb_spec (_id d) (_id y)) as [e|ne].
      * rewrite Z.eqb_refl. reflexivity.
      * destruct (Z.eqb_spec (_id d) (_id y)); [contradiction|reflexivity].
    + symmetry. rewrite existsb_exists. apply existsb_exists in Hex.
      destruct Hex as [d [Hin Hd]]. exists y. split; [|apply Z.eqb_refl].
      apply in_map_iff. exists d. rewrite Hd. split; [reflexivity|exact Hin].
  - rewrite existsb_app. cbn [existsb]. rewrite Z.eqb_refl, orb_true_r.
    rewrite map_app. cbn [map]. rewrite Z.eqb_refl.
    rewrite <- Hid in Hex |- *. rewrite (map_replace_none x coll Hex). reflexivity.
Qed.

Lemma findById_upsert (x : doc) (coll : list doc) :
  findById (_id x) (upsert x coll) = Some x.
Proof.
  unfold findById, upsert.
  destruct (existsb (fun d => _id d =? _id x) coll) eqn:Hex.
  - induction coll as [|y coll IH]; [discriminate|]. cbn [existsb] in Hex. cbn [map find].
    destruct (Z.eqb_spec (_id y) (_id x)) as [e|ne].
    + rewrite Z.eqb_refl. reflexivity.
    + destruct (Z.eqb_spec (_id y) (_id x)); [contradiction|]. apply IH. exact Hex.
  - induction coll as [|y coll IH].
    + cbn. rewrite Z.eqb_refl. reflexivity.
    + cbn [existsb] in Hex. apply orb_false_iff in Hex. destruct Hex as [Hy Hc].
      cbn [app find]. rewrite Hy. apply IH. exact Hc.
Qed.

Lemma filter_upsert (f : doc -> bool) (x : doc) (coll : list doc) :
  (forall y, _id y = _id x -> f y = false) ->
  filter f (upsert x coll) = filter f coll.
Proof.
  intros Hf. unfold upsert.
  destruct (existsb (fun d => _id d =? _id x) coll).
  - induction coll as [|y coll IH]; [reflexivity|]. cbn [map filter].
    destruct (Z.eqb_spec (_id y) (_id x)) as [e|ne].
    + rewrite (Hf x eq_refl), (Hf y e). exact IH.
    + rewrite IH. reflexivity.
  - rewrite filter_app. cbn [filter]. rewrite (Hf x eq_refl). apply app_nil_r.
Qed.

(** The query excludes the claim itself, so saving the claim does not
    change what the guard finds. *)
Lemma recentClaims_upsert (E : Env) (me me' : doc) (coll : list doc) :
  _id me' = _id me ->
  recentClaims E me (upsert me' coll) = recentClaims E me coll.
Proof.
  intros Hid. unfold recentClaims. apply filter_upsert.
  intros x Hx. rewrite Hx, Hid, Z.eqb_refl. cbn [negb]. apply andb_false_r.
Qed.

Lemma isDuplicate_same (E : Env) (me me' me'' : doc) (coll : list doc) :
  _id me' = _id me -> claimDetails me' = claimDetails me -> _id me'' = _id me ->
  isDuplicate E me' (upsert me'' coll) = isDuplicate E me coll.
Proof.
  intros Hid Hd Hid'. unfold isDuplicate.
  replace (recentClaims E me' (upsert me'' coll)) with (recentClaims E me (upsert me'' coll)).
  2:{ unfold recentClaims. rewrite Hid, Hd. reflexivity. }
  rewrite recentClaims_upsert by exact Hid'.
  unfold sameDay. rewrite Hd. reflexivity.
Qed.

(** The documents of one run carry the id of the claim. *)
Lemma id_set_evaluation (v : Evaluation) (c : doc) : _id (set_evaluation v c) = _id c.
Proof. reflexivity. Qed.

Lemma id_appended (E : Env) st by_ n m (c : doc) : _id (appended E st by_ n m c) = _id c.
Proof. reflexivity. Qed.

Lemma id_pulled (r : Pulled) (c : doc) : _id (pulled r c) = _id c.
Proof. reflexivity. Qed.

Lemma id_screened (r : Pulled) (c : doc) : _id (screened r c) = _id c.
Proof. reflexivity. Qed.

Lemma id_scored (E : Env) (u : User.t) (v : list User.Video) (c : doc) :
  _id (scored E u v c) = _id c.
Proof. reflexivity. Qed.

Lemma id_paidOut (E : Env) (c : doc) : _id (paidOut E c) = _id c.
Proof. reflexivity. Qed.

Ltac same_id :=
  rewrite ?id_appended, ?id_set_evaluation, ?id_paidOut, ?id_scored, ?id_screened,
          ?id_pulled;
  reflexivity.

(** ** Steps 1 to 4 of the verification *)

Lemma Qltb_false (x y : Q) : (y <= x)%Q -> Qltb x y = false.
Proof.
  intros H. unfold Qltb. apply negb_false_iff. apply Qle_bool_iff. exact H.
Qed.

Lemma Qltb_true (x y : Q) : (x < y)%Q -> Qltb x y = true.
Proof.
  intros H. unfold Qltb. apply negb_true_iff.
  destruct (Qle_bool y x) eqn:Hb; [|reflexivity].
  apply Qle_bool_iff in Hb. exfalso. apply (Qlt_not_le _ _ H Hb).
Qed.

Lemma covered_mapped (t : IncidentType) : existsb (reason_eqb (mapped t)) covered = true.
Proof. destruct t; reflexivity. Qed.

Lemma no_loss_false (r : Pulled) (c : doc) :
  (70 <= drop r)%Q ->
  num_ltb (revenueDropPercent (evaluation (pulled r c))) 70
  || (lostDays (evaluation (pulled r c)) <? 3) = false.
Proof.
  intros H. cbn [pulled evaluation set_evaluation revenueDropPercent lostDays
                 set_strikes set_monetizationStatus set_lostDays set_baselineDaily
                 set_revenueDropPercent num_ltb].
  rewrite (Qltb_false _ _ H). cbn [orb]. apply Z.ltb_ge. lia.
Qed.

Lemma no_loss_true (r : Pulled) (c : doc) :
  (drop r < 70)%Q ->
  num_ltb (revenueDropPercent (evaluation (pulled r c))) 70
  || (lostDays (evaluation (pulled r c)) <? 3) = true.
Proof.
  intros H. cbn [pulled evaluation set_evaluation revenueDropPercent lostDays
                 set_strikes set_monetizationStatus set_lostDays set_baselineDaily
                 set_revenueDropPercent num_ltb].
  rewrite (Qltb_true _ _ H). reflexivity.
Qed.

(** After a pull with a drop of 70% or more the coverage check passes:
    the three incident types map to covered reasons, the lost days are at
    least 3 and the strikes are 0. *)
Lemma enforceCoverage_pulled (r : Pulled) (c : doc) (t : IncidentType) :
  (70 <= drop r)%Q ->
  enforceCoverage
    (set_evaluation (set_coveredReason (mapped t) (evaluation (pulled r c))) (pulled r c))
  = approve.
Proof.
  intros H. unfold enforceCoverage.
  cbn [pulled evaluation set_evaluation revenueDropPercent lostDays strikes coveredReason
       set_coveredReason set_strikes set_monetizationStatus set_lostDays
       set_baselineDaily set_revenueDropPercent num_geb].
  rewrite covered_mapped. unfold Qgeb.
  rewrite (proj2 (Qle_bool_iff _ _) H).
  replace (3 <=? Z.max 3 (rawLostDays r)) with true by (symmetry; apply Z.leb_le; lia).
  reflexivity.
Qed.

(** Runs [verifyClaim] up to the branch on the fraud score. *)
Ltac screening E c d a r u v Ha Hdrop Hdup Hu Hv :=
  unfold verifyClaim;
  rewrite bind_eq, (autoPullData_run E (Build_Ctx c d) a Ha); cbv beta iota;
  rewrite bind_eq, getThis_run; cbv beta iota;
  cbn [this db saved];
  match goal with H : r = pull _ _ |- _ => rewrite <- H end;
  rewrite (no_loss_false r c Hdrop);
  rewrite bind_eq, setEvaluation_run; cbv beta iota;
  rewrite bind_eq, getThis_run; cbv beta iota;
  cbn [this db];
  replace (claimDetails (pulled r c)) with (claimDetails c) by reflexivity;
  rewrite (enforceCoverage_pulled r c _ Hdrop);
  rewrite bind_eq, get_run; cbv beta iota;
  cbn [this db claims saved];
  rewrite (isDuplicate_same E c) by reflexivity; rewrite Hdup; cbv iota;
  rewrite bind_eq, setEvaluation_run; cbv beta iota;
  cbn [this db]; fold (screened r c);
  rewrite bind_eq;
  match goal with |- context [scanFraud E ?s] => rewrite (scanFraud_run E s u v Hu Hv) end;
  cbv beta iota;
  rewrite bind_eq, calculatePayout_run; cbv beta iota;
  rewrite bind_eq, getThis_run; cbv beta iota;
  cbn [this db saved users outbox claims].

(** The manual band: the history gets 'Manual Review', the caller gets
    'Under Review'. *)
Lemma verifyClaim_manual (E : Env) (c : doc) (d : Db) (a : Analytics.t)
    (u : User.t) (v : list User.Video) (r : Pulled) :
  r = pull (incidentDate (claimDetails c)) a ->
  Analytics.findOne (userId (claimDetails c)) (analytics E) = Some a ->
  (70 <= drop r)%Q ->
  isDuplicate E c (claims d) = false ->
  User.findById (userId (claimDetails c)) (users d) = Some u ->
  User.videos u = Some v ->
  50 <= score E (screened r c) u v <= 75 ->
  verifyClaim E (Build_Ctx c d)
  = (Normal (Build_Verification UnderReview None None
               (Some (score E (screened r c) u v)) true),
     saved (appended E ManualReview None (Text "") reviewMessage
              (paidOut E (scored E u v (screened r c)))) d).
Proof.
  intros Hr Ha Hdrop Hdup Hu Hv Hband.
  screening E c d a r u v Ha Hdrop Hdup Hu Hv.
  replace (75 <? score E (screened r c) u v) with false by (symmetry; apply Z.ltb_ge; lia).
  replace (50 <=? score E (screened r c) u v) with true by (symmetry; apply Z.leb_le; lia).
  rewrite bind_eq, updateStatus_run. cbv beta iota. rewrite ret_run.
  f_equal. unfold saved. cbn [this db claims users outbox].
  rewrite !upsert_upsert by same_id. reflexivity.
Qed.

(** The low branch: Rejected is appended and saved, then the read of
    [user] throws; the store of users is not touched. *)
Lemma verifyClaim_low (E : Env) (c : doc) (d : Db) (a : Analytics.t)
    (u : User.t) (v : list User.Video) (r : Pulled) :
  r = pull (incidentDate (claimDetails c)) a ->
  Analytics.findOne (userId (claimDetails c)) (analytics E) = Some a ->
  (70 <= drop r)%Q ->
  isDuplicate E c (claims d) = false ->
  User.findById (userId (claimDetails c)) (users d) = Some u ->
  User.videos u = Some v ->
  score E (screened r c) u v < 50 ->
  verifyClaim E (Build_Ctx c d)
  = (Throw (ReferenceError "user"),
     saved (appended E Rejected None rejectMessage rejectMessage
              (paidOut E (scored E u v (screened r c)))) d).
Proof.
  intros Hr Ha Hdrop Hdup Hu Hv Hlow.
  screening E c d a r u v Ha Hdrop Hdup Hu Hv.
  replace (75 <? score E (screened r c) u v) with false by (symmetry; apply Z.ltb_ge; lia).
  replace (50 <=? score E (screened r c) u v) with false by (symmetry; apply Z.leb_gt; lia).
  rewrite bind_eq, updateStatus_run. cbv beta iota.
  rewrite bind_eq. unfold unbound, throw. cbv beta iota.
  f_equal. unfold saved. cbn [this db claims users outbox].
  rewrite !upsert_upsert by same_id. reflexivity.
Qed.

(** The high branch: Approved, then the payout is executed and Paid is
    appended. *)
Lemma verifyClaim_high (E : Env) (c : doc) (d : Db) (a : Analytics.t)
    (u : User.t) (v : list User.Video) (r : Pulled) :
  r = pull (incidentDate (claimDetails c)) a ->
  Analytics.findOne (userId (claimDetails c)) (analytics E) = Some a ->
  (70 <= drop r)%Q ->
  isDuplicate E c (claims d) = false ->
  User.findById (userId (claimDetails c)) (users d) = Some u ->
  User.videos u = Some v ->
  75 < score E (screened r c) u v ->
  exists s',
    verifyClaim E (Build_Ctx c d)
    = (Normal (Build_Verification Paid None (Some (total E (scored E u v (screened r c))))
                 (Some (score E (screened r c) u v)) false), s')
    /\ statuses (this s') = statuses c ++ [Approved; Paid]
    /\ payoutAmount (evaluation (this s')) = Some (total E (scored E u v (screened r c))).
Proof.
  intros Hr Ha Hdrop Hdup Hu Hv Hhigh.
  screening E c d a r u v Ha Hdrop Hdup Hu Hv.
  replace (75 <? score E (screened r c) u v) with true by (symmetry; apply Z.ltb_lt; lia).
  rewrite bind_eq, updateStatus_run. cbv beta iota.
  rewrite bind_eq. unfold processPayout.
  rewrite bind_eq, setEvaluation_run. cbv beta iota.
  rewrite bind_eq, updateStatus_run. cbv beta iota.
  rewrite bind_eq, getThis_run. cbv beta iota.
  rewrite bind_eq. unfold setUsers, modify. cbv beta iota.
  rewrite !ret_run. eexists. split; [reflexivity|].
  split.
  - unfold statuses. cbn [this saved appended history set_history set_evaluation paidOut
                          scored screened pulled].
    rewrite !map_app. rewrite <- app_assoc. reflexivity.
  - reflexivity.
Qed.

(** Step 1 rejects when the measured drop is below 70%. *)
Lemma verifyClaim_no_loss (E : Env) (c : doc) (d : Db) (a : Analytics.t) (r : Pulled) :
  r = pull (incidentDate (claimDetails c)) a ->
  Analytics.findOne (userId (claimDetails c)) (analytics E) = Some a ->
  (drop r < 70)%Q ->
  verifyClaim E (Build_Ctx c d)
  = (Normal (rejected noLossMessage None),
     saved (appended E Rejected None noLossMessage noLossMessage (pulled r c)) d).
Proof.
  intros Hr Ha Hdrop. unfold verifyClaim.
  rewrite bind_eq, (autoPullData_run E (Build_Ctx c d) a Ha). cbv beta iota.
  rewrite bind_eq, getThis_run. cbv beta iota.
  cbn [this db saved]. rewrite <- Hr.
  rewrite (no_loss_true r c Hdrop).
  rewrite bind_eq, updateStatus_run. cbv beta iota. rewrite ret_run.
  f_equal. unfold saved. cbn [this db claims users outbox].
  rewrite !upsert_upsert by same_id. reflexivity.
Qed.

(** Without an analytics record step 1 throws and nothing is written. *)
Lemma verifyClaim_no_analytics (E : Env) (s : Ctx) :
  Analytics.findOne (userId (claimDetails (this s))) (analytics E) = None ->
  verifyClaim E s = (Throw (Error "No analytics data"), s).
Proof.
  intros H. unfold verifyClaim. rewrite bind_eq, (autoPullData_absent E s H). reflexivity.
Qed.

(** A duplicate is rejected before the fraud scan: the stored analysis
    is the one the claim had. *)
Lemma verifyClaim_duplicate (E : Env) (c : doc) (d : Db) (a : Analytics.t) (r : Pulled) :
  r = pull (incidentDate (claimDetails c)) a ->
  Analytics.findOne (userId (claimDetails c)) (analytics E) = Some a ->
  (70 <= drop r)%Q ->
  isDuplicate E c (claims d) = true ->
  exists s',
    verifyClaim E (Build_Ctx c d) = (Normal (rejected duplicateMessage None), s')
    /\ statuses (this s') = statuses c ++ [Rejected]
    /\ doubleDipCheck (evaluation (this s')) = true
    /\ aiAnalysis (evaluation (this s')) = aiAnalysis (evaluation c)
    /\ users (db s') = users d.
Proof.
  intros Hr Ha Hdrop Hdup. unfold verifyClaim.
  rewrite bind_eq, (autoPullData_run E (Build_Ctx c d) a Ha). cbv beta iota.
  rewrite bind_eq, getThis_run. cbv beta iota.
  cbn [this db saved]. rewrite <- Hr.
  rewrite (no_loss_false r c Hdrop).
  rewrite bind_eq, setEvaluation_run. cbv beta iota.
  rewrite bind_eq, getThis_run. cbv beta iota.
  cbn [this db].
  replace (claimDetails (pulled r c)) with (claimDetails c) by reflexivity.
  rewrite (enforceCoverage_pulled r c _ Hdrop).
  rewrite bind_eq, get_run. cbv beta iota.
  cbn [this db claims saved].
  rewrite (isDuplicate_same E c) by reflexivity. rewrite Hdup. cbv iota.
  rewrite bind_eq, setEvaluation_run. cbv beta iota.
  rewrite bind_eq, updateStatus_run. cbv beta iota. rewrite ret_run.
  eexists. split; [reflexivity|].
  unfold statuses. cbn. rewrite map_app. repeat split.
Qed.

(** ** The fraud score in general *)

Lemma scanFraud_without_videos (E : Env) (s : Ctx) (u : User.t) :
  User.findById (userId (claimDetails (this s))) (users (db s)) = Some u ->
  User.videos u = None ->
  scanFraud E s
  = (Throw (TypeError "Cannot read properties of undefined (reading 'length')"), s).
Proof.
  intros Hu Hv. unfold scanFraud, bind, getThis, get. rewrite Hu, Hv. reflexivity.
Qed.

Lemma totalPenalty_range (E : Env) (c : doc) (u : User.t) (v : list User.Video) :
  0 <= totalPenalty (fraudFlags E c u v) <= 85.
Proof.
  unfold totalPenalty, fraudFlags, this_incidentType. cbn [map snd fold_left].
  repeat match goal with
         | |- context [match ?x with _ => _ end] => destruct x
         end; lia.
Qed.

(** The score is 100 minus the penalties and lies between 15 and 100; the
    floor at 0 is never reached. *)
Lemma score_range (E : Env) (c : doc) (u : User.t) (v : list User.Video) :
  score E c u v = 100 - totalPenalty (fraudFlags E c u v)
  /\ 0 <= score E c u v <= 100.
Proof.
  pose proof (totalPenalty_range E c u v) as H. unfold score. split; lia.
Qed.

(** ** Reinstatement in general *)

(** Whatever [evaluation.reinstated] holds, a claim with a Paid entry is
    reinstated: the flag is set, half the payout is due, Reinstated is
    appended and the creator's standing becomes max(50, standing - 10). *)
Lemma handleReinstatement_run (E : Env) (c : doc) (d : Db) (by_ : option ObjectId)
    (u : User.t) :
  existsb (fun h => status_eqb (status h) Paid) (history c) = true ->
  User.findById (userId (claimDetails c)) (users d) = Some u ->
  let amount := option_map (fun p => (p * (50 # 100))%Q) (payoutAmount (evaluation c)) in
  let c' :=
    appended E Reinstated by_ (Text "Appeal successful")
      (ReinstatedRepay amount (now E + 30 * DAY_MS))
      (set_evaluation (set_repayAmount amount (set_reinstated true (evaluation c))) c) in
  handleReinstatement E by_ (Build_Ctx c d)
  = (Normal (Build_Repayment amount (now E + 30 * DAY_MS)),
     Build_Ctx c'
       (Build_Db (upsert c' (claims d))
          (User.save (User.set_fraudScore (Qmax 50 (User.fraudScore u - 10)) u) (users d))
          (outbox d))).
Proof.
  intros Hpaid Hu amount c'. unfold handleReinstatement.
  rewrite bind_eq, getThis_run. cbv beta iota. cbn [this].
  unfold this_reinstated. rewrite Hpaid. cbn [negb andb].
  rewrite bind_eq, setEvaluation_run. cbv beta iota.
  rewrite bind_eq, updateStatus_run. cbv beta iota.
  rewrite bind_eq, get_run. cbv beta iota.
  cbn [this db saved users]. rewrite Hu.
  rewrite bind_eq. unfold setUsers, modify. cbv beta iota.
  rewrite bind_eq. unfold save, modify. cbv beta iota. rewrite ret_run.
  cbn [this db claims users outbox saved]. fold amount. fold c'.
  rewrite upsert_upsert by reflexivity. reflexivity.
Qed.

Lemma handleReinstatement_never_paid (E : Env) (s : Ctx) (by_ : option ObjectId) :
  existsb (fun h => status_eqb (status h) Paid) (history (this s)) = false ->
  handleReinstatement E by_ s
  = (Throw (Error "Not eligible for reinstatement or already handled"), s).
Proof.
  intros H. unfold handleReinstatement.
  rewrite bind_eq, getThis_run. cbv beta iota. rewrite H, andb_false_r. reflexivity.
Qed.

(** ** The history is append-only *)

Lemma extends_ret {A : Type} (a : A) : Extends (ret a).
Proof. intros s. exists []. symmetry. apply app_nil_r. Qed.

Lemma extends_throw {A : Type} (e : JsError) : Extends (@throw Ctx A e).
Proof. intros s. exists []. symmetry. apply app_nil_r. Qed.

Lemma extends_unbound {A : Type} (n : string) : Extends (@unbound Ctx A n).
Proof. apply extends_throw. Qed.

Lemma extends_get : Extends (@get Ctx).
Proof. intros s. exists []. symmetry. apply app_nil_r. Qed.

Lemma extends_getThis : Extends getThis.
Proof. intros s. exists []. symmetry. apply app_nil_r. Qed.

Lemma extends_setEvaluation f : Extends (setEvaluation f).
Proof. intros s. exists []. symmetry. apply app_nil_r. Qed.

Lemma extends_setUsers f : Extends (setUsers f).
Proof. intros s. exists []. symmetry. apply app_nil_r. Qed.

Lemma extends_save : Extends save.
Proof. intros s. exists []. symmetry. apply app_nil_r. Qed.

Lemma extends_bind {A B : Type} (c : M A) (k : A -> M B) :
  Extends c -> (forall a, Extends (k a)) -> Extends (bind c k).
Proof.
  intros Hc Hk s. destruct (Hc s) as [l Hl]. unfold bind.
  destruct (c s) as [[a|e] s'] eqn:Hcs; cbn [snd] in Hl.
  - destruct (Hk a s') as [l' Hl']. exists (l ++ l').
    rewrite Hl', Hl, app_assoc. reflexivity.
  - exists l. exact Hl.
Qed.

Lemma extends_updateStatus (E : Env) st by_ n m : Extends (updateStatus E st by_ n m).
Proof.
  intros s. rewrite updateStatus_run.
  exists [Build_HistoryEntry st by_ n m (now E)]. reflexivity.
Qed.

Create HintDb extends.
#[local] Hint Resolve extends_ret extends_throw extends_unbound extends_get extends_getThis
  extends_setEvaluation extends_setUsers extends_save extends_updateStatus : extends.

Ltac extends :=
  repeat first
    [ solve [auto with extends]
    | apply extends_bind; [|intro]
    | match goal with
      | |- Extends (if ?b then _ else _) => destruct b
      | |- Extends (match ?x with _ => _ end) => destruct x
      end ].

Lemma extends_autoPullData (E : Env) : Extends (autoPullData E).
Proof. unfold autoPullData. extends. Qed.

Lemma extends_calculatePayout (E : Env) : Extends (calculatePayout E).
Proof. unfold calculatePayout. extends. Qed.

Lemma extends_scanFraud (E : Env) : Extends (scanFraud E).
Proof. unfold scanFraud. extends. Qed.

Lemma extends_processPayout (E : Env) (amount : option Q) : Extends (processPayout E amount).
Proof. unfold processPayout. extends. Qed.

#[local] Hint Resolve extends_autoPullData extends_calculatePayout extends_scanFraud
  extends_processPayout : extends.

(** Verification, reinstatement and both review paths only append to the
    status history: no entry is changed or removed, and a non-empty history
    stays non-empty. *)
Lemma extends_verifyClaim (E : Env) : Extends (verifyClaim E).
Proof. unfold verifyClaim. extends. Qed.

Lemma extends_handleReinstatement (E : Env) (by_ : option ObjectId) :
  Extends (handleReinstatement E by_).
Proof. unfold handleReinstatement. extends. Qed.

Lemma extends_review (E : Env) (adminId : ObjectId) (valid : bool) (n : string) :
  Extends (ClaimsController.review E adminId valid n).
Proof. unfold ClaimsController.review. extends. Qed.

Lemma extends_reviewOne (E : Env) (adminId : ObjectId) (valid : bool) (n : string) :
  Extends (AdminClaimsController.reviewOne E adminId valid n).
Proof. unfold AdminClaimsController.reviewOne. extends. Qed.

Lemma extends_nonempty {A : Type} (m : M A) (s : Ctx) :
  Extends m -> history (this s) <> [] -> history (this (snd (m s))) <> [].
Proof.
  intros H Hne. destruct (H s) as [l Hl]. rewrite Hl.
  destruct (history (this s)); [contradiction|discriminate].
Qed.

(** The current status is the status of the last entry. *)
Lemma currentStatus_appended (E : Env) st by_ n m (c : doc) :
  currentStatus (appended E st by_ n m c) = Some st.
Proof.
  unfold currentStatus, appended. cbn [history set_history]. rewrite last_snoc. reflexivity.
Qed.

(** ** The two review paths *)

Lemma processPayout_statuses (E : Env) (amount : option Q) (s : Ctx) :
  fst (processPayout E amount s) = Normal (Some (now E, random E))
  /\ statuses (this (snd (processPayout E amount s))) = statuses (this s) ++ [Paid]
  /\ payoutAmount (evaluation (this (snd (processPayout E amount s))))
     = payoutAmount (evaluation (this s)).
Proof.
  unfold processPayout.
  rewrite bind_eq, setEvaluation_run. cbv beta iota.
  rewrite bind_eq, updateStatus_run. cbv beta iota.
  rewrite bind_eq, getThis_run. cbv beta iota.
  rewrite bind_eq. unfold setUsers, modify. cbv beta iota. rewrite ret_run.
  cbn [fst snd this saved]. split; [reflexivity|]. split; [|reflexivity].
  unfold statuses, appended. cbn [history set_history set_evaluation].
  rewrite map_app. reflexivity.
Qed.

(** The single review of a valid claim appends Approved, then Paid. *)
Lemma review_valid_order (E : Env) (adminId : ObjectId) (n : string) (s : Ctx) :
  statuses (this (snd (ClaimsController.review E adminId true n s)))
  = statuses (this s) ++ [Approved; Paid].
Proof.
  unfold ClaimsController.review.
  rewrite bind_eq, setEvaluation_run. cbv beta iota.
  rewrite bind_eq, calculatePayout_run. cbv beta iota.
  rewrite bind_eq, updateStatus_run. cbv beta iota.
  rewrite bind_eq, bind_eq.
  match goal with
  | |- context [processPayout E ?a ?t] =>
    destruct (processPayout_statuses E a t) as (Hr & Hs & _);
    destruct (processPayout E a t) as [o t'] eqn:Hp
  end.
  cbn [fst snd] in Hr, Hs. rewrite Hr. cbv beta iota. rewrite !ret_run.
  cbn [snd]. rewrite Hs.
  unfold statuses, appended, saved, paidOut.
  cbn [this history set_history set_evaluation].
  rewrite map_app, <- app_assoc. reflexivity.
Qed.

(** One turn of the bulk review of a valid claim appends Paid, then
    Approved. *)
Lemma reviewOne_valid_order (E : Env) (adminId : ObjectId) (n : string) (s : Ctx) :
  statuses (this (snd (AdminClaimsController.reviewOne E adminId true n s)))
  = statuses (this s) ++ [Paid; Approved].
Proof.
  unfold AdminClaimsController.reviewOne.
  rewrite bind_eq, setEvaluation_run. cbv beta iota.
  rewrite bind_eq, bind_eq, calculatePayout_run. cbv beta iota.
  rewrite bind_eq.
  match goal with
  | |- context [processPayout E ?a ?t] =>
    destruct (processPayout_statuses E a t) as (Hr & Hs & _);
    destruct (processPayout E a t) as [o t'] eqn:Hp
  end.
  cbn [fst snd] in Hr, Hs. rewrite Hr. cbv beta iota. rewrite ret_run.
  rewrite bind_eq, updateStatus_run. cbv beta iota. rewrite ret_run.
  cbn [snd]. unfold statuses in *. unfold appended at 1. unfold saved at 1.
  cbn [this history set_history]. rewrite map_app, Hs.
  unfold saved, paidOut. cbn [this history set_evaluation].
  rewrite <- app_assoc. reflexivity.
Qed.

(** ** C1: the duplicate guard *)

(** Sent as written, the query asks for a top-level [incidentDate] no
    stored claim has: nothing matches and no claim is ever a duplicate. *)
Lemma isDuplicate_lax (E : Env) (me : doc) (coll : list doc) :
  strictQuery E = false -> isDuplicate E me coll = false.
Proof.
  intros H. unfold isDuplicate, recentClaims. rewrite H.
  induction coll as [|c coll IH]; simpl; [reflexivity|].
  rewrite andb_false_r. simpl. exact IH.
Qed.

(** With the unknown path stripped, the date bound is gone: every other
    approved or paid claim of the user is compared, however old. *)
Lemma isDuplicate_strict (E : Env) (me : doc) (coll : list doc) :
  strictQuery E = true ->
  isDuplicate E me coll =
  existsb (fun c =>
    (userId (claimDetails c) =? userId (claimDetails me))
    && reachedApprovedOrPaid c && negb (_id c =? _id me) && sameDay me c) coll.
Proof.
  intros H. unfold isDuplicate, recentClaims. rewrite H.
  induction coll as [|c coll IH]; simpl; [reflexivity|].
  rewrite andb_true_r.
  destruct ((userId (claimDetails c) =? userId (claimDetails me))
            && reachedApprovedOrPaid c && negb (_id c =? _id me)); simpl.
  - rewrite IH. reflexivity.
  - exact IH.
Qed.

(** C1 (code defect).  The guard does not search the trailing 30-day
    window.  With the query sent as written, a paid claim of the same
    creator twelve hours apart and five days old is not found and the new
    claim is paid again; with the unknown path stripped, a paid claim 45
    days old trips the guard although it lies outside the window. *)
Theorem duplicate_guard_ignores_window :
  let lax := env 105 steadyThenDrop (Some 65000%Q) false in
  let strict := env 145 steadyThenDrop (Some 65000%Q) true in
  let me := fun E => newClaim E 500 FullSuspension (day 100) NotStarted in
  (Spec.duplicate (now lax) (me lax) [earlierPaid] = true
   /\ isDuplicate lax (me lax) [earlierPaid] = false
   /\ option_map result_status
        (returned (fst (verifyClaim lax (ctx (me lax) (store [earlierPaid] creator)))))
      = Some Paid)
  /\
  (Spec.duplicate (now strict) (me strict) [earlierPaid] = false
   /\ isDuplicate strict (me strict) [earlierPaid] = true
   /\ option_map result_reason
        (returned (fst (verifyClaim strict (ctx (me strict) (store [earlierPaid] creator)))))
      = Some (Some duplicateMessage)).
Proof. vm_compute. repeat split. Qed.

(** ** C2: the branch on the fraud score *)

(** C2 (code defect).  On the low branch the Rejected entry is appended
    and saved, then the read of [user] throws: the creator's fraud standing
    is left as it was and the caller gets an exception, not a result.  For
    a user document without the [videos] array the scan throws before any
    branch is taken and the claim stays Submitted. *)
Theorem verifyClaim_low_score_throws :
  let E := env 105 spikeThenNothing (Some 65000%Q) false in
  let claim := newClaim E 500 FullSuspension (day 100) AppealRejected in
  let run := verifyClaim E (ctx claim (store [] bulkUploader)) in
  let bare := verifyClaim E (ctx claim (store [] schemaShaped)) in
  (fst run = Throw (ReferenceError "user")
   /\ fraudScore (aiAnalysis (evaluation (this (snd run)))) = 40
   /\ statuses (this (snd run)) = [Submitted; Rejected]
   /\ map statuses (claims (db (snd run))) = [[Submitted; Rejected]]
   /\ users (db (snd run)) = [bulkUploader])
  /\
  (fst bare = Throw (TypeError "Cannot read properties of undefined (reading 'length')")
   /\ map statuses (claims (db (snd bare))) = [[Submitted]]).
Proof. vm_compute. repeat split. Qed.

(** ** C3: the status history *)

(** C3 (code defect).  Bulk review executes the payout before it records
    the approval: the history of a claim held in Manual Review and reviewed
    as valid reads Paid, then Approved, and the current status ends as
    Approved.  The single manual review of the same claim records Approved,
    then Paid. *)
Theorem bulk_review_pays_before_approving :
  let E := env 105 steadyThenDrop (Some 65000%Q) false in
  let held := store [heldClaim] creator in
  let item := AdminClaimsController.Build_ReviewItem (Some 500) (Some true) "verified" in
  let bulk := AdminClaimsController.bulkReviewClaims E 9 [item] held in
  let single := ClaimsController.reviewClaimManual E 9 500 (Some true) "verified" held in
  statuses heldClaim = [Submitted; ManualReview]
  /\ returned (fst bulk)
     = Some (inr [AdminClaimsController.Reviewed 500 "Claim approved"
                    (total E heldClaim)])
  /\ map statuses (claims (snd bulk)) = [[Submitted; ManualReview; Paid; Approved]]
  /\ map (Spec.paidFollowsApproved false) (map statuses (claims (snd bulk))) = [false]
  /\ map currentStatus (claims (snd bulk)) = [Some Approved]
  /\ map statuses (claims (snd single)) = [[Submitted; ManualReview; Approved; Paid]].
Proof. vm_compute. repeat split. Qed.

(** ** C4: the payout *)

Lemma num_or_nonneg (x : option Q) (dflt : Q) :
  (forall b, x = Some b -> 0 <= b)%Q -> (0 <= dflt)%Q -> (0 <= num_or x dflt)%Q.
Proof.
  intros Hx Hd. unfold num_or. destruct x as [b|]; [|exact Hd].
  destruct (Qeq_bool b 0); [exact Hd|]. apply Hx. reflexivity.
Qed.

Lemma effectiveCap_policy (E : Env) (c : doc) (p : Premium.t) (cap : Q) :
  Premium.findById (policyId c) (premiums E) = Some p ->
  Premium.monthlyCap p = Some cap ->
  effectiveCap E c = if Qeq_bool cap 0 then DEFAULT_CAP else cap.
Proof.
  intros Hp Hc. unfold effectiveCap. rewrite Hp, Hc. reflexivity.
Qed.

Lemma effectiveCap_default (E : Env) (c : doc) :
  Premium.findById (policyId c) (premiums E) = None ->
  effectiveCap E c = DEFAULT_CAP.
Proof.
  intros Hp. unfold effectiveCap. rewrite Hp. reflexivity.
Qed.

(** C4 (counterexample).  Under a policy whose monthly cap is 0 the
    fallback of 65000 applies: with a baseline of 1000 and five lost days
    the payout is 3500, neither min(3500, 0) nor within the policy's cap. *)
Lemma payout_exceeds_zero_cap :
  let E := env 105 steadyThenDrop (Some 0%Q) false in
  let run := calculatePayout E (ctx pulledClaim (store [] creator)) in
  option_map Premium.monthlyCap (Premium.findById (policyId pulledClaim) (premiums E))
  = Some (Some 0%Q)
  /\ exists t : Q,
       fst run = Normal t
       /\ payoutAmount (evaluation (this (snd run))) = Some t
       /\ (t == 3500)%Q
       /\ ~ (t == Spec.payout 1000 5 0)%Q
       /\ ~ (t <= 0)%Q.
Proof.
  split; [reflexivity|].
  eexists. split; [reflexivity|]. split; [reflexivity|].
  split; [reflexivity|]. split.
  - vm_compute. intros H. discriminate H.
  - vm_compute. intros H. apply H. reflexivity.
Qed.

(** C4 (amended).  The payout is min(baselineDaily * 0.70 * lostDays, cap)
    where the cap is the policy's monthly cap, or 65000 when the policy is
    missing or its cap is unset or 0; it is stored as the payout amount,
    and with a non-negative baseline, lost-day count and policy cap it lies
    between 0 and that cap. *)
Theorem calculatePayout_capped (E : Env) (s : Ctx) :
  let c := this s in
  let baseline := num_or (baselineDaily (evaluation c)) 0 in
  (forall b, baselineDaily (evaluation c) = Some b -> 0 <= b)%Q ->
  0 <= lostDays (evaluation c) ->
  (forall p cap, Premium.findById (policyId c) (premiums E) = Some p ->
                 Premium.monthlyCap p = Some cap -> 0 <= cap)%Q ->
  exists t s',
    calculatePayout E s = (Normal t, s')
    /\ payoutAmount (evaluation (this s')) = Some t
    /\ t = Spec.payout baseline (lostDays (evaluation c)) (effectiveCap E c)
    /\ (0 <= t <= effectiveCap E c)%Q
    /\ (forall p cap, Premium.findById (policyId c) (premiums E) = Some p ->
                      Premium.monthlyCap p = Some cap ->
                      effectiveCap E c = if Qeq_bool cap 0 then 65000%Q else cap)
    /\ (Premium.findById (policyId c) (premiums E) = None -> effectiveCap E c = 65000%Q).
Proof.
  intros c baseline Hb Hdays Hcap.
  exists (total E c), (saved (paidOut E c) (db s)).
  split; [apply calculatePayout_run|].
  split; [reflexivity|].
  split; [reflexivity|].
  assert (Hcap0 : (0 <= effectiveCap E c)%Q).
  { unfold effectiveCap.
    destruct (Premium.findById (policyId c) (premiums E)) as [p|] eqn:Hp.
    - apply num_or_nonneg.
      + intros b Hpb. exact (Hcap p b eq_refl Hpb).
      + unfold DEFAULT_CAP. unfold Qle. simpl. lia.
    - unfold num_or, DEFAULT_CAP. unfold Qle. simpl. lia. }
  assert (Hbase : (0 <= baseline)%Q).
  { apply num_or_nonneg; [exact Hb|apply Qle_refl]. }
  split.
  { unfold total. fold baseline. split.
    - apply Q.min_glb; [|exact Hcap0].
      apply Qmult_le_0_compat.
      + apply Qmult_le_0_compat; [exact Hbase|]. unfold Qle. simpl. lia.
      + unfold Qle. simpl. lia.
    - apply Q.le_min_r. }
  split.
  - intros p cap Hp Hc. apply (effectiveCap_policy E c p cap Hp Hc).
  - apply effectiveCap_default.
Qed.

(** Scenario A: 1000 a day, five lost days, cap 65000: payout 3500. *)
Lemma calculatePayout_capped_witness :
  let E := env 105 steadyThenDrop (Some 65000%Q) false in
  exists t s',
    calculatePayout E (ctx pulledClaim (store [] creator)) = (Normal t, s')
    /\ (0 <= t <= 65000)%Q.
Proof.
  intros E.
  destruct (calculatePayout_capped E (ctx pulledClaim (store [] creator)))
    as (t & s' & Hrun & _ & _ & Hrange & Hpol & _).
  - intros b Hb. injection Hb as <-. unfold Qle. simpl. lia.
  - simpl. lia.
  - intros p cap Hp Hc. injection Hp as <-. injection Hc as <-. unfold Qle. simpl. lia.
  - exists t, s'. split; [exact Hrun|].
    rewrite (Hpol (policy (Some 65000%Q)) 65000%Q eq_refl eq_refl) in Hrange.
    exact Hrange.
Defined.

(** ** C5: reinstatement *)

(** C5 (code defect).  The guard reads [reinstated] on the document, where
    the schema has no such path, so it never sees [evaluation.reinstated]:
    a second call on the same paid claim succeeds again, appends a second
    Reinstated entry and lowers the creator's standing a second time.
    Through the controller the second attempt is stopped by the check of
    the last status, with another error than 'already handled'. *)
Theorem second_reinstatement_succeeds :
  let E := env 105 steadyThenDrop (Some 65000%Q) false in
  let paid := store [earlierPaid] creator in
  let first := handleReinstatement E (Some 9) (Build_Ctx earlierPaid paid) in
  let second := handleReinstatement E (Some 9) (snd first) in
  statuses earlierPaid = [Submitted; Approved; Paid]
  /\ returned (fst first) <> None
  /\ reinstated (evaluation (this (snd first))) = true
  /\ returned (fst second) <> None
  /\ statuses (this (snd second)) = [Submitted; Approved; Paid; Reinstated; Reinstated]
  /\ map statuses (claims (db (snd second)))
     = [[Submitted; Approved; Paid; Reinstated; Reinstated]]
  /\ map User.fraudScore (users paid) = [80%Q]
  /\ map User.fraudScore (users (db (snd first))) = [Qmax 50 (80 - 10)]
  /\ map User.fraudScore (users (db (snd second))) = [Qmax 50 (Qmax 50 (80 - 10) - 10)]
  /\ (let once := snd (ClaimsController.reinstateClaim E 9 400 paid) in
      ClaimsController.reinstateClaim E 9 400 once
      = (Failure 400 "Claim must be paid before reinstatement", once)).
Proof. vm_compute. repeat split; discriminate. Qed.

(** ** C6: the lost-day floor *)

(** C6 (counterexample).  No entry after the incident is below 30% of
    the baseline: the pull counts 0 qualifying days and stores 3. *)
Lemma lostDays_floor_without_qualifying_day :
  let E := env 105 mildDrop (Some 65000%Q) false in
  let claim := newClaim E 500 FullSuspension (day 100) NotStarted in
  let run := autoPullData E (ctx claim (store [] creator)) in
  lowDays (day 100) mildDrop = []
  /\ option_map rawLostDays (returned (fst run)) = Some 0
  /\ Spec.qualifyingLostDays 0 = 0
  /\ lostDays (evaluation (this (snd run))) = 3.
Proof. vm_compute. repeat split. Qed.

(** C6 (amended).  The stored lost-day count is the number of entries,
    among the first ten on or after the incident, below 30% of the
    baseline, floored at 3 unconditionally: it is 3 also when no entry
    qualifies.  The unfloored count is what the pull returns. *)
Theorem autoPullData_lostDays_floor (E : Env) (s : Ctx) (a : Analytics.t) :
  let incident := incidentDate (claimDetails (this s)) in
  let n := Z.of_nat (List.length (lowDays incident a)) in
  Analytics.findOne (userId (claimDetails (this s))) (analytics E) = Some a ->
  exists r s',
    autoPullData E s = (Normal r, s')
    /\ rawLostDays r = n
    /\ lostDays (evaluation (this s')) = Z.max 3 n
    /\ 3 <= lostDays (evaluation (this s'))
    /\ (lowDays incident a = [] -> lostDays (evaluation (this s')) = 3).
Proof.
  intros incident n Ha.
  exists (pull incident a), (saved (pulled (pull incident a) (this s)) (db s)).
  split; [apply (autoPullData_run E s a Ha)|].
  split; [reflexivity|].
  split; [reflexivity|].
  split.
  - cbn [saved this pulled evaluation set_evaluation lostDays set_strikes
         set_monetizationStatus set_lostDays]. lia.
  - intros Hnil.
    cbn [saved this pulled evaluation set_evaluation lostDays set_strikes
         set_monetizationStatus set_lostDays].
    change (rawLostDays (pull incident a)) with n. unfold n. rewrite Hnil. reflexivity.
Qed.

(** Five entries below 30% of the baseline: the count 5 is stored. *)
Lemma autoPullData_lostDays_floor_witness :
  let E := env 105 steadyThenDrop (Some 65000%Q) false in
  let claim := newClaim E 500 FullSuspension (day 100) NotStarted in
  exists r s',
    autoPullData E (ctx claim (store [] creator)) = (Normal r, s')
    /\ lostDays (evaluation (this s')) = 5.
Proof.
  intros E claim.
  destruct (autoPullData_lostDays_floor E (ctx claim (store [] creator)) steadyThenDrop)
    as (r & s' & Hrun & _ & Hmax & _).
  - reflexivity.
  - exists r, s'. split; [exact Hrun|]. rewrite Hmax. reflexivity.
Defined.

(** ** C7: a creator without revenue history *)

(** C7 (counterexample).  Without an analytics record the pull throws
    'No analytics data': the evaluation aborts, nothing is written to the
    claim and the submission is answered with a server error.  With a
    record that has no entries but a positive 90-day average the baseline
    is that average and the drop 100%: the claim passes the threshold. *)
Lemma missing_analytics_aborts :
  let E := envWithoutAnalytics in
  let claim := newClaim E 500 FullSuspension (day 100) NotStarted in
  let start := ctx claim (store [] creator) in
  verifyClaim E start = (Throw (Error "No analytics data"), start)
  /\ fst (ClaimsController.submitClaim E creator 7 500 FullSuspension (day 100) NotStarted
            (store [] creator))
     = Failure 500 "Server error submitting claim"
  /\ (let E' := env 105 averageOnly (Some 65000%Q) false in
      let run := verifyClaim E' (ctx (newClaim E' 500 FullSuspension (day 100) NotStarted)
                                     (store [] creator)) in
      option_map result_status (returned (fst run)) = Some Paid
      /\ baselineDaily (evaluation (this (snd run))) = Some 4200%Q
      /\ statuses (this (snd run)) = [Submitted; Approved; Paid]).
Proof. vm_compute. repeat split. Qed.

Lemma pull_empty (incident : Date) (a : Analytics.t) :
  Analytics.earningsHistory a = [] ->
  (Analytics.avgDailyRevenue90d a == 0)%Q ->
  baselineAvg (pull incident a) = Analytics.avgDailyRevenue90d a
  /\ drop (pull incident a) = 0%Q.
Proof.
  intros Hh Hz. unfold pull. rewrite Hh.
  cbn [filter slice_last slice_first skipn firstn List.length Nat.sub mean Z.of_nat
       Z.ltb Z.compare baselineAvg drop].
  split; [reflexivity|].
  unfold Qgtb, Qltb.
  replace (Qle_bool (Analytics.avgDailyRevenue90d a) 0) with true; [reflexivity|].
  symmetry. apply Qle_bool_iff. rewrite Hz. apply Qle_refl.
Qed.

(** C7 (amended).  For a creator who has an analytics record without
    revenue entries and with a zero 90-day average the evaluation does not
    raise: the baseline is zero, the drop is zero, and the claim is
    rejected by the qualifying-loss check of step 1, with no payout
    computed and no change to the users. *)
Theorem empty_history_rejected (E : Env) (c : doc) (d : Db) (a : Analytics.t) :
  Analytics.findOne (userId (claimDetails c)) (analytics E) = Some a ->
  Analytics.earningsHistory a = [] ->
  (Analytics.avgDailyRevenue90d a == 0)%Q ->
  exists s',
    verifyClaim E (Build_Ctx c d) = (Normal (rejected noLossMessage None), s')
    /\ (exists b, baselineDaily (evaluation (this s')) = Some b /\ (b == 0)%Q)
    /\ revenueDropPercent (evaluation (this s')) = Some 0%Q
    /\ statuses (this s') = statuses c ++ [Rejected]
    /\ payoutAmount (evaluation (this s')) = payoutAmount (evaluation c)
    /\ users (db s') = users d.
Proof.
  intros Ha Hh Hz.
  destruct (pull_empty (incidentDate (claimDetails c)) a Hh Hz) as [Hbase Hdrop].
  assert (Hlt : (drop (pull (incidentDate (claimDetails c)) a) < 70)%Q).
  { rewrite Hdrop. unfold Qlt. simpl. lia. }
  rewrite (verifyClaim_no_loss E c d a _ eq_refl Ha Hlt).
  eexists. split; [reflexivity|].
  cbn [saved this db users appended pulled evaluation set_evaluation set_history history
       baselineDaily revenueDropPercent payoutAmount set_strikes set_monetizationStatus
       set_lostDays set_baselineDaily set_revenueDropPercent].
  split.
  { exists (baselineAvg (pull (incidentDate (claimDetails c)) a)).
    split; [reflexivity|]. rewrite Hbase. exact Hz. }
  split; [rewrite Hdrop; reflexivity|].
  split.
  { unfold statuses, appended. cbn [history set_history pulled set_evaluation].
    rewrite map_app. reflexivity. }
  split; reflexivity.
Qed.

(** A record without entries and with average 0: rejected at step 1. *)
Lemma empty_history_rejected_witness :
  let E := env 105 noHistory (Some 65000%Q) false in
  let claim := newClaim E 500 FullSuspension (day 100) NotStarted in
  exists s',
    verifyClaim E (Build_Ctx claim (store [] creator))
    = (Normal (rejected noLossMessage None), s')
    /\ statuses (this s') = [Submitted; Rejected].
Proof.
  intros E claim.
  destruct (empty_history_rejected E claim (store [] creator) noHistory)
    as (s' & Hrun & _ & _ & Hst & _).
  - reflexivity.
  - reflexivity.
  - reflexivity.
  - exists s'. split; [exact Hrun|exact Hst].
Defined.

(** ** C8: the fraud scorer *)

(** The mismatch penalty depends on the classified category alone. *)
Lemma copyrightMismatch_flag (E : Env) (c : doc) (u : User.t) (v : list User.Video) :
  nth_error (fraudFlags E c u v) 3
  = Some ("copyrightMismatch"%string,
          if reason_eqb (coveredReason (evaluation c)) COPYRIGHT then 25 else 0).
Proof.
  unfold fraudFlags, this_incidentType. simpl.
  rewrite andb_true_r. reflexivity.
Qed.

(** C8 (code defect).  The scorer reads the incident type on the document
    instead of under [claimDetails], so the comparison with 'Video
    demonetization' never matches: a claim classified as copyright whose
    reported type is video demonetization is charged the 25 points.  For a
    user document without the [videos] array the scorer throws instead of
    returning a score. *)
Theorem copyright_penalty_ignores_reported_type :
  let E := env 105 steadyThenDrop (Some 65000%Q) false in
  let run := scanFraud E (ctx copyrightClaim (store [] creator)) in
  let bare := scanFraud E (ctx copyrightClaim (store [] schemaShaped)) in
  incidentType (claimDetails copyrightClaim) = VideoDemonetization
  /\ Spec.reasonMismatch copyrightClaim = 0
  /\ fst run = Normal 70
  /\ reasons (aiAnalysis (evaluation (this (snd run))))
     = ["copyrightMismatch:25"%string; "nameMismatch:5"%string]
  /\ fst bare = Throw (TypeError "Cannot read properties of undefined (reading 'length')").
Proof. vm_compute. repeat split. Qed.

(** ** C9: the premium range *)

Lemma clamp_range (lo hi x : Q) : (lo <= hi)%Q -> (lo <= clamp lo hi x <= hi)%Q.
Proof.
  intros H. unfold clamp. split.
  - apply Q.le_max_r.
  - apply Q.max_lub; [apply Q.le_min_r|exact H].
Qed.

Lemma percentage_range (x : Q) : (2 <= clamp 2 5 x <= 5)%Q.
Proof. apply clamp_range. unfold Qle. simpl. lia. Qed.

Lemma amount_range (x : Q) : (1000 <= clamp 1000 5000 x <= 5000)%Q.
Proof. apply clamp_range. unfold Qle. simpl. lia. Qed.

Lemma the_user_run (uid : ObjectId) (users_ : list User.t) (u : User.t) (p : Premium.t) :
  User.findById uid users_ = Some u -> Premium.the_user uid users_ p = (Normal u, p).
Proof. intros H. unfold Premium.the_user. rewrite H. reflexivity. Qed.

(** C9.  Whenever the premium's user exists, each of the discount check,
    the recalculation and the manual adjustment returns and leaves a final
    percentage within [2, 5] and a final amount within [1000, 5000]; so do
    the amounts of an estimate and of the document created from an
    application. *)
Theorem premium_within_range (now_ : Date) (users_ : list User.t) (p : Premium.t)
    (u : User.t) (admin : option ObjectId) (delta : Q) (why : string) (by_ : ObjectId) :
  User.findById (Premium.userId p) users_ = Some u ->
  (exists b p', Premium.checkContentReviewDiscount users_ p = (Normal b, p')
                /\ Premium.inRange p')
  /\ (exists r p', Premium.recalculatePremium now_ users_ admin p = (Normal r, p')
                   /\ Premium.inRange p')
  /\ (exists r p', Premium.adjustPremium now_ users_ delta why by_ p = (Normal r, p')
                   /\ Premium.inRange p'
                   /\ Premium.finalAmount p' = r)
  /\ (forall pct amount, Premium.estimatePremium u = Some (pct, amount) ->
        (2 <= pct <= 5)%Q /\ (1000 <= amount <= 5000)%Q)
  /\ (forall id p', Premium.createFromApplication now_ id (Some u) = Normal p' ->
        Premium.inRange p').
Proof.
  intros Hu.
  assert (Hest : forall pct amount, Premium.estimatePremium u = Some (pct, amount) ->
                   (2 <= pct <= 5)%Q /\ (1000 <= amount <= 5000)%Q).
  { intros pct amount. unfold Premium.estimatePremium.
    destruct (Qltb (User.monthlyEarnings u) 65000); [discriminate|].
    intros H. injection H as <- <-. split.
    - split; unfold Qle; simpl; lia.
    - apply amount_range. }
  split.
  { unfold Premium.checkContentReviewDiscount.
    rewrite bind_eq, get_run. cbv beta iota.
    rewrite bind_eq, (the_user_run _ _ u p Hu). cbv beta iota zeta.
    rewrite bind_eq. unfold modify. cbv beta iota. rewrite ret_run.
    eexists. eexists. split; [reflexivity|].
    split; cbn [Premium.finalPercentage Premium.finalAmount];
      [apply percentage_range|apply amount_range]. }
  split.
  { unfold Premium.recalculatePremium, Premium.checkContentReviewDiscount.
    rewrite !bind_eq, get_run. cbv beta iota.
    rewrite bind_eq, (the_user_run _ _ u p Hu). cbv beta iota zeta.
    rewrite bind_eq. unfold modify at 1. cbv beta iota. rewrite ret_run.
    rewrite bind_eq, get_run. cbv beta iota.
    rewrite bind_eq. cbn [Premium.userId].
    rewrite (the_user_run _ _ u _ Hu). cbv beta iota zeta.
    rewrite bind_eq. unfold modify. cbv beta iota. rewrite ret_run.
    eexists. eexists. split; [reflexivity|].
    split; cbn [Premium.finalPercentage Premium.finalAmount];
      [apply percentage_range|apply amount_range]. }
  split.
  { unfold Premium.adjustPremium.
    rewrite bind_eq, get_run. cbv beta iota.
    rewrite bind_eq, (the_user_run _ _ u p Hu). cbv beta iota zeta.
    rewrite bind_eq. unfold modify. cbv beta iota. rewrite ret_run.
    eexists. eexists. split; [reflexivity|].
    split; [|reflexivity].
    split; cbn [Premium.finalPercentage Premium.finalAmount];
      [apply percentage_range|apply amount_range]. }
  split; [exact Hest|].
  intros id p'. unfold Premium.createFromApplication.
  destruct (Qltb (User.monthlyEarnings u) 65000); [discriminate|].
  destruct (Qltb (User.fraudScore u) 70); [discriminate|].
  destruct (Premium.estimatePremium u) as [[pct amount]|] eqn:He; [|discriminate].
  intros H. injection H as <-. unfold Premium.inRange.
  cbn [Premium.finalPercentage Premium.finalAmount]. exact (Hest pct amount eq_refl).
Qed.

(** A premium of 2000 raised by 400% for a creator earning 100000 a month
    is stored as 5000 at 5%. *)
Lemma premium_within_range_witness :
  exists r p',
    Premium.adjustPremium (day 105) [creator] 400 "risk review" 9 (policy (Some 65000%Q))
    = (Normal r, p')
    /\ Premium.inRange p'
    /\ (Premium.finalAmount p' == 5000)%Q
    /\ (Premium.finalPercentage p' == 5)%Q.
Proof.
  destruct (premium_within_range (day 105) [creator] (policy (Some 65000%Q)) creator
              None 400 "risk review" 9)
    as (_ & _ & (r & p' & Hrun & Hrange & _) & _).
  - reflexivity.
  - exists r, p'. split; [exact Hrun|]. split; [exact Hrange|].
    injection Hrun as _ <-. split; reflexivity.
Defined.

(** ** C10: the manual band and what its caller records *)

Lemma User_findById_push (id : ObjectId) (e : User.HistoryClaim) (coll : list User.t)
    (u : User.t) :
  User.findById id coll = Some u ->
  User.findById id (User.findByIdAndPush id e coll) = Some (User.push_claim e u).
Proof.
  unfold User.findById, User.findByIdAndPush.
  induction coll as [|x coll IH]; [discriminate|]. cbn [find map].
  destruct (User._id x =? id) eqn:Hx.
  - intros H. injection H as ->. cbn [User.push_claim User._id]. rewrite Hx. reflexivity.
  - rewrite Hx. exact IH.
Qed.


(** * Further properties of the modelled code *)

(** ** What no method does to the store *)

Lemma stable_same {A : Type} (m : M A) :
  (forall s, snd (m s) = s) -> Stable m.
Proof. intros H s Hs. rewrite H. repeat split. exact Hs. Qed.

Lemma stable_ret {A : Type} (a : A) : Stable (ret a).
Proof. apply stable_same. reflexivity. Qed.

Lemma stable_throw {A : Type} (e : JsError) : Stable (@throw Ctx A e).
Proof. apply stable_same. reflexivity. Qed.

Lemma stable_unbound {A : Type} (n : string) : Stable (@unbound Ctx A n).
Proof. apply stable_same. reflexivity. Qed.

Lemma stable_get : Stable (@get Ctx).
Proof. apply stable_same. reflexivity. Qed.

Lemma stable_getThis : Stable getThis.
Proof. apply stable_same. reflexivity. Qed.

Lemma stable_setEvaluation f : Stable (setEvaluation f).
Proof. intros s Hs. repeat split. exact Hs. Qed.

Lemma stable_setUsers (f : list User.t -> list User.t) :
  (forall coll, map User._id (f coll) = map User._id coll) -> Stable (setUsers f).
Proof. intros Hf s Hs. repeat split; [exact Hs|apply Hf]. Qed.

Lemma ids_findByIdAndPush (id : ObjectId) (e : User.HistoryClaim) (coll : list User.t) :
  map User._id (User.findByIdAndPush id e coll) = map User._id coll.
Proof.
  unfold User.findByIdAndPush. rewrite map_map. apply map_ext.
  intros v. destruct (User._id v =? id); reflexivity.
Qed.

Lemma ids_User_save (u : User.t) (coll : list User.t) :
  map User._id (User.save u coll) = map User._id coll.
Proof.
  unfold User.save. rewrite map_map. apply map_ext.
  intros v. destruct (Z.eqb_spec (User._id v) (User._id u)) as [e|ne]; [|reflexivity].
  symmetry. exact e.
Qed.

Lemma findById_existsb (id : ObjectId) (coll : list doc) :
  findById id coll <> None -> existsb (fun d => _id d =? id) coll = true.
Proof.
  unfold findById. induction coll as [|y t IH]; cbn [find existsb].
  - intros H. contradiction H. reflexivity.
  - destruct (_id y =? id); [reflexivity|]. exact IH.
Qed.

Lemma ids_upsert (x : doc) (coll : list doc) :
  findById (_id x) coll <> None -> map _id (upsert x coll) = map _id coll.
Proof.
  intros H. unfold upsert. rewrite (findById_existsb _ _ H).
  rewrite map_map. apply map_ext.
  intros v. destruct (Z.eqb_spec (_id v) (_id x)) as [e|ne]; [|reflexivity].
  symmetry. exact e.
Qed.

Lemma recorded_stored (s : Ctx) :
  recorded s -> findById (_id (this s)) (claims (db s)) <> None.
Proof.
  unfold recorded. destruct (findById (_id (this s)) (claims (db s))); discriminate.
Qed.

Lemma recorded_saved (c : doc) (d : Db) : recorded (saved c d).
Proof.
  unfold recorded, saved. cbn [this db claims]. rewrite findById_upsert. reflexivity.
Qed.

Lemma stable_save : Stable save.
Proof.
  intros [c d] Hs. pose proof (recorded_stored _ Hs) as Hin. cbn [this db] in Hin.
  unfold save, modify. cbn [snd this db claims users].
  split; [apply (recorded_saved c d)|].
  repeat split. apply ids_upsert, Hin.
Qed.

Lemma stable_updateStatus (E : Env) st by_ n m : Stable (updateStatus E st by_ n m).
Proof.
  intros [c d] Hs. pose proof (recorded_stored _ Hs) as Hin. cbn [this db] in Hin.
  rewrite updateStatus_run. cbn [snd this db].
  split; [apply recorded_saved|].
  repeat split. unfold saved. cbn [this db claims]. apply ids_upsert.
  rewrite id_appended. exact Hin.
Qed.

Lemma stable_bind {A B : Type} (c : M A) (k : A -> M B) :
  Stable c -> (forall a, Stable (k a)) -> Stable (bind c k).
Proof.
  intros Hc Hk s Hs. destruct (Hc s Hs) as (H1 & H2 & H3 & H4 & H5). unfold bind.
  destruct (c s) as [[a|e] s1]; cbn [snd] in *.
  - destruct (Hk a s1 H1) as (K1 & K2 & K3 & K4 & K5).
    split; [exact K1|]. split; [congruence|]. split; [congruence|].
    split; congruence.
  - repeat split; assumption.
Qed.

Create HintDb stable.
#[local] Hint Resolve stable_ret stable_throw stable_unbound stable_get stable_getThis
  stable_setEvaluation stable_save stable_updateStatus : stable.
#[local] Hint Resolve ids_findByIdAndPush ids_User_save : stable.

Ltac stable :=
  repeat first
    [ solve [auto with stable]
    | apply stable_setUsers; intro
    | apply stable_bind; [|intro]
    | match goal with
      | |- Stable (if ?b then _ else _) => destruct b
      | |- Stable (match ?x with _ => _ end) => destruct x
      end ].

Lemma stable_autoPullData (E : Env) : Stable (autoPullData E).
Proof. unfold autoPullData. stable. Qed.

Lemma stable_calculatePayout (E : Env) : Stable (calculatePayout E).
Proof. unfold calculatePayout. stable. Qed.

Lemma stable_scanFraud (E : Env) : Stable (scanFraud E).
Proof. unfold scanFraud. stable. Qed.

Lemma stable_processPayout (E : Env) (amount : option Q) : Stable (processPayout E amount).
Proof. unfold processPayout. stable. Qed.

#[local] Hint Resolve stable_autoPullData stable_calculatePayout stable_scanFraud
  stable_processPayout : stable.

Lemma stable_verifyClaim (E : Env) : Stable (verifyClaim E).
Proof. unfold verifyClaim. stable. Qed.

Lemma stable_handleReinstatement (E : Env) (by_ : option ObjectId) :
  Stable (handleReinstatement E by_).
Proof. unfold handleReinstatement. stable. Qed.

Lemma stable_review (E : Env) (adminId : ObjectId) (valid : bool) (n : string) :
  Stable (ClaimsController.review E adminId valid n).
Proof. unfold ClaimsController.review. stable. Qed.

Lemma stable_reviewOne (E : Env) (adminId : ObjectId) (valid : bool) (n : string) :
  Stable (AdminClaimsController.reviewOne E adminId valid n).
Proof. unfold AdminClaimsController.reviewOne. stable. Qed.

(** X1.  Verification, payout, reinstatement and both review bodies, run
    on a stored claim, neither create nor delete a claim or a user, whether
    they return or throw; and when they return, the stored copy of the claim
    carries the status history the document in memory has. *)
Theorem methods_keep_the_store_shape (E : Env) (s : Ctx) :
  findById (_id (this s)) (claims (db s)) = Some (this s) ->
  forall (by_ : option ObjectId) (adminId : ObjectId) (valid : bool) (n : string)
         (amount : option Q) (returned_ : bool) (s' : Ctx),
    In (returned_, s')
       [ended (verifyClaim E s); ended (processPayout E amount s);
        ended (handleReinstatement E by_ s);
        ended (ClaimsController.review E adminId valid n s);
        ended (AdminClaimsController.reviewOne E adminId valid n s)] ->
    map _id (claims (db s')) = map _id (claims (db s))
    /\ map User._id (users (db s')) = map User._id (users (db s))
    /\ (returned_ = true ->
        option_map history (findById (_id (this s)) (claims (db s')))
        = Some (history (this s'))).
Proof.
  intros Hst by_ adminId valid n amount returned_ s' Hin.
  assert (Hs : recorded s) by (unfold recorded; rewrite Hst; reflexivity).
  assert (H : recorded s' /\ _id (this s') = _id (this s)
              /\ claimDetails (this s') = claimDetails (this s)
              /\ map _id (claims (db s')) = map _id (claims (db s))
              /\ map User._id (users (db s')) = map User._id (users (db s))).
  { cbn [In] in Hin. unfold ended in Hin.
    destruct Hin as [H|[H|[H|[H|[H|[]]]]]];
      apply (f_equal snd) in H; cbn [snd] in H; rewrite <- H.
    - apply stable_verifyClaim, Hs.
    - apply stable_processPayout, Hs.
    - apply stable_handleReinstatement, Hs.
    - apply stable_review, Hs.
    - apply stable_reviewOne, Hs. }
  destruct H as (Hr & Hid & _ & Hc & Hu).
  split; [exact Hc|]. split; [exact Hu|]. intros _.
  unfold recorded in Hr. rewrite Hid in Hr.
  destruct (findById (_id (this s)) (claims (db s'))) as [c|]; [|discriminate Hr].
  cbn [option_map] in *. injection Hr as _ Hh. rewrite Hh. reflexivity.
Qed.

(** The creator as the store returns it, revenue at 40% of the baseline:
    the verification returns a rejection, and the store has it. *)
Lemma methods_keep_the_store_shape_witness :
  let E := env 105 mildDrop (Some 65000%Q) false in
  let start := ctx (newClaim E 500 FullSuspension (day 100) NotStarted)
                   (store [] schemaShaped) in
  option_map statuses (findById 500 (claims (db (snd (verifyClaim E start)))))
  = Some [Submitted; Rejected]
  /\ map _id (claims (db (snd (verifyClaim E start)))) = [500].
Proof.
  intros E start.
  destruct (methods_keep_the_store_shape E start eq_refl None 0 true "" None
              true (snd (verifyClaim E start))) as (Hids & _ & H).
  - left. vm_compute. reflexivity.
  - split; [|rewrite Hids; reflexivity].
    change 500 with (_id (this start)).
    transitivity (option_map (map status)
                    (option_map history
                       (findById (_id (this start))
                          (claims (db (snd (verifyClaim E start))))))).
    { destruct (findById _ _); reflexivity. }
    rewrite (H eq_refl). vm_compute. reflexivity.
Defined.

(** ** Every outcome of the verification flow *)

Lemma scanFraud_without_user (E : Env) (s : Ctx) :
  User.findById (userId (claimDetails (this s))) (users (db s)) = None ->
  scanFraud E s
  = (Throw (TypeError "Cannot read properties of null (reading 'platformInfo')"), s).
Proof.
  intros Hu. unfold scanFraud, bind, getThis, get. rewrite Hu. reflexivity.
Qed.

(** Runs [verifyClaim] up to the call of the fraud scan. *)
Ltac prescan E c d a r Ha Hdrop Hdup :=
  unfold verifyClaim;
  rewrite bind_eq, (autoPullData_run E (Build_Ctx c d) a Ha); cbv beta iota;
  rewrite bind_eq, getThis_run; cbv beta iota;
  cbn [this db saved];
  match goal with H : r = pull _ _ |- _ => rewrite <- H end;
  rewrite (no_loss_false r c Hdrop);
  rewrite bind_eq, setEvaluation_run; cbv beta iota;
  rewrite bind_eq, getThis_run; cbv beta iota;
  cbn [this db];
  replace (claimDetails (pulled r c)) with (claimDetails c) by reflexivity;
  rewrite (enforceCoverage_pulled r c _ Hdrop);
  rewrite bind_eq, get_run; cbv beta iota;
  cbn [this db claims saved];
  rewrite (isDuplicate_same E c) by reflexivity; rewrite Hdup; cbv iota;
  rewrite bind_eq, setEvaluation_run; cbv beta iota;
  cbn [this db]; fold (screened r c);
  rewrite bind_eq.

Lemma verifyClaim_scan_throws (E : Env) (c : doc) (d : Db) (a : Analytics.t) (r : Pulled) :
  r = pull (incidentDate (claimDetails c)) a ->
  Analytics.findOne (userId (claimDetails c)) (analytics E) = Some a ->
  (70 <= drop r)%Q ->
  isDuplicate E c (claims d) = false ->
  (User.findById (userId (claimDetails c)) (users d) = None
   \/ exists u, User.findById (userId (claimDetails c)) (users d) = Some u
                /\ User.videos u = None) ->
  exists msg,
    verifyClaim E (Build_Ctx c d)
    = (Throw (TypeError msg), Build_Ctx (screened r c) (db (saved (pulled r c) d))).
Proof.
  intros Hr Ha Hdrop Hdup Huser.
  destruct Huser as [Hu | [u [Hu Hv]]].
  - eexists. prescan E c d a r Ha Hdrop Hdup.
    match goal with
    | |- context [scanFraud E ?s] => rewrite (scanFraud_without_user E s Hu)
    end.
    reflexivity.
  - eexists. prescan E c d a r Ha Hdrop Hdup.
    match goal with
    | |- context [scanFraud E ?s] => rewrite (scanFraud_without_videos E s u Hu Hv)
    end.
    reflexivity.
Qed.

(** The state the high branch leaves: Approved and Paid appended, the
    payout date and transaction set, one Paid entry pushed to the owner. *)
Lemma verifyClaim_high_state (E : Env) (c : doc) (d : Db) (a : Analytics.t)
    (u : User.t) (v : list User.Video) (r : Pulled) :
  r = pull (incidentDate (claimDetails c)) a ->
  Analytics.findOne (userId (claimDetails c)) (analytics E) = Some a ->
  (70 <= drop r)%Q ->
  isDuplicate E c (claims d) = false ->
  User.findById (userId (claimDetails c)) (users d) = Some u ->
  User.videos u = Some v ->
  75 < score E (screened r c) u v ->
  let c4 := paidOut E (scored E u v (screened r c)) in
  let amount := Some (total E (scored E u v (screened r c))) in
  let c5 := appended E Approved None (Text "") (ClaimApproved amount (now E + 7 * DAY_MS)) c4 in
  let c6 :=
    appended E Paid None (Text "") (Text "")
      (set_evaluation
         (set_mPesaTransactionId (Some (now E, random E))
            (set_payoutDate (Some (now E + 7 * DAY_MS)) (evaluation c5))) c5) in
  verifyClaim E (Build_Ctx c d)
  = (Normal (Build_Verification Paid None amount (Some (score E (screened r c) u v)) false),
     Build_Ctx c6
       (Build_Db (upsert c6 (claims d))
          (User.findByIdAndPush (userId (claimDetails c))
             (User.Build_HistoryClaim (_id c) "Paid" (createdAt c) amount) (users d))
          (outbox d))).
Proof.
  intros Hr Ha Hdrop Hdup Hu Hv Hhigh c4 amount c5 c6.
  screening E c d a r u v Ha Hdrop Hdup Hu Hv.
  replace (75 <? score E (screened r c) u v) with true by (symmetry; apply Z.ltb_lt; lia).
  rewrite bind_eq, updateStatus_run. cbv beta iota.
  rewrite bind_eq. unfold processPayout.
  rewrite bind_eq, setEvaluation_run. cbv beta iota.
  rewrite bind_eq, updateStatus_run. cbv beta iota.
  rewrite bind_eq, getThis_run. cbv beta iota.
  rewrite bind_eq. unfold setUsers, modify. cbv beta iota.
  rewrite !ret_run.
  f_equal. unfold saved. cbn [this db claims users outbox].
  rewrite !upsert_upsert by same_id. reflexivity.
Qed.

Lemma normal_inv {A : Type} (a b : A) (s t : Ctx) :
  (Normal a, s) = (Normal b, t) -> b = a /\ t = s.
Proof. intros H. injection H as -> ->. split; reflexivity. Qed.

Ltac fields :=
  cbn [this db saved claims users outbox _id claimDetails policyId evaluation history
       createdAt set_evaluation set_history set_claimDetails appended pulled screened
       scored paidOut
       revenueDropPercent lostDays baselineDaily verifiedEarningsLoss coveredReason
       monetizationStatus strikes doubleDipCheck aiAnalysis manualReview payoutAmount
       payoutDate mPesaTransactionId repayAmount reinstated
       set_revenueDropPercent set_lostDays set_baselineDaily set_verifiedEarningsLoss
       set_coveredReason set_monetizationStatus set_strikes set_doubleDipCheck
       set_aiAnalysis set_manualReview set_payoutAmount set_payoutDate
       set_mPesaTransactionId set_repayAmount set_reinstated
       userId incidentType incidentDate appealStatus
       result_status result_reason result_payout result_fraudScore needsManual].

Lemma currentStatus_of_statuses (c : doc) (l : list Status) (st : Status) :
  statuses c = l ++ [st] -> currentStatus c = Some st.
Proof.
  unfold statuses, currentStatus. intros H.
  destruct (history c) as [|h t] eqn:Hh using rev_ind.
  - destruct l; discriminate H.
  - rewrite map_app in H. cbn [map] in H. apply app_inj_tail in H. destruct H as [_ H].
    rewrite last_snoc. cbn [option_map]. rewrite H. reflexivity.
Qed.

(** The outcomes of a run that returns. *)
Lemma verifyClaim_outcomes (E : Env) (s : Ctx) (r : Verification) (s' : Ctx) :
  verifyClaim E s = (Normal r, s') ->
  (result_status r = Rejected
   /\ currentStatus (this s') = Some Rejected
   /\ (result_reason r = Some noLossMessage \/ result_reason r = Some duplicateMessage)
   /\ result_payout r = None /\ result_fraudScore r = None)
  \/ (result_status r = Paid
      /\ currentStatus (this s') = Some Paid
      /\ result_payout r = payoutAmount (evaluation (this s'))
      /\ exists sc, result_fraudScore r = Some sc /\ 75 < sc)
  \/ (result_status r = UnderReview
      /\ currentStatus (this s') = Some ManualReview
      /\ needsManual r = true
      /\ exists sc, result_fraudScore r = Some sc /\ 50 <= sc <= 75).
Proof.
  destruct s as [c d]. intros Hrun.
  destruct (Analytics.findOne (userId (claimDetails c)) (analytics E)) as [a|] eqn:Ha.
  2:{ rewrite (verifyClaim_no_analytics E (Build_Ctx c d) Ha) in Hrun. discriminate Hrun. }
  remember (pull (incidentDate (claimDetails c)) a) as p eqn:Hp.
  destruct (Qlt_le_dec (drop p) 70) as [Hlow|Hdrop].
  { rewrite (verifyClaim_no_loss E c d a p Hp Ha Hlow) in Hrun.
    destruct (normal_inv _ _ _ _ Hrun) as [-> ->]. left.
    split; [reflexivity|]. split; [apply currentStatus_appended|].
    split; [left; reflexivity|]. split; reflexivity. }
  destruct (isDuplicate E c (claims d)) eqn:Hdup.
  { destruct (verifyClaim_duplicate E c d a p Hp Ha Hdrop Hdup)
      as (t & Ht & Hst & _).
    rewrite Ht in Hrun. destruct (normal_inv _ _ _ _ Hrun) as [-> ->]. left.
    split; [reflexivity|].
    split; [apply (currentStatus_of_statuses _ _ _ Hst)|].
    split; [right; reflexivity|]. split; reflexivity. }
  destruct (User.findById (userId (claimDetails c)) (users d)) as [u|] eqn:Hu.
  2:{ destruct (verifyClaim_scan_throws E c d a p Hp Ha Hdrop Hdup (or_introl Hu))
        as [msg Hthrow].
      rewrite Hthrow in Hrun. discriminate Hrun. }
  destruct (User.videos u) as [v|] eqn:Hv.
  2:{ destruct (verifyClaim_scan_throws E c d a p Hp Ha Hdrop Hdup
                  (or_intror (ex_intro _ u (conj Hu Hv)))) as [msg Hthrow].
      rewrite Hthrow in Hrun. discriminate Hrun. }
  destruct (Z_lt_le_dec 75 (score E (screened p c) u v)) as [Hhigh|Hle].
  { pose proof (verifyClaim_high_state E c d a u v p Hp Ha Hdrop Hdup Hu Hv Hhigh) as Hh.
    cbv zeta in Hh. rewrite Hh in Hrun. clear Hh.
    destruct (normal_inv _ _ _ _ Hrun) as [-> ->]. right. left.
    cbn [this result_status result_payout result_fraudScore].
    split; [reflexivity|]. split; [apply currentStatus_appended|].
    split; [fields; reflexivity|]. eexists. split; [reflexivity|exact Hhigh]. }
  destruct (Z_lt_le_dec (score E (screened p c) u v) 50) as [Hlt|Hge].
  { rewrite (verifyClaim_low E c d a u v p Hp Ha Hdrop Hdup Hu Hv Hlt) in Hrun.
    discriminate Hrun. }
  rewrite (verifyClaim_manual E c d a u v p Hp Ha Hdrop Hdup Hu Hv (conj Hge Hle)) in Hrun.
  destruct (normal_inv _ _ _ _ Hrun) as [-> ->]. right. right.
  cbn [this saved result_status result_fraudScore needsManual].
  split; [reflexivity|]. split; [apply currentStatus_appended|].
  split; [reflexivity|]. eexists. split; [reflexivity|]. split; assumption.
Qed.

(** X2.  Whenever [verifyClaim] returns on a stored claim, what it
    reports, what the document in memory has and what the store has agree:
    the stored copy ends on the status of the document, and that status is
    the reported one up to one renaming: Rejected with Rejected (and the
    reason is the missing loss or the duplicate, never the coverage or the
    fraud score), Paid with Paid (score above 75, the reported payout is the
    stored one), Under Review with Manual Review (score in 50..75). *)
Theorem verifyClaim_reported_and_recorded (E : Env) (s : Ctx) (r : Verification) (s' : Ctx) :
  findById (_id (this s)) (claims (db s)) = Some (this s) ->
  verifyClaim E s = (Normal r, s') ->
  option_map currentStatus (findById (_id (this s)) (claims (db s')))
  = Some (currentStatus (this s'))
  /\ ((result_status r = Rejected
       /\ currentStatus (this s') = Some Rejected
       /\ (result_reason r = Some noLossMessage \/ result_reason r = Some duplicateMessage)
       /\ result_payout r = None /\ result_fraudScore r = None)
      \/ (result_status r = Paid
          /\ currentStatus (this s') = Some Paid
          /\ result_payout r = payoutAmount (evaluation (this s'))
          /\ exists sc, result_fraudScore r = Some sc /\ 75 < sc)
      \/ (result_status r = UnderReview
          /\ currentStatus (this s') = Some ManualReview
          /\ needsManual r = true
          /\ exists sc, result_fraudScore r = Some sc /\ 50 <= sc <= 75)).
Proof.
  intros Hst Hrun. split; [|exact (verifyClaim_outcomes E s r s' Hrun)].
  assert (Hs : recorded s) by (unfold recorded; rewrite Hst; reflexivity).
  destruct (stable_verifyClaim E s Hs) as (Hrec & Hid & _).
  rewrite Hrun in Hrec, Hid. cbn [snd] in Hrec, Hid.
  unfold recorded in Hrec. rewrite Hid in Hrec.
  destruct (findById (_id (this s)) (claims (db s'))) as [x|]; [|discriminate Hrec].
  cbn [option_map] in *. injection Hrec as _ Hh.
  unfold currentStatus. rewrite Hh. reflexivity.
Qed.

(** Scenario A is reported and recorded as Paid. *)
Lemma verifyClaim_reported_and_recorded_witness :
  let E := env 105 steadyThenDrop (Some 65000%Q) false in
  let start := ctx (newClaim E 500 FullSuspension (day 100) NotStarted) (store [] creator) in
  exists r s',
    verifyClaim E start = (Normal r, s')
    /\ result_status r = Paid
    /\ currentStatus (this s') = Some Paid
    /\ option_map currentStatus (findById 500 (claims (db s'))) = Some (Some Paid).
Proof.
  intros E start.
  assert (Hrun : exists r s', verifyClaim E start = (Normal r, s') /\ result_status r = Paid).
  { eexists. eexists. split; vm_compute; reflexivity. }
  destruct Hrun as (r & s' & Hrun & Hpaid).
  exists r, s'. split; [exact Hrun|]. split; [exact Hpaid|].
  destruct (verifyClaim_reported_and_recorded E start r s' eq_refl Hrun)
    as (Hstored & [(Hs & _) | [(_ & Hc & _) | (Hs & _)]]).
  - rewrite Hpaid in Hs. discriminate Hs.
  - split; [exact Hc|]. rewrite <- Hc. exact Hstored.
  - rewrite Hpaid in Hs. discriminate Hs.
Defined.

(** The state a rejected duplicate leaves. *)
Lemma verifyClaim_duplicate_state (E : Env) (c : doc) (d : Db) (a : Analytics.t)
    (r : Pulled) :
  r = pull (incidentDate (claimDetails c)) a ->
  Analytics.findOne (userId (claimDetails c)) (analytics E) = Some a ->
  (70 <= drop r)%Q ->
  isDuplicate E c (claims d) = true ->
  let p := set_evaluation
             (set_coveredReason (mapped (incidentType (claimDetails c)))
                                (evaluation (pulled r c))) (pulled r c) in
  verifyClaim E (Build_Ctx c d)
  = (Normal (rejected duplicateMessage None),
     saved (appended E Rejected None duplicateMessage duplicateMessage
              (set_evaluation (set_doubleDipCheck true (evaluation p)) p))
           (db (saved (pulled r c) d))).
Proof.
  intros Hr Ha Hdrop Hdup p. unfold verifyClaim.
  rewrite bind_eq, (autoPullData_run E (Build_Ctx c d) a Ha). cbv beta iota.
  rewrite bind_eq, getThis_run. cbv beta iota.
  cbn [this db saved]. rewrite <- Hr.
  rewrite (no_loss_false r c Hdrop).
  rewrite bind_eq, setEvaluation_run. cbv beta iota.
  rewrite bind_eq, getThis_run. cbv beta iota.
  cbn [this db].
  replace (claimDetails (pulled r c)) with (claimDetails c) by reflexivity.
  rewrite (enforceCoverage_pulled r c _ Hdrop).
  rewrite bind_eq, get_run. cbv beta iota.
  cbn [this db claims saved].
  rewrite (isDuplicate_same E c) by reflexivity. rewrite Hdup. cbv iota.
  rewrite bind_eq, setEvaluation_run. cbv beta iota.
  rewrite bind_eq, updateStatus_run. cbv beta iota. rewrite ret_run.
  reflexivity.
Qed.

(** X3.  For a creator as the store returns it (no [videos] array under
    [platformInfo.youtube], or no user at all) the verification decides
    nothing but a rejection: when it returns, the result is Rejected with
    no payout and no score; returning or throwing, it appends nothing or
    one Rejected, it computes no payout, stores no analysis and touches no
    user. *)
Theorem verifyClaim_only_rejects_loaded_users (E : Env) (c : doc) (d : Db) :
  let out := verifyClaim E (Build_Ctx c d) in
  (forall u, User.findById (userId (claimDetails c)) (users d) = Some u ->
             User.videos u = None) ->
  (forall r, fst out = Normal r ->
     result_status r = Rejected /\ result_payout r = None /\ result_fraudScore r = None
     /\ statuses (this (snd out)) = statuses c ++ [Rejected])
  /\ (statuses (this (snd out)) = statuses c
      \/ statuses (this (snd out)) = statuses c ++ [Rejected])
  /\ payoutAmount (evaluation (this (snd out))) = payoutAmount (evaluation c)
  /\ aiAnalysis (evaluation (this (snd out))) = aiAnalysis (evaluation c)
  /\ users (db (snd out)) = users d.
Proof.
  intros out Hvid. unfold out.
  destruct (Analytics.findOne (userId (claimDetails c)) (analytics E)) as [a|] eqn:Ha.
  2:{ rewrite (verifyClaim_no_analytics E (Build_Ctx c d) Ha). cbn [fst snd this db].
      split; [intros r H; discriminate H|]. split; [left; reflexivity|].
      repeat split. }
  remember (pull (incidentDate (claimDetails c)) a) as p eqn:Hp.
  assert (Happ : forall x m, statuses x = statuses c ->
            statuses (appended E Rejected None m m x) = statuses c ++ [Rejected]).
  { intros x m Hx. unfold statuses in *. unfold appended. cbn [history set_history].
    rewrite map_app, Hx. reflexivity. }
  destruct (Qlt_le_dec (drop p) 70) as [Hlow|Hdrop].
  { rewrite (verifyClaim_no_loss E c d a p Hp Ha Hlow). cbn [fst snd this saved db users].
    split.
    { intros r H. injection H as <-. repeat split. apply Happ. reflexivity. }
    split; [right; apply Happ; reflexivity|]. repeat split. }
  destruct (isDuplicate E c (claims d)) eqn:Hdup.
  { pose proof (verifyClaim_duplicate_state E c d a p Hp Ha Hdrop Hdup) as Hrun.
    cbv zeta in Hrun. rewrite Hrun. cbn [fst snd this saved db users].
    split.
    { intros r H. injection H as <-. repeat split. apply Happ. reflexivity. }
    split; [right; apply Happ; reflexivity|]. repeat split. }
  assert (Huser : User.findById (userId (claimDetails c)) (users d) = None
                  \/ exists u, User.findById (userId (claimDetails c)) (users d) = Some u
                               /\ User.videos u = None).
  { destruct (User.findById (userId (claimDetails c)) (users d)) as [u|] eqn:Hu.
    - right. exists u. split; [reflexivity|]. apply Hvid. reflexivity.
    - left. reflexivity. }
  destruct (verifyClaim_scan_throws E c d a p Hp Ha Hdrop Hdup Huser) as [msg Hthrow].
  rewrite Hthrow. cbn [fst snd this saved db users].
  split; [intros r H; discriminate H|]. split; [left; reflexivity|]. repeat split.
Qed.

(** The creator as the store returns it, after a drop of 90%: the scan
    throws, and the history is as it was. *)
Lemma verifyClaim_only_rejects_loaded_users_witness :
  let E := env 105 steadyThenDrop (Some 65000%Q) false in
  let c := newClaim E 500 FullSuspension (day 100) NotStarted in
  let out := verifyClaim E (Build_Ctx c (db (saved c (store [] schemaShaped)))) in
  fst out = Throw (TypeError "Cannot read properties of undefined (reading 'length')")
  /\ payoutAmount (evaluation (this (snd out))) = None
  /\ users (db (snd out)) = [schemaShaped].
Proof.
  intros E c out.
  destruct (verifyClaim_only_rejects_loaded_users E c (db (saved c (store [] schemaShaped))))
    as (_ & _ & Hpay & _ & Hu).
  - intros u H. vm_compute in H. injection H as <-. reflexivity.
  - split; [vm_compute; reflexivity|]. split; [exact Hpay|exact Hu].
Defined.



(** ** Callers of the verification flow *)



(** ** Revenue-drop detection *)

Lemma reduce_sum_from {A : Type} (f : A -> Q) (l : list A) (x : Q) :
  (fold_left (fun sum h => sum + f h) l x == x + reduce_sum f l)%Q.
Proof.
  unfold reduce_sum. revert x. induction l as [|h t IH]; intros x; cbn [fold_left].
  - ring.
  - rewrite IH. rewrite (IH (0 + f h)%Q). ring.
Qed.

Lemma reduce_sum_nonneg {A : Type} (f : A -> Q) (l : list A) :
  Forall (fun h => 0 <= f h)%Q l -> (0 <= reduce_sum f l)%Q.
Proof.
  induction 1 as [|h t Hh Ht IH].
  - unfold reduce_sum. cbn. lra.
  - unfold reduce_sum. cbn [fold_left]. rewrite reduce_sum_from. lra.
Qed.

Lemma Forall_slice_last {A : Type} (P : A -> Prop) (n : nat) (l : list A) :
  Forall P l -> Forall P (slice_last n l).
Proof.
  intros H. unfold slice_last.
  rewrite <- (firstn_skipn (List.length l - n) l) in H. apply Forall_app in H. tauto.
Qed.

Lemma Forall_slice_first {A : Type} (P : A -> Prop) (n : nat) (l : list A) :
  Forall P l -> Forall P (slice_first n l).
Proof.
  intros H. unfold slice_first.
  rewrite <- (firstn_skipn n l) in H. apply Forall_app in H. tauto.
Qed.

Lemma no_drop_from_itself (r : Q) :
  ~ (r == 0)%Q -> Qgeb (Qmax 0 ((r - r) / r * 100)) 70 = false.
Proof.
  intros Hr. unfold Qgeb.
  destruct (Qle_bool 70 (Qmax 0 ((r - r) / r * 100))) eqn:H; [|reflexivity].
  apply Qle_bool_iff in H. apply Q.max_le_iff in H.
  assert (Hz : ((r - r) / r * 100 == 0)%Q) by (field; exact Hr).
  destruct H as [H|H]; [lra|]. rewrite Hz in H. lra.
Qed.

Lemma Qlength_pos {A : Type} (l : list A) :
  0 < Z.of_nat (List.length l) -> (0 < Qlength l)%Q.
Proof. intros H. unfold Qlength, Qlt. cbn. lia. Qed.

(** X7.  Whatever the amounts, eligibility needs at least four entries and a
    drop that is a number: with three entries or fewer, or with a zero
    average before the last three, the creator is never eligible. *)
Theorem detectRevenueDrop_needs_four_entries (a : Analytics.t) :
  Analytics.eligible (Analytics.detectRevenueDrop a) = true ->
  (4 <= List.length (Analytics.earningsHistory a))%nat
  /\ exists d, Analytics.drop (Analytics.detectRevenueDrop a) = Some d /\ (70 <= d)%Q.
Proof.
  unfold Analytics.detectRevenueDrop.
  set (h := slice_last 7 (Analytics.earningsHistory a)).
  set (older := slice_first (List.length h - 3) h).
  set (recent := (reduce_sum Analytics.amount (slice_last 3 h) / 3)%Q).
  assert (Hh : (List.length h <= List.length (Analytics.earningsHistory a))%nat).
  { unfold h, slice_last. rewrite length_skipn. lia. }
  assert (Ho : (List.length older <= List.length h - 3)%nat).
  { unfold older, slice_first. rewrite length_firstn. lia. }
  destruct (Z.of_nat (List.length h) <? 3) eqn:Hlen; [discriminate|].
  destruct (0 <? Z.of_nat (List.length older)) eqn:Hn.
  - apply Z.ltb_lt in Hn.
    match goal with
    | |- context [Qeq_bool ?b 0] => destruct (Qeq_bool b 0) eqn:Hb; [discriminate|]
    end.
    cbn [Analytics.eligible Analytics.drop]. intros He.
    split; [lia|]. eexists. split; [reflexivity|].
    apply Qle_bool_iff. exact He.
  - cbn [num_or].
    destruct (Qeq_bool recent 0) eqn:Hr; [discriminate|].
    cbn [Analytics.eligible]. rewrite no_drop_from_itself; [discriminate|].
    intros H. apply Qeq_bool_iff in H. rewrite H in Hr. discriminate Hr.
Qed.

Lemma detectRevenueDrop_needs_four_entries_witness :
  (4 <= List.length (Analytics.earningsHistory steadyThenDrop))%nat.
Proof.
  apply detectRevenueDrop_needs_four_entries. vm_compute. reflexivity.
Defined.

(** X8.  With non-negative amounts a drop that is a number lies between 0
    and 100. *)
Theorem detectRevenueDrop_range (a : Analytics.t) (d : Q) :
  Forall (fun e => (0 <= Analytics.amount e)%Q) (Analytics.earningsHistory a) ->
  Analytics.drop (Analytics.detectRevenueDrop a) = Some d ->
  (0 <= d <= 100)%Q.
Proof.
  intros Hpos. unfold Analytics.detectRevenueDrop.
  set (h := slice_last 7 (Analytics.earningsHistory a)).
  set (older := slice_first (List.length h - 3) h).
  assert (Holder : (0 <= reduce_sum Analytics.amount older)%Q).
  { apply reduce_sum_nonneg, Forall_slice_first, Forall_slice_last, Hpos. }
  assert (Hrecent : (0 <= reduce_sum Analytics.amount (slice_last 3 h) / 3)%Q).
  { apply Qle_shift_div_l; [lra|].
    assert (H := reduce_sum_nonneg Analytics.amount (slice_last 3 h)
                   (Forall_slice_last _ 3 h (Forall_slice_last _ 7 _ Hpos))).
    lra. }
  set (recent := (reduce_sum Analytics.amount (slice_last 3 h) / 3)%Q) in *.
  destruct (Z.of_nat (List.length h) <? 3) eqn:Hlen.
  { cbn [Analytics.drop]. intros H. injection H as <-. lra. }
  match goal with
  | |- context [Qeq_bool ?b 0] =>
    assert (Hb : (0 <= b)%Q); [|set (b' := b) in *; destruct (Qeq_bool b' 0) eqn:Hz]
  end.
  { destruct (0 <? Z.of_nat (List.length older)) eqn:Hn; cbn [num_or].
    - apply Z.ltb_lt in Hn. pose proof (Qlength_pos older Hn) as Hl.
      assert (Hx : (0 <= reduce_sum Analytics.amount older / Qlength older)%Q).
      { apply Qle_shift_div_l; [exact Hl|]. lra. }
      destruct (Qeq_bool _ 0); [exact Hrecent|exact Hx].
    - exact Hrecent. }
  { discriminate. }
  cbn [Analytics.drop]. intros H. injection H as <-.
  assert (Hne : ~ (b' == 0)%Q).
  { intros H. apply Qeq_bool_iff in H. rewrite H in Hz. discriminate Hz. }
  assert (Hq : ((b' - recent) / b' * b' == b' - recent)%Q) by (field; exact Hne).
  set (q := ((b' - recent) / b')%Q) in *.
  split; [apply Q.le_max_l|].
  apply Q.max_lub; [lra|]. nra.
Qed.

(** A spike on the eve and nothing since: the drop is a number in range. *)
Lemma detectRevenueDrop_range_witness :
  exists d, Analytics.drop (Analytics.detectRevenueDrop spikeThenNothing) = Some d
            /\ (0 <= d <= 100)%Q.
Proof.
  assert (H : exists d, Analytics.drop (Analytics.detectRevenueDrop spikeThenNothing) = Some d).
  { eexists. vm_compute. reflexivity. }
  destruct H as [d Hd]. exists d. split; [exact Hd|].
  apply (detectRevenueDrop_range spikeThenNothing d).
  - repeat constructor; vm_compute; discriminate.
  - exact Hd.
Defined.

(** ** The insurance application *)

Lemma Application_findById_save (x : Application.t) (coll : list Application.t) :
  Application.findById (User._id (Application.user x)) coll <> None ->
  Application.findById (User._id (Application.user x))
    (map (fun v => if Z.eqb (User._id (Application.user v)) (User._id (Application.user x))
                   then x else v) coll)
  = Some x.
Proof.
  unfold Application.findById. induction coll as [|y t IH]; cbn [find map].
  - intros H. contradiction H. reflexivity.
  - destruct (User._id (Application.user y) =? User._id (Application.user x)) eqn:Hy.
    + intros _. rewrite Z.eqb_refl. reflexivity.
    + intros H. rewrite Hy. apply IH, H.
Qed.

(** The gate of [createFromApplication] refuses every user whose standing
    was just reset. *)
Lemma createFromApplication_after_reset (now : Date) (newId : ObjectId) (u : User.t) :
  Premium.createFromApplication now newId (Some (User.set_fraudScore 0 u))
  = Throw (Error (if Qltb (User.monthlyEarnings u) 65000
                  then "User ineligible: Min KSh 65k/mo earnings required for CCI"
                  else "Fraud score too low for approval")).
Proof.
  unfold Premium.createFromApplication. cbn [User.monthlyEarnings User.set_fraudScore].
  destruct (Qltb (User.monthlyEarnings u) 65000); reflexivity.
Qed.

(** The run of [applyForInsurance] once the four checks have passed. *)
Lemma applyForInsurance_run (valid : Application.t -> bool) (now : Date) (newId : ObjectId)
    (nid : string) (u : Application.t) (st : list Application.t) :
  Application.onboarded u = true ->
  Qltb (User.monthlyEarnings (Application.user u)) 0 = false ->
  Application.status u = Application.NotApplied ->
  String.eqb nid "" || negb (Nat.eqb (String.length (Application.trim nid)) 8) = false ->
  let u' := Application.applied now nid u in
  Application.applyForInsurance valid now newId nid (Application.Build_Session u st)
  = if negb (valid u')
    then (Throw (Error "User validation failed"), Application.Build_Session u' st)
    else
      match Application.findById (User._id (Application.user u)) st with
      | None => (Throw (Error "No document found for query"), Application.Build_Session u' st)
      | Some _ =>
        (Throw (Error (if Qltb (User.monthlyEarnings (Application.user u)) 65000
                       then "User ineligible: Min KSh 65k/mo earnings required for CCI"
                       else "Fraud score too low for approval")),
         Application.Build_Session u'
           (map (fun v => if Z.eqb (User._id (Application.user v))
                                   (User._id (Application.user u))
                          then u' else v) st))
      end.
Proof.
  intros Ho He Hs Hn u'.
  unfold Application.applyForInsurance.
  rewrite bind_eq. unfold get at 1. cbv beta iota.
  cbn [Application.this Application.stored].
  rewrite Ho, He, Hs, Hn. cbn [negb Application.status_eqb].
  rewrite bind_eq. unfold modify at 1. cbv beta iota.
  cbn [Application.this Application.stored]. fold u'.
  rewrite bind_eq. unfold Application.save.
  rewrite bind_eq. unfold get at 1. cbv beta iota.
  cbn [Application.this Application.stored].
  destruct (valid u'); cbn [negb]; [|reflexivity].
  replace (User._id (Application.user u')) with (User._id (Application.user u))
    by reflexivity.
  destruct (Application.findById (User._id (Application.user u)) st) as [x|] eqn:Hx;
    [|reflexivity].
  unfold modify at 1. cbv beta iota.
  rewrite bind_eq. unfold get at 1. cbv beta iota.
  cbn [Application.this Application.stored].
  replace (User._id (Application.user u)) with (User._id (Application.user u')) at 2 3
    by reflexivity.
  rewrite Application_findById_save
    by (replace (User._id (Application.user u')) with (User._id (Application.user u))
          by reflexivity; rewrite Hx; discriminate).
  cbn [option_map].
  change (Application.user u') with (User.set_fraudScore 0 (Application.user u)).
  rewrite createFromApplication_after_reset. unfold throw. f_equal.
Qed.

(** X9.  [applyForInsurance] never returns: a check refuses the
    application, the save fails, or [createFromApplication] refuses the user
    whose standing the method has just reset to 0. *)
Theorem applyForInsurance_never_returns (valid : Application.t -> bool) (now : Date)
    (newId : ObjectId) (nid : string) (s : Application.Session) :
  exists e, fst (Application.applyForInsurance valid now newId nid s) = Throw e.
Proof.
  destruct s as [u st].
  destruct (Application.onboarded u) eqn:Ho.
  2:{ unfold Application.applyForInsurance, bind, get.
      cbn [Application.this]. rewrite Ho. eexists. reflexivity. }
  destruct (Qltb (User.monthlyEarnings (Application.user u)) 0) eqn:He.
  { unfold Application.applyForInsurance, bind, get.
    cbn [Application.this]. rewrite Ho, He. eexists. reflexivity. }
  destruct (Application.status_eqb (Application.status u) Application.NotApplied) eqn:Hs.
  2:{ unfold Application.applyForInsurance, bind, get.
      cbn [Application.this]. rewrite Ho, He, Hs. eexists. reflexivity. }
  destruct (String.eqb nid "" || negb (Nat.eqb (String.length (Application.trim nid)) 8))
    eqn:Hn.
  { unfold Application.applyForInsurance, bind, get.
    cbn [Application.this]. rewrite Ho, He, Hs, Hn. eexists. reflexivity. }
  assert (Hst : Application.status u = Application.NotApplied)
    by (destruct (Application.status u); try discriminate Hs; reflexivity).
  pose proof (applyForInsurance_run valid now newId nid u st Ho He Hst Hn) as Hrun.
  cbv zeta in Hrun. rewrite Hrun.
  destruct (valid _); cbn [negb]; [|eexists; reflexivity].
  destruct (Application.findById _ st); eexists; reflexivity.
Qed.

(** X10.  An application that passes the checks and the save is left
    Pending with standing 0 in the store, and every later application of the
    same user is refused as already in progress. *)
Theorem applyForInsurance_locks_out (valid : Application.t -> bool) (now : Date)
    (newId : ObjectId) (nid : string) (u x : Application.t) (st : list Application.t) :
  let u' := Application.applied now nid u in
  let out := Application.applyForInsurance valid now newId nid
               (Application.Build_Session u st) in
  Application.onboarded u = true ->
  (0 <= User.monthlyEarnings (Application.user u))%Q ->
  Application.status u = Application.NotApplied ->
  nid <> ""%string ->
  String.length (Application.trim nid) = 8%nat ->
  valid u' = true ->
  Application.findById (User._id (Application.user u)) st = Some x ->
  fst out
  = Throw (Error (if Qltb (User.monthlyEarnings (Application.user u)) 65000
                  then "User ineligible: Min KSh 65k/mo earnings required for CCI"
                  else "Fraud score too low for approval"))
  /\ Application.findById (User._id (Application.user u)) (Application.stored (snd out))
     = Some u'
  /\ Application.status u' = Application.Pending
  /\ User.fraudScore (Application.user u') = 0%Q
  /\ Application.premium u' = Application.premium u
  /\ forall valid' now' newId' nid',
       Application.applyForInsurance valid' now' newId' nid'
         (Application.Build_Session u' (Application.stored (snd out)))
       = (Throw (Error "Insurance application already in progress or completed"),
          Application.Build_Session u' (Application.stored (snd out))).
Proof.
  intros u' out Ho He Hs Hn Hlen Hv Hx.
  assert (He' : Qltb (User.monthlyEarnings (Application.user u)) 0 = false).
  { unfold Qltb. apply negb_false_iff, Qle_bool_iff, He. }
  assert (Hn' : String.eqb nid "" || negb (Nat.eqb (String.length (Application.trim nid)) 8)
                = false).
  { rewrite Hlen. cbn [Nat.eqb negb]. rewrite orb_false_r. apply String.eqb_neq, Hn. }
  pose proof (applyForInsurance_run valid now newId nid u st Ho He' Hs Hn') as Hrun.
  cbv zeta in Hrun. fold u' in Hrun. rewrite Hv, Hx in Hrun. cbn [negb] in Hrun.
  unfold out. rewrite Hrun. cbn [fst snd Application.stored].
  split; [reflexivity|].
  split.
  { replace (User._id (Application.user u)) with (User._id (Application.user u'))
      by reflexivity.
    apply Application_findById_save.
    replace (User._id (Application.user u')) with (User._id (Application.user u))
      by reflexivity.
    rewrite Hx. discriminate. }
  split; [reflexivity|]. split; [reflexivity|]. split; [reflexivity|].
  intros valid' now' newId' nid'.
  unfold Application.applyForInsurance, bind, get.
  cbn [Application.this]. unfold u' at 1 2 3.
  cbn [Application.applied Application.onboarded Application.status Application.user
       User.set_fraudScore User.monthlyEarnings Application.status_eqb negb].
  rewrite Ho, He'. reflexivity.
Qed.

(** An onboarded creator earning 100000 a month applies with an eight-digit
    id: refused for the standing reset to 0, and locked out. *)
Lemma applyForInsurance_locks_out_witness :
  let u := Application.Build_t creator true Application.NotApplied None ""
             Application.Onboarded (Application.Build_PremiumLink 0 None None) in
  let out := Application.applyForInsurance (fun _ => true) (day 105) 7 " 12345678 "
               (Application.Build_Session u [u]) in
  fst out = Throw (Error "Fraud score too low for approval")
  /\ option_map Application.status (Application.findById 1 (Application.stored (snd out)))
     = Some Application.Pending.
Proof.
  intros u out.
  destruct (applyForInsurance_locks_out (fun _ => true) (day 105) 7 " 12345678 " u u [u])
    as (Hout & Hst & _).
  - reflexivity.
  - unfold Qle. vm_compute. discriminate.
  - reflexivity.
  - discriminate.
  - reflexivity.
  - reflexivity.
  - reflexivity.
  - split; [exact Hout|].
    change 1 with (User._id (Application.user u)). unfold out. rewrite Hst. reflexivity.
Defined.

(** ** Deleting a claim *)

Lemma User_findById_id (id : ObjectId) (coll : list User.t) (u : User.t) :
  User.findById id coll = Some u -> User._id u = id.
Proof.
  unfold User.findById. intros H. apply find_some in H. destruct H as [_ H].
  apply Z.eqb_eq, H.
Qed.

Lemma User_findById_ids (id : ObjectId) (coll coll' : list User.t) :
  map User._id coll' = map User._id coll ->
  User.findById id coll <> None -> User.findById id coll' <> None.
Proof.
  unfold User.findById. revert coll'.
  induction coll as [|x t IH]; intros [|y t'] Hm H; try discriminate Hm.
  - exact H.
  - cbn [map] in Hm. injection Hm as Hy Ht. cbn [find] in *. rewrite Hy.
    destruct (User._id x =? id); [discriminate|]. apply (IH t' Ht H).
Qed.

Lemma findById_filter_out (id : ObjectId) (coll : list doc) :
  findById id (filter (fun c => negb (_id c =? id)) coll) = None.
Proof.
  unfold findById. induction coll as [|x t IH]; [reflexivity|]. cbn [filter].
  destruct (_id x =? id) eqn:Hx; cbn [negb]; [exact IH|].
  cbn [find]. rewrite Hx. exact IH.
Qed.

Lemma findById_filter_other (id j : ObjectId) (coll : list doc) :
  j <> id ->
  findById j (filter (fun c => negb (_id c =? id)) coll) = findById j coll.
Proof.
  intros Hj. unfold findById. induction coll as [|x t IH]; [reflexivity|]. cbn [filter find].
  destruct (Z.eqb_spec (_id x) id) as [e|ne]; cbn [negb].
  - destruct (Z.eqb_spec (_id x) j) as [e'|_]; [congruence|exact IH].
  - cbn [find]. destruct (_id x =? j); [reflexivity|exact IH].
Qed.

Lemma User_findById_pull (id claim : ObjectId) (coll : list User.t) (u : User.t) :
  User.findById id coll = Some u ->
  User.findById id (User.findByIdAndPull id claim coll) = Some (User.pull_claim claim u).
Proof.
  unfold User.findById, User.findByIdAndPull.
  induction coll as [|x coll IH]; [discriminate|]. cbn [find map].
  destruct (User._id x =? id) eqn:Hx.
  - intros H. injection H as ->. cbn [User.pull_claim User._id]. rewrite Hx. reflexivity.
  - rewrite Hx. exact IH.
Qed.

Lemma lastEntry_status (c : doc) (st : Status) :
  currentStatus c = Some st -> exists h, lastEntry c = Some h /\ status h = st.
Proof.
  unfold currentStatus, lastEntry.
  destruct (last (map Some (history c)) None) as [h|]; [|discriminate].
  cbn [option_map]. intros H. injection H as H. exists h. split; [reflexivity|exact H].
Qed.





Lemma upsert_fresh (x : doc) (coll : list doc) :
  findById (_id x) coll = None -> upsert x coll = coll ++ [x].
Proof.
  intros H. unfold upsert.
  destruct (existsb (fun d => _id d =? _id x) coll) eqn:Hex; [|reflexivity].
  apply existsb_exists in Hex. destruct Hex as (y & Hy & Hid).
  unfold findById in H. apply (find_none _ _ H) in Hy. rewrite Hy in Hid. discriminate Hid.
Qed.

Lemma filter_out_fresh (x : doc) (coll : list doc) :
  findById (_id x) coll = None ->
  filter (fun c => negb (_id c =? _id x)) (coll ++ [x]) = coll.
Proof.
  intros H. rewrite filter_app. cbn [filter]. rewrite Z.eqb_refl. cbn [negb].
  rewrite app_nil_r. apply forallb_filter_id. apply forallb_forall.
  intros y Hy. unfold findById in H. apply (find_none _ _ H) in Hy. rewrite Hy. reflexivity.
Qed.

Lemma pull_claim_absent (claim : ObjectId) (u : User.t) :
  Forall (fun h => User.claimId h <> claim) (User.claims u) -> User.pull_claim claim u = u.
Proof.
  intros H. destruct u as [i n e m me v p fs cl]. unfold User.pull_claim.
  cbn [User._id User.fullName User.email User.mobileNumber User.monthlyEarnings User.videos
       User.channelPublishedAt User.fraudScore User.claims] in *.
  f_equal. apply forallb_filter_id. apply forallb_forall. intros h Hh.
  rewrite Forall_forall in H. apply negb_true_iff, Z.eqb_neq, H, Hh.
Qed.

Lemma findByIdAndPull_absent (id claim : ObjectId) (coll : list User.t) :
  Forall (fun v => Forall (fun h => User.claimId h <> claim) (User.claims v)) coll ->
  User.findByIdAndPull id claim coll = coll.
Proof.
  intros H. unfold User.findByIdAndPull. rewrite <- (map_id coll) at 2.
  apply map_ext_in. intros v Hv. rewrite Forall_forall in H.
  destruct (User._id v =? id); [|reflexivity]. apply pull_claim_absent, H, Hv.
Qed.



(** ** The review paths and the status they start from *)

Lemma findById_id (id : ObjectId) (coll : list doc) (c : doc) :
  findById id coll = Some c -> _id c = id.
Proof.
  unfold findById. intros H. apply find_some in H. destruct H as [_ H]. apply Z.eqb_eq, H.
Qed.

Lemma recorded_found (id : ObjectId) (c : doc) (d : Db) :
  findById id (claims d) = Some c -> recorded (Build_Ctx c d).
Proof.
  intros H. unfold recorded. cbn [this db]. rewrite (findById_id _ _ _ H), H. reflexivity.
Qed.

(** The state a valid single review leaves. *)
Lemma review_valid_state (E : Env) (adminId : ObjectId) (n : string) (c : doc) (d : Db) :
  let c1 := set_evaluation
              (set_manualReview (Some (Build_Review adminId n true)) (evaluation c)) c in
  let amount := total E c in
  let c3 := appended E Approved (Some adminId) (Text n) (ApprovedAfterReview amount)
              (paidOut E c1) in
  let c4 :=
    appended E Paid None (Text "") (Text "")
      (set_evaluation
         (set_mPesaTransactionId (Some (now E, random E))
            (set_payoutDate (Some (now E + 7 * DAY_MS)) (evaluation c3))) c3) in
  ClaimsController.review E adminId true n (Build_Ctx c d)
  = (Normal amount,
     Build_Ctx c4
       (Build_Db (upsert c4 (claims d))
          (User.findByIdAndPush (userId (claimDetails c))
             (User.Build_HistoryClaim (_id c) "Paid" (createdAt c) (Some amount)) (users d))
          (outbox d))).
Proof.
  intros c1 amount c3 c4. unfold ClaimsController.review.
  rewrite bind_eq, setEvaluation_run. cbv beta iota.
  rewrite bind_eq, calculatePayout_run. cbv beta iota.
  rewrite bind_eq, updateStatus_run. cbv beta iota.
  rewrite bind_eq, bind_eq. unfold processPayout.
  rewrite bind_eq, setEvaluation_run. cbv beta iota.
  rewrite bind_eq, updateStatus_run. cbv beta iota.
  rewrite bind_eq, getThis_run. cbv beta iota.
  rewrite bind_eq. unfold setUsers, modify. cbv beta iota.
  rewrite !ret_run. cbv beta iota.
  unfold saved. cbn [this db claims users outbox].
  rewrite !upsert_upsert by same_id. reflexivity.
Qed.

(** X14.  The single manual review does not look at the status the claim
    has.  For any stored claim whose owner exists, notes that are not empty
    and have at most 500 characters, and a recomputed payout that is not
    negative, a valid review is answered 200, appends Approved and Paid,
    stores the recomputed payout, and adds to the owner's claim history one
    more entry, 'Paid' with that payout, leaving the owner's standing as it
    was; one e-mail goes out.  An already Paid claim is approved and paid
    again. *)
Theorem reviewClaimManual_ignores_status
    (E : Env) (adminId id : ObjectId) (n : string) (d : Db) (c : doc) (o : User.t) :
  let out := ClaimsController.reviewClaimManual E adminId id (Some true) n d in
  findById id (claims d) = Some c ->
  User.findById (userId (claimDetails c)) (users d) = Some o ->
  n <> ""%string ->
  (String.length n <= 500)%nat ->
  (0 <= total E c)%Q ->
  fst out = Done "Claim approved"
  /\ option_map statuses (findById id (claims (snd out)))
     = Some (statuses c ++ [Approved; Paid])
  /\ option_map (fun x => payoutAmount (evaluation x)) (findById id (claims (snd out)))
     = Some (Some (total E c))
  /\ (exists o', User.findById (userId (claimDetails c)) (users (snd out)) = Some o'
                 /\ User.claims o'
                    = User.claims o
                      ++ [User.Build_HistoryClaim id "Paid" (createdAt c)
                            (Some (total E c))]
                 /\ User.fraudScore o' = User.fraudScore o)
  /\ outbox (snd out)
     = outbox d ++ [Build_Email (User.email o) "Claim Approved - CCI"
                      (ClaimReviewed id "approved" n)].
Proof.
  intros out Hc Ho Hn _ _. pose proof (findById_id _ _ _ Hc) as Hid.
  unfold out, ClaimsController.reviewClaimManual.
  apply String.eqb_neq in Hn. rewrite Hn, Hc.
  pose proof (review_valid_state E adminId n c d) as Hrun. cbv zeta in Hrun.
  rewrite Hrun. clear Hrun. cbn [db users].
  rewrite (User_findById_push _ _ _ o Ho).
  cbn [fst snd sendEmail claims users outbox User.push_claim User.email].
  split; [reflexivity|]. rewrite Hid.
  match goal with
  | |- context [findById id (upsert ?x ?coll)] =>
    replace (findById id (upsert x coll)) with (Some x)
      by (symmetry; replace id with (_id x) at 1 by (rewrite <- Hid; reflexivity);
          apply findById_upsert)
  end.
  cbn [option_map].
  split.
  { unfold statuses, appended.
    cbn [history set_history set_evaluation paidOut].
    rewrite !map_app, <- app_assoc. reflexivity. }
  split; [reflexivity|].
  split; [|reflexivity].
  eexists. split; [apply User_findById_push; exact Ho|].
  cbn [User.push_claim User.claims User.fraudScore]. split; reflexivity.
Qed.

(** The claim 400 of the creator as the store returns it, already Paid, is
    approved and paid once more. *)
Lemma reviewClaimManual_ignores_status_witness :
  let E := env 105 steadyThenDrop (Some 65000%Q) false in
  let out := ClaimsController.reviewClaimManual E 9 400 (Some true) "again"
               (store [earlierPaid] schemaShaped) in
  fst out = Done "Claim approved"
  /\ option_map statuses (findById 400 (claims (snd out)))
     = Some [Submitted; Approved; Paid; Approved; Paid]
  /\ map (fun u => map User.status (User.claims u)) (users (snd out)) = [["Paid"%string]].
Proof.
  intros E out.
  destruct (reviewClaimManual_ignores_status E 9 400 "again" (store [earlierPaid] schemaShaped)
              earlierPaid schemaShaped) as (Hd & Hs & _).
  - reflexivity.
  - reflexivity.
  - discriminate.
  - cbn. lia.
  - unfold Qle. vm_compute. discriminate.
  - split; [exact Hd|]. split; [exact Hs|]. vm_compute. reflexivity.
Defined.

(** One turn of the bulk review ends on the status of the decision. *)
Lemma reviewOne_last (E : Env) (adminId : ObjectId) (valid : bool) (n : string) (s : Ctx) :
  currentStatus (this (snd (AdminClaimsController.reviewOne E adminId valid n s)))
  = Some (if valid then Approved else Rejected).
Proof.
  destruct valid.
  - apply (currentStatus_of_statuses _ (statuses (this s) ++ [Paid])).
    rewrite reviewOne_valid_order, <- app_assoc. reflexivity.
  - unfold AdminClaimsController.reviewOne.
    rewrite bind_eq, setEvaluation_run. cbv beta iota.
    rewrite bind_eq, ret_run. cbv beta iota.
    rewrite bind_eq, updateStatus_run. cbv beta iota. rewrite ret_run.
    cbn [snd this saved]. apply currentStatus_appended.
Qed.

(** X15.  The bulk review looks at the status: once a review of a claim has
    gone through, every further bulk review of that claim is refused as not
    eligible and changes nothing. *)
Theorem bulk_review_only_once
    (E : Env) (adminId : ObjectId) (r : AdminClaimsController.ReviewItem) (d d' : Db)
    (id : ObjectId) (msg : string) (p : Q) :
  AdminClaimsController.reviewItem E adminId r d
  = (Normal (AdminClaimsController.Reviewed id msg p), d') ->
  forall (E' : Env) (adminId' : ObjectId) (v : bool) (n : string),
    n <> ""%string ->
    AdminClaimsController.reviewItem E' adminId'
      (AdminClaimsController.Build_ReviewItem (Some id) (Some v) n) d'
    = (Normal (AdminClaimsController.NotReviewed (Some id)
                 "Claim not eligible for manual review"), d').
Proof.
  intros Hrun E' adminId' v n Hn.
  unfold AdminClaimsController.reviewItem in Hrun.
  destruct (AdminClaimsController.claimId r) as [i|]; [|discriminate Hrun].
  destruct (AdminClaimsController.isValid r) as [b|]; [|discriminate Hrun].
  destruct (String.eqb (AdminClaimsController.notes r) ""); [discriminate Hrun|].
  destruct (findById i (claims d)) as [c|] eqn:Hc; [|discriminate Hrun].
  destruct (lastEntry c) as [h|]; [|discriminate Hrun].
  destruct (status_eqb (status h) UnderReview || status_eqb (status h) ManualReview);
    [|discriminate Hrun].
  pose proof (stable_reviewOne E adminId b (AdminClaimsController.notes r)
                (Build_Ctx c d) (recorded_found _ _ _ Hc)) as (Hrec & Hid & _).
  pose proof (reviewOne_last E adminId b (AdminClaimsController.notes r) (Build_Ctx c d))
    as Hlast.
  destruct (AdminClaimsController.reviewOne E adminId b (AdminClaimsController.notes r)
              (Build_Ctx c d)) as [[q|e] s] eqn:Hone; [|discriminate Hrun].
  cbn [snd this] in *.
  destruct (User.findById (userId (claimDetails c)) (users (db s))) as [o|];
    [|discriminate Hrun].
  injection Hrun as Hi _ _ Hd. subst i d'.
  unfold recorded in Hrec. rewrite Hid, (findById_id _ _ _ Hc) in Hrec.
  unfold AdminClaimsController.reviewItem.
  cbn [AdminClaimsController.claimId AdminClaimsController.isValid
       AdminClaimsController.notes sendEmail claims].
  apply String.eqb_neq in Hn. rewrite Hn.
  destruct (findById id (claims (db s))) as [x|]; [|discriminate Hrec].
  cbn [option_map] in Hrec. injection Hrec as _ Hh.
  destruct (lastEntry_status _ _ Hlast) as (h' & Hh' & Hs').
  unfold lastEntry in *. rewrite Hh, Hh', Hs'. destruct b; reflexivity.
Qed.

(** The held claim 500 is approved in bulk; a second bulk review of it,
    now as invalid, is refused. *)
Lemma bulk_review_only_once_witness :
  let E := env 105 steadyThenDrop (Some 65000%Q) false in
  let item := AdminClaimsController.Build_ReviewItem (Some 500) (Some true) "verified" in
  let first := AdminClaimsController.reviewItem E 9 item (store [heldClaim] creator) in
  fst (AdminClaimsController.reviewItem E 9
         (AdminClaimsController.Build_ReviewItem (Some 500) (Some false) "no") (snd first))
  = Normal (AdminClaimsController.NotReviewed (Some 500)
              "Claim not eligible for manual review").
Proof.
  intros E item first.
  assert (H : exists msg p d',
             AdminClaimsController.reviewItem E 9 item (store [heldClaim] creator)
             = (Normal (AdminClaimsController.Reviewed 500 msg p), d')).
  { eexists. eexists. eexists. vm_compute. reflexivity. }
  destruct H as (msg & p & d' & H).
  unfold first. rewrite H. cbn [snd].
  assert (Hn : "no"%string <> ""%string) by discriminate.
  pose proof (bulk_review_only_once E 9 item _ d' 500 msg p H E 9 false "no" Hn) as K.
  exact (f_equal fst K).
Defined.

(** What a result says of the review it answers. *)
Lemma reviewItem_answers (E : Env) (adminId : ObjectId)
    (r : AdminClaimsController.ReviewItem) (d d' : Db)
    (res : AdminClaimsController.ItemResult) :
  AdminClaimsController.reviewItem E adminId r d = (Normal res, d') ->
  match res with
  | AdminClaimsController.Reviewed id msg p =>
    AdminClaimsController.claimId r = Some id
    /\ exists v, AdminClaimsController.isValid r = Some v
                 /\ msg = (if v then "Claim approved" else "Claim rejected")%string
                 /\ (v = false -> p = 0%Q)
  | AdminClaimsController.NotReviewed cid _ => cid = AdminClaimsController.claimId r
  end.
Proof.
  unfold AdminClaimsController.reviewItem.
  destruct (AdminClaimsController.claimId r) as [i|];
    [|destruct (AdminClaimsController.isValid r);
      intros H; injection H as <- _; reflexivity].
  destruct (AdminClaimsController.isValid r) as [b|];
    [|intros H; injection H as <- _; reflexivity].
  destruct (String.eqb (AdminClaimsController.notes r) "");
    [intros H; injection H as <- _; reflexivity|].
  destruct (findById i (claims d)) as [c|]; [|intros H; injection H as <- _; reflexivity].
  destruct (lastEntry c) as [h|]; [|discriminate].
  destruct (status_eqb (status h) UnderReview || status_eqb (status h) ManualReview);
    [|intros H; injection H as <- _; reflexivity].
  destruct (AdminClaimsController.reviewOne E adminId b (AdminClaimsController.notes r)
              (Build_Ctx c d)) as [[q|e] s];
    [|intros H; injection H as <- _; reflexivity].
  destruct (User.findById (userId (claimDetails c)) (users (db s))) as [o|];
    intros H; injection H as <- _; [|reflexivity].
  split; [reflexivity|]. exists b. split; [reflexivity|].
  split; [destruct b; reflexivity|]. intros ->. reflexivity.
Qed.

Lemma reviewAll_answers (E : Env) (adminId : ObjectId)
    (reviews : list AdminClaimsController.ReviewItem) :
  forall (d d' : Db) (results : list AdminClaimsController.ItemResult),
    AdminClaimsController.reviewAll E adminId reviews d = (Normal results, d') ->
    Forall2 (fun r res =>
      match res with
      | AdminClaimsController.Reviewed id msg p =>
        AdminClaimsController.claimId r = Some id
        /\ exists v, AdminClaimsController.isValid r = Some v
                     /\ msg = (if v then "Claim approved" else "Claim rejected")%string
                     /\ (v = false -> p = 0%Q)
      | AdminClaimsController.NotReviewed cid _ => cid = AdminClaimsController.claimId r
      end) reviews results.
Proof.
  induction reviews as [|r rest IH]; intros d d' results H;
    cbn [AdminClaimsController.reviewAll] in H.
  - injection H as <- _. constructor.
  - destruct (AdminClaimsController.reviewItem E adminId r d) as [[res|e] d1] eqn:Hitem;
      [|discriminate H].
    destruct (AdminClaimsController.reviewAll E adminId rest d1) as [[more|e] d2] eqn:Hrest;
      [|discriminate H].
    injection H as <- _. constructor.
    + apply (reviewItem_answers _ _ _ _ _ _ Hitem).
    + apply (IH _ _ _ Hrest).
Qed.

(** X16.  A bulk review that is answered reports on every review of a
    non-empty request, one result each and in the order of the request: the
    i-th result carries the claim id of the i-th review, and when it reports
    a review that went through, its message is the decision of that review
    and its payout is 0 for a rejection.  A refused or failed review does
    not end the loop. *)
Theorem bulkReviewClaims_one_result_each
    (E : Env) (adminId : ObjectId) (reviews : list AdminClaimsController.ReviewItem)
    (d d' : Db) (results : list AdminClaimsController.ItemResult) :
  AdminClaimsController.bulkReviewClaims E adminId reviews d = (Normal (inr results), d') ->
  reviews <> []
  /\ List.length results = List.length reviews
  /\ Forall2 (fun r res =>
       match res with
       | AdminClaimsController.Reviewed id msg p =>
         AdminClaimsController.claimId r = Some id
         /\ exists v, AdminClaimsController.isValid r = Some v
                      /\ msg = (if v then "Claim approved" else "Claim rejected")%string
                      /\ (v = false -> p = 0%Q)
       | AdminClaimsController.NotReviewed cid _ => cid = AdminClaimsController.claimId r
       end) reviews results.
Proof.
  unfold AdminClaimsController.bulkReviewClaims. intros H.
  destruct reviews as [|r rest]; [discriminate H|].
  split; [discriminate|].
  destruct (AdminClaimsController.reviewAll E adminId (r :: rest) d) as [[res|e] d1] eqn:Hall;
    [|discriminate H].
  injection H as <- _.
  pose proof (reviewAll_answers _ _ _ _ _ _ Hall) as Hf.
  split; [symmetry; apply (Forall2_length Hf)|exact Hf].
Qed.

(** An unknown claim, the held claim, and a review without notes: three
    results, for the claims 1, 500 and 500, the second one approved. *)
Lemma bulkReviewClaims_one_result_each_witness :
  let E := env 105 steadyThenDrop (Some 65000%Q) false in
  let reviews :=
    [AdminClaimsController.Build_ReviewItem (Some 1) (Some true) "unknown";
     AdminClaimsController.Build_ReviewItem (Some 500) (Some true) "verified";
     AdminClaimsController.Build_ReviewItem (Some 500) (Some true) ""] in
  exists results d',
    AdminClaimsController.bulkReviewClaims E 9 reviews (store [heldClaim] schemaShaped)
    = (Normal (inr results), d')
    /\ List.length results = 3%nat.
Proof.
  intros E reviews.
  assert (H : exists results d',
             AdminClaimsController.bulkReviewClaims E 9 reviews
               (store [heldClaim] schemaShaped)
             = (Normal (inr results), d')).
  { eexists. eexists. vm_compute. reflexivity. }
  destruct H as (results & d' & H). exists results, d'. split; [exact H|].
  destruct (bulkReviewClaims_one_result_each E 9 reviews _ d' results H) as (_ & Hl & _).
  exact Hl.
Defined.

(** ** What determines the price of a premium *)

(** The percentage and the amount a recalculation arrives at: they depend
    on the base percentage and on the user, not on the price stored. *)
Lemma recalculatePremium_run (now_ : Date) (users_ : list User.t) (admin : option ObjectId)
    (p : Premium.t) (u : User.t) :
  User.findById (Premium.userId p) users_ = Some u ->
  let low := Qltb (if Qgtb (User.fraudScore u) 90 then (1 # 2)%Q else (3 # 2)%Q) 1 in
  let discount' :=
    if low then Premium.Build_Discount 10 "Low fraud + preventive AI discount" 5
    else Premium.discount p in
  let pct := clamp 2 5 (Premium.basePercentage p - (if low then 10 else 0) / 100)%Q in
  let amt := clamp 1000 5000 ((pct / 100) * num_or (Some (User.monthlyEarnings u)) 0)%Q in
  Premium.recalculatePremium now_ users_ admin p
  = (Normal (pct, amt),
     Premium.Build_t (Premium._id p) (Premium.userId p) (Premium.basePercentage p)
       discount' pct amt (Premium.monthlyCap p) (Premium.manualAdjustment p)
       (Premium.adjustmentHistory p)
       (Premium.calculations p
        ++ [Premium.Build_Calculation now_ (Premium.basePercentage p) discount' pct amt admin])
       (now_ + 30 * DAY_MS)).
Proof.
  intros Hu low discount' pct amt.
  unfold Premium.recalculatePremium, Premium.checkContentReviewDiscount.
  rewrite !bind_eq, get_run. cbv beta iota.
  rewrite bind_eq, (the_user_run _ _ u p Hu). cbv beta iota zeta.
  rewrite bind_eq. unfold modify at 1. cbv beta iota. rewrite ret_run.
  rewrite bind_eq, get_run. cbv beta iota.
  rewrite bind_eq. cbn [Premium.userId].
  rewrite (the_user_run _ _ u _ Hu). cbv beta iota zeta.
  rewrite bind_eq. unfold modify. cbv beta iota. rewrite ret_run.
  unfold amt, pct, discount', low.
  destruct (Qgtb (User.fraudScore u) 90); reflexivity.
Qed.

Lemma adjustPremium_keeps (now_ : Date) (users_ : list User.t) (delta : Q) (why : string)
    (by_ : ObjectId) (p : Premium.t) (u : User.t) :
  User.findById (Premium.userId p) users_ = Some u ->
  let p' := snd (Premium.adjustPremium now_ users_ delta why by_ p) in
  Premium.userId p' = Premium.userId p
  /\ Premium.basePercentage p' = Premium.basePercentage p
  /\ Premium.discount p' = Premium.discount p
  /\ Premium.finalAmount p'
     = clamp 1000 5000 (Premium.finalAmount p * (1 + delta / 100))%Q
  /\ exists a, Premium.manualAdjustment p' = Some a
               /\ Premium.adjPercentage a = delta
               /\ Premium.newFinalAmount a = Premium.finalAmount p'.
Proof.
  intros Hu. unfold Premium.adjustPremium.
  rewrite bind_eq, get_run. cbv beta iota.
  rewrite bind_eq, (the_user_run _ _ u p Hu). cbv beta iota zeta.
  rewrite bind_eq. unfold modify. cbv beta iota. rewrite ret_run.
  cbn [snd Premium.userId Premium.basePercentage Premium.discount Premium.finalAmount
       Premium.manualAdjustment].
  repeat (split; [reflexivity|]). eexists. repeat split.
Qed.

(** X17.  A manual adjustment does not survive the next recalculation: the
    recalculated percentage and amount are those the premium would have had
    without the adjustment, while the adjustment stays on record. *)
Theorem recalculation_forgets_adjustment
    (now_ later : Date) (users_ : list User.t) (delta : Q) (why : string) (by_ : ObjectId)
    (admin : option ObjectId) (p : Premium.t) (u : User.t) :
  User.findById (Premium.userId p) users_ = Some u ->
  let adjusted := snd (Premium.adjustPremium now_ users_ delta why by_ p) in
  let plain := Premium.recalculatePremium later users_ admin p in
  let after := Premium.recalculatePremium later users_ admin adjusted in
  fst after = fst plain
  /\ Premium.finalPercentage (snd after) = Premium.finalPercentage (snd plain)
  /\ Premium.finalAmount (snd after) = Premium.finalAmount (snd plain)
  /\ Premium.manualAdjustment (snd after) = Premium.manualAdjustment adjusted
  /\ Premium.manualAdjustment adjusted <> None.
Proof.
  intros Hu adjusted plain after.
  destruct (adjustPremium_keeps now_ users_ delta why by_ p u Hu)
    as (Hid & Hbase & Hdisc & _ & (a & Ha & _)).
  fold adjusted in Hid, Hbase, Hdisc, Ha.
  assert (Hu' : User.findById (Premium.userId adjusted) users_ = Some u)
    by (rewrite Hid; exact Hu).
  pose proof (recalculatePremium_run later users_ admin p u Hu) as Hp.
  pose proof (recalculatePremium_run later users_ admin adjusted u Hu') as Ha'.
  cbv zeta in Hp, Ha'. unfold after, plain. rewrite Hp, Ha'. rewrite Hbase.
  cbn [fst snd Premium.finalPercentage Premium.finalAmount Premium.manualAdjustment].
  repeat (split; [reflexivity|]). rewrite Ha. discriminate.
Qed.

(** A premium of 2000 raised by 100% to 4000 is back at 2000 after the
    recalculation. *)
Lemma recalculation_forgets_adjustment_witness :
  let adjusted := snd (Premium.adjustPremium (day 105) [creator] 100 "risk review" 9
                         (policy (Some 65000%Q))) in
  (Premium.finalAmount adjusted == 4000)%Q
  /\ (Premium.finalAmount
        (snd (Premium.recalculatePremium (day 106) [creator] None adjusted)) == 2000)%Q.
Proof.
  intros adjusted.
  destruct (recalculation_forgets_adjustment (day 105) (day 106) [creator] 100 "risk review"
              9 None (policy (Some 65000%Q)) creator) as (_ & _ & Hamt & _).
  - reflexivity.
  - split; [reflexivity|]. unfold adjusted. rewrite Hamt. reflexivity.
Defined.

(** X18.  Recalculating twice gives the price of recalculating once; only
    the calculation history grows, by one entry per run, and the due date
    moves. *)
Theorem recalculatePremium_idempotent
    (now_ later : Date) (users_ : list User.t) (admin admin' : option ObjectId)
    (p : Premium.t) (u : User.t) :
  User.findById (Premium.userId p) users_ = Some u ->
  let once := Premium.recalculatePremium now_ users_ admin p in
  let twice := Premium.recalculatePremium later users_ admin' (snd once) in
  fst twice = fst once
  /\ Premium.finalPercentage (snd twice) = Premium.finalPercentage (snd once)
  /\ Premium.finalAmount (snd twice) = Premium.finalAmount (snd once)
  /\ Premium.discount (snd twice) = Premium.discount (snd once)
  /\ List.length (Premium.calculations (snd twice))
     = S (S (List.length (Premium.calculations p)))
  /\ Premium.dueDate (snd twice) = later + 30 * DAY_MS.
Proof.
  intros Hu once twice.
  pose proof (recalculatePremium_run now_ users_ admin p u Hu) as Hp.
  cbv zeta in Hp. unfold twice, once. rewrite Hp. cbn [snd].
  match goal with
  | |- context [Premium.recalculatePremium later users_ admin' ?q] =>
    pose proof (recalculatePremium_run later users_ admin' q u Hu) as Hq
  end.
  cbv zeta in Hq. rewrite Hq. clear Hp Hq.
  cbn [fst snd Premium.finalPercentage Premium.finalAmount Premium.discount
       Premium.calculations Premium.dueDate Premium.basePercentage].
  split; [reflexivity|]. split; [reflexivity|]. split; [reflexivity|].
  split; [destruct (Qltb _ 1); reflexivity|].
  split; [|reflexivity].
  rewrite !length_app. cbn [List.length]. lia.
Qed.

Lemma recalculatePremium_idempotent_witness :
  let once := Premium.recalculatePremium (day 105) [creator] None (policy (Some 65000%Q)) in
  let twice := Premium.recalculatePremium (day 135) [creator] (Some 9) (snd once) in
  fst twice = fst once
  /\ List.length (Premium.calculations (snd twice)) = 2%nat.
Proof.
  intros once twice.
  destruct (recalculatePremium_idempotent (day 105) (day 135) [creator] None (Some 9)
              (policy (Some 65000%Q)) creator) as (Hr & _ & _ & _ & Hl & _).
  - reflexivity.
  - split; [exact Hr|exact Hl].
Defined.

Lemma clamp_at_floor (lo hi x : Q) : (x <= lo)%Q -> (clamp lo hi x == lo)%Q.
Proof.
  intros H. unfold clamp. apply Q.max_r. pose proof (Q.le_min_l x hi). lra.
Qed.

Lemma clamp_compat (lo hi x y : Q) : (x == y)%Q -> (clamp lo hi x == clamp lo hi y)%Q.
Proof.
  intros H. unfold clamp. apply Q.max_compat; [|reflexivity].
  apply Q.min_compat; [exact H|reflexivity].
Qed.

(** X19.  For a premium created from an application (base percentage 2)
    the low-fraud discount is recorded and reported but changes no price:
    whatever the standing of the user, the final percentage is 2 and the
    final amount is 2% of the monthly earnings, kept within 1000..5000. *)
Theorem discount_changes_no_price_at_base_rate
    (now_ : Date) (id : ObjectId) (applicant : User.t) (users_ : list User.t)
    (p : Premium.t) (u : User.t) :
  Premium.createFromApplication now_ id (Some applicant) = Normal p ->
  User.findById (Premium.userId p) users_ = Some u ->
  exists p',
    Premium.checkContentReviewDiscount users_ p = (Normal (Qgtb (User.fraudScore u) 90), p')
    /\ (Premium.finalPercentage p' == 2)%Q
    /\ (Premium.finalAmount p'
        == clamp 1000 5000 ((2 / 100) * num_or (Some (User.monthlyEarnings u)) 0))%Q
    /\ (Qgtb (User.fraudScore u) 90 = true ->
        Premium.percentage (Premium.discount p') = 10%Q).
Proof.
  intros Hp Hu.
  assert (Hbase : Premium.basePercentage p = 2%Q).
  { unfold Premium.createFromApplication in Hp.
    destruct (Qltb (User.monthlyEarnings applicant) 65000); [discriminate Hp|].
    destruct (Qltb (User.fraudScore applicant) 70); [discriminate Hp|].
    destruct (Premium.estimatePremium applicant) as [[pct amount]|]; [|discriminate Hp].
    injection Hp as <-. reflexivity. }
  unfold Premium.checkContentReviewDiscount.
  rewrite bind_eq, get_run. cbv beta iota.
  rewrite bind_eq, (the_user_run _ _ u p Hu). cbv beta iota zeta.
  rewrite bind_eq. unfold modify. cbv beta iota. rewrite ret_run.
  rewrite Hbase. eexists.
  cbn [Premium.finalPercentage Premium.finalAmount Premium.discount].
  assert (Hpct : forall b : bool, (clamp 2 5 (2 - (if b then 10 else 0) / 100) == 2)%Q).
  { intros b. apply clamp_at_floor. destruct b; unfold Qle; vm_compute; discriminate. }
  split.
  { f_equal. f_equal. destruct (Qgtb (User.fraudScore u) 90); reflexivity. }
  split; [apply Hpct|].
  split; [apply clamp_compat; rewrite Hpct; reflexivity|].
  intros H. rewrite H. reflexivity.
Qed.

(** A creator with standing 95 and earnings of 100000: the discount of 10
    is on record, the price is 2% = 2000. *)
Lemma discount_changes_no_price_at_base_rate_witness :
  let trusted := User.set_fraudScore 95 creator in
  exists p p',
    Premium.createFromApplication (day 105) 7 (Some trusted) = Normal p
    /\ Premium.checkContentReviewDiscount [trusted] p = (Normal true, p')
    /\ (Premium.finalPercentage p' == 2)%Q
    /\ Premium.percentage (Premium.discount p') = 10%Q.
Proof.
  intros trusted.
  assert (Hp : exists p, Premium.createFromApplication (day 105) 7 (Some trusted) = Normal p).
  { eexists. vm_compute. reflexivity. }
  destruct Hp as [p Hp].
  assert (Hu : User.findById (Premium.userId p) [trusted] = Some trusted).
  { vm_compute in Hp. injection Hp as <-. reflexivity. }
  destruct (discount_changes_no_price_at_base_rate (day 105) 7 trusted [trusted] p trusted
              Hp Hu) as (p' & Hrun & Hpct & _ & Hd).
  exists p, p'. split; [exact Hp|]. split; [exact Hrun|]. split; [exact Hpct|].
  apply Hd. reflexivity.
Defined.

(** ** The values the pull and the scan store *)

Lemma mean_nonneg (l : list Analytics.Earning) (otherwise : Q) :
  Forall (fun e => (0 <= Analytics.amount e)%Q) l -> (0 <= otherwise)%Q ->
  (0 <= mean l otherwise)%Q.
Proof.
  intros Hl Ho. unfold mean.
  destruct (0 <? Z.of_nat (List.length l)) eqn:Hn; [|exact Ho].
  apply Z.ltb_lt in Hn. apply Qle_shift_div_l; [apply Qlength_pos, Hn|].
  pose proof (reduce_sum_nonneg Analytics.amount l Hl). lra.
Qed.

Lemma Forall_filter {A : Type} (P : A -> Prop) (f : A -> bool) (l : list A) :
  Forall P l -> Forall P (filter f l).
Proof.
  intros H. apply Forall_forall. intros x Hx. apply filter_In in Hx.
  rewrite Forall_forall in H. apply H, Hx.
Qed.

Lemma filter_length_le {A : Type} (f : A -> bool) (l : list A) :
  (List.length (filter f l) <= List.length l)%nat.
Proof.
  induction l as [|x t IH]; [reflexivity|]. cbn [filter].
  destruct (f x); cbn [List.length]; lia.
Qed.

(** X20.  With the non-negative amounts of the analytics schema, what the
    pull stores lies within the ranges of the claim schema: a drop between
    0 and 100, a baseline that is not negative, and between 3 and 10 lost
    days, so that no payout covers more than ten days. *)
Theorem autoPullData_within_schema_ranges (E : Env) (s : Ctx) (a : Analytics.t) :
  Analytics.findOne (userId (claimDetails (this s))) (analytics E) = Some a ->
  Forall (fun e => (0 <= Analytics.amount e)%Q) (Analytics.earningsHistory a) ->
  (0 <= Analytics.avgDailyRevenue90d a)%Q ->
  exists r s' d b,
    autoPullData E s = (Normal r, s')
    /\ revenueDropPercent (evaluation (this s')) = Some d /\ (0 <= d <= 100)%Q
    /\ baselineDaily (evaluation (this s')) = Some b /\ (0 <= b)%Q
    /\ 3 <= lostDays (evaluation (this s')) <= 10
    /\ 0 <= rawLostDays r <= 10.
Proof.
  intros Ha Hpos Havg. rewrite (autoPullData_run E s a Ha).
  eexists. eexists. eexists. eexists. split; [reflexivity|].
  cbn [this saved pulled evaluation set_evaluation revenueDropPercent baselineDaily lostDays
       set_strikes set_monetizationStatus set_lostDays set_baselineDaily
       set_revenueDropPercent].
  split; [reflexivity|].
  set (incident := incidentDate (claimDetails (this s))).
  assert (Hbase : (0 <= baselineAvg (pull incident a))%Q).
  { unfold pull. cbn [baselineAvg].
    apply mean_nonneg; [|exact Havg]. apply Forall_slice_last, Forall_filter, Hpos. }
  assert (Hraw : 0 <= rawLostDays (pull incident a) <= 10).
  { unfold pull. cbn [rawLostDays]. split; [lia|].
    match goal with
    | |- Z.of_nat (List.length (filter ?f ?l)) <= 10 =>
      pose proof (filter_length_le f l) as Hf;
      assert (Hl : (List.length l <= 10)%nat)
        by (unfold slice_first; rewrite length_firstn; lia)
    end.
    lia. }
  split.
  { unfold pull. cbn [drop].
    set (b := mean _ (Analytics.avgDailyRevenue90d a)).
    set (r := mean _ 0%Q).
    assert (Hr : (0 <= r)%Q).
    { apply mean_nonneg; [|lra]. apply Forall_slice_first, Forall_filter, Hpos. }
    unfold Qgtb, Qltb. destruct (Qle_bool b 0) eqn:Hb; cbn [negb]; [lra|].
    assert (Hb' : (0 < b)%Q).
    { destruct (Qlt_le_dec 0 b) as [H|H]; [exact H|].
      apply Qle_bool_iff in H. rewrite H in Hb. discriminate Hb. }
    assert (Hq : ((b - r) / b * b == b - r)%Q) by (field; lra).
    set (q := ((b - r) / b)%Q) in *.
    split; [apply Q.le_max_l|]. apply Q.max_lub; [lra|]. nra. }
  split; [reflexivity|]. split; [exact Hbase|]. split; [lia|exact Hraw].
Qed.

(** Scenario A: drop 90, baseline 1000, five lost days. *)
Lemma autoPullData_within_schema_ranges_witness :
  let E := env 105 steadyThenDrop (Some 65000%Q) false in
  let start := ctx (newClaim E 500 FullSuspension (day 100) NotStarted) (store [] creator) in
  exists r s', autoPullData E start = (Normal r, s')
               /\ lostDays (evaluation (this s')) = 5.
Proof.
  intros E start.
  destruct (autoPullData_within_schema_ranges E start steadyThenDrop)
    as (r & s' & d & b & Hrun & _).
  - reflexivity.
  - repeat constructor; vm_compute; discriminate.
  - unfold Qle. vm_compute. discriminate.
  - exists r, s'. split; [exact Hrun|].
    assert (H : snd (autoPullData E start) = s') by (rewrite Hrun; reflexivity).
    rewrite <- H. vm_compute. reflexivity.
Defined.

(** X21.  Inside the verification the copyright flag cannot fire: step 2
    has replaced the category by one mapped from the reported type, so the
    flag is 0, the reasons never name it, and the score is at least 40. *)
Theorem verification_never_flags_copyright (E : Env) (r : Pulled) (c : doc) (u : User.t)
    (v : list User.Video) :
  let flags := fraudFlags E (screened r c) u v in
  In ("copyrightMismatch"%string, 0) flags
  /\ ~ In "copyrightMismatch:25"%string (map render_flag (triggered flags))
  /\ 40 <= score E (screened r c) u v <= 100.
Proof.
  intros flags.
  assert (Hreason : reason_eqb (coveredReason (evaluation (screened r c))) COPYRIGHT = false).
  { cbn [screened pulled evaluation set_evaluation coveredReason set_doubleDipCheck
         set_coveredReason].
    destruct (incidentType (claimDetails c)); reflexivity. }
  unfold flags, score, totalPenalty, fraudFlags. rewrite Hreason. cbn [andb].
  cbn [map snd fold_left].
  split; [cbn [In]; tauto|].
  split.
  - unfold triggered. cbn [filter snd]. intros H.
    repeat match goal with
           | H : context [if ?x then _ else _] |- _ => destruct x
           | H : context [match ?x with _ => _ end] |- _ => destruct x
           end;
      cbn in H; repeat (destruct H as [H|H]; [discriminate H|]); exact H.
  - repeat match goal with
           | |- context [match ?x with _ => _ end] => destruct x
           end; lia.
Qed.

(** X22.  The floor of the fraud score is dead code: for every claim, user
    and list of uploads the seven flags add up to at most 85, so
    [Math.max(0, score)] is the score itself, between 15 and 100. *)
Theorem scanFraud_floor_unreachable (E : Env) (c : doc) (u : User.t)
    (v : list User.Video) :
  let flags := fraudFlags E c u v in
  List.length flags = 7%nat
  /\ 0 <= totalPenalty flags <= 85
  /\ Z.max 0 (100 - totalPenalty flags) = 100 - totalPenalty flags
  /\ 15 <= Z.max 0 (100 - totalPenalty flags) <= 100.
Proof.
  intros flags. pose proof (totalPenalty_range E c u v) as H. fold flags in H.
  split; [reflexivity|]. split; [exact H|]. split; lia.
Qed.

(** ** The list of pending claims *)

Lemma In_insertByDeadline (x c : doc) (l : list doc) :
  In x (ClaimsController.insertByDeadline c l) <-> x = c \/ In x l.
Proof.
  induction l as [|y t IH]; cbn [ClaimsController.insertByDeadline].
  - cbn [In]. intuition congruence.
  - destruct (ClaimsController.resolutionDeadline c <? ClaimsController.resolutionDeadline y);
      cbn [In]; [intuition congruence|]. rewrite IH. intuition congruence.
Qed.

Lemma In_sortByDeadline (x : doc) (l : list doc) :
  In x (ClaimsController.sortByDeadline l) <-> In x l.
Proof.
  unfold ClaimsController.sortByDeadline.
  induction l as [|y t IH]; cbn [fold_right]; [reflexivity|].
  rewrite In_insertByDeadline, IH. cbn [In]. intuition congruence.
Qed.

Lemma In_upsert (c : doc) (coll : list doc) : In c (upsert c coll).
Proof.
  unfold upsert. destruct (existsb (fun d => _id d =? _id c) coll) eqn:Hex.
  - apply existsb_exists in Hex. destruct Hex as (y & Hy & Hid).
    apply in_map_iff. exists y. rewrite Hid. split; [reflexivity|exact Hy].
  - apply in_or_app. right. left. reflexivity.
Qed.

Lemma pending_iff (now_ : Date) (d : Db) (c : doc) :
  In c (ClaimsController.getPendingDeadlineClaims now_ d)
  <-> In c (claims d)
      /\ now_ <= ClaimsController.resolutionDeadline c <= now_ + DAY_MS
      /\ ClaimsController.everInReview c = true.
Proof.
  unfold ClaimsController.getPendingDeadlineClaims.
  rewrite In_sortByDeadline, filter_In, !andb_true_iff, !Z.leb_le. tauto.
Qed.

Lemma everInReview_appended (E : Env) st by_ n m (c : doc) :
  ClaimsController.everInReview c = true ->
  ClaimsController.everInReview (appended E st by_ n m c) = true.
Proof.
  unfold ClaimsController.everInReview, appended. cbn [history set_history].
  intros H. rewrite existsb_app, H. reflexivity.
Qed.

(** The state an invalid single review leaves. *)
Lemma review_invalid_state (E : Env) (adminId : ObjectId) (n : string) (c : doc) (d : Db) :
  let c1 := set_evaluation
              (set_manualReview (Some (Build_Review adminId n false)) (evaluation c)) c in
  ClaimsController.review E adminId false n (Build_Ctx c d)
  = (Normal 0%Q,
     saved (appended E Rejected (Some adminId) (Text n) (Text "Rejected after review.") c1) d).
Proof.
  intros c1. unfold ClaimsController.review.
  rewrite bind_eq, setEvaluation_run. cbv beta iota.
  rewrite bind_eq, ret_run. cbv beta iota.
  rewrite bind_eq, updateStatus_run. cbv beta iota.
  rewrite bind_eq, !ret_run. reflexivity.
Qed.


